(** * Lost & Found backend (server.py): a shallow embedding and its properties

    The program is a small HTTP server over an SQLite store.  Each handler of
    [APIHandler] opens a connection, runs a few SQL statements and sends one
    JSON response.  The development models

    - the store as four tables ([Items], [Claims], [ItemStatus], [Employees]);
    - a connection as the pair of the committed store and the working copy of
      the connection, with [commit] and [rollback] moving one onto the other;
    - every storage call as fallible: an oracle says which call of a handler
      raises, and the handlers' [try]/[except] blocks are followed as written;
    - the request loop of [HTTPServer.serve_forever], which handles one request
      to completion before it takes the next.

    Four functions belong to SQLite and to the Python runtime rather than to
    the program: the date parser behind [julianday], the conversion of a text
    parameter compared with an INTEGER key, the summation behind [AVG], and
    [str] of an exception.  They are the fields of [Engine], over which
    everything is stated.

    A REAL of SQLite and a float of Python are IEEE 754 doubles.  A double is
    modelled by the rational it stands for, and an operation on doubles by the
    exact operation followed by the rounding to the nearest double
    ([binary64]). *)

From Stdlib Require Import ZArith QArith Qround Qabs Qpower String Ascii List Lia Lqa
  OrderedTypeEx.
From stdpp Require Import base option list gmap strings sorting fin_maps.

Set Warnings "-register-all".

Open Scope string_scope.
Open Scope Z_scope.

(** ** SQL values *)

(** A value as SQLite stores it (storage classes NULL, INTEGER, REAL, TEXT).
    A REAL is a double, given by its value. *)
Inductive sqlval :=
| VNull
| VInt (z : Z)
| VReal (q : Q)
| VText (s : string).

(** The order SQLite sorts by: NULL first, then numbers by value, then text
    byte by byte (collation BINARY). *)
Definition sql_leb (a b : sqlval) : bool :=
  match a, b with
  | VNull, _ => true
  | _, VNull => false
  | VInt x, VInt y => x <=? y
  | VInt x, VReal y => Qle_bool (inject_Z x) y
  | VReal x, VInt y => Qle_bool x (inject_Z y)
  | VReal x, VReal y => Qle_bool x y
  | (VInt _ | VReal _), VText _ => true
  | VText _, (VInt _ | VReal _) => false
  | VText s, VText t => String.leb s t
  end.

(** ** Python values (what [json.loads] gives and [json.dumps] takes) *)

(** A dict is the list of its items, in insertion order, with distinct keys.
    A float is a double, given by its value (the two zeros are not told
    apart).  A str is one of two kinds: [PStr s] is text that UTF-8 can
    encode, given by its encoding [s]; [PSurrogate s] is text in which a
    surrogate code point stands alone (what [json.loads] makes of the escape
    \ud800), which UTF-8 cannot encode; its [s] writes each such code point in
    the three bytes UTF-8 would use for a code point of that size. *)
Inductive pyval :=
| PNone
| PBool (b : bool)
| PInt (z : Z)
| PFloat (q : Q)
| PStr (s : string)
| PSurrogate (s : string)
| PList (l : list pyval)
| PDict (kv : list (string * pyval)).

(** [sqlite3.Row] to Python: the value of a column in [dict(row)]. *)
Definition py_of_sql (v : sqlval) : pyval :=
  match v with
  | VNull => PNone
  | VInt z => PInt z
  | VReal q => PFloat q
  | VText s => PStr s
  end.

(** [d[k]] on the pairs of a dict. *)
Fixpoint dict_get (k : string) (kv : list (string * pyval)) : option pyval :=
  match kv with
  | [] => None
  | (k', v) :: rest => if String.eqb k k' then Some v else dict_get k rest
  end.

(** ** Exceptions *)

Inductive exn :=
| DatabaseError (call : nat)   (* sqlite3 raised at this storage call of the handler *)
| ProgrammingError             (* a connection used when it is not open *)
| BindError (param : nat)      (* a parameter of a type sqlite3 cannot bind *)
| UnicodeEncodeError           (* a str parameter that UTF-8 cannot encode *)
| OverflowError                (* a Python int that does not fit INTEGER *)
| TypeError                    (* an operand of the wrong Python type *)
| KeyError                     (* a key that a dict does not have *)
| UnboundLocalError.           (* a local variable read before it was bound *)

(** ** What SQLite and the runtime contribute *)

Record Engine := {
  (** [julianday(v)] in milliseconds (SQLite's iJD); [None] is NULL, the
      result for a value that is no date. *)
  julianday : sqlval -> option Z;
  (** The key a text parameter stands for when compared with an INTEGER
      PRIMARY KEY column (NUMERIC affinity is applied to the parameter);
      [None] when the text is no integer and so equals no key. *)
  rowid_of_text : string -> option Z;
  (** [AVG] over the REAL values of the rows of a scan, of which there is at
      least one.  SQLite adds the doubles up in the order it meets the rows
      and divides the sum by their number; how the sum is rounded on the way
      depends on that order and on the version of SQLite (which compensates
      for the rounding from 3.44 on). *)
  real_avg : list Q -> Q;
  (** [str(e)]. *)
  str : exn -> string
}.

(** One reading of the clock: ['now'] as [datetime] and as [julianday]
    (milliseconds) see it. *)
Record instant := {
  datetime_now : string;
  julianday_now : Z
}.

(** The surroundings of one request: the clock at each storage call of the
    handler and whether that call raises.  Calls are numbered from 0 in the
    order the handler makes them. *)
Record Env := {
  now : nat -> instant;
  fault : nat -> bool
}.

(** ** The store *)

(** Modelled from the spec: schema.sql is not among the sources.  The columns
    are those the statements of server.py name; their meaning follows the
    data model of the spec (section 3).  The key [id] is the key of the table
    map, so it is unique by construction.  The claimed flag is the boolean of
    the spec, stored as 0/1.  Columns filled from request data hold whatever
    value was bound; no further column constraint is assumed. *)
Record Item := {
  name : sqlval;
  category : sqlval;
  description : sqlval;
  color : sqlval;
  dateFound : sqlval;
  foundAt : sqlval;
  isClaimed : bool;
  dateUpdated : sqlval
}.

(** Modelled from the spec: a Claim references exactly one Item (required),
    carries a status that the code compares with the text 'Pending' and sets
    to 'Approved', and optionally references the Employee who handled it. *)
Record Claim := {
  itemID : Z;
  ownerFirstName : sqlval;
  ownerLastName : sqlval;
  verificationCode : sqlval;
  claimDate : sqlval;
  verificationStatus : string;
  handledBy : option Z
}.

(** Modelled from the spec: a row of the append-only status history, with the
    three columns the INSERT of [approve_claim] fills. *)
Record ItemStatusRow := {
  status_itemID : Z;
  status : string;
  statusDate : string
}.

(** Modelled from the spec: staff, created out of band; names are text. *)
Record Employee := {
  firstName : option string;    (* text, or NULL *)
  lastName : option string;
  position : sqlval;
  itemsManaged : Z
}.

(** The database file.  Items, Claims and Employees map the INTEGER PRIMARY
    KEY [id] to the row; ItemStatus is the history in insertion order. *)
Record Db := {
  Items : gmap Z Item;
  Claims : gmap Z Claim;
  ItemStatus : list ItemStatusRow;
  Employees : gmap Z Employee
}.

Definition set_Items (f : gmap Z Item -> gmap Z Item) (d : Db) : Db :=
  {| Items := f (Items d); Claims := Claims d;
     ItemStatus := ItemStatus d; Employees := Employees d |}.

Definition set_Claims (f : gmap Z Claim -> gmap Z Claim) (d : Db) : Db :=
  {| Items := Items d; Claims := f (Claims d);
     ItemStatus := ItemStatus d; Employees := Employees d |}.

Definition set_ItemStatus (f : list ItemStatusRow -> list ItemStatusRow) (d : Db) : Db :=
  {| Items := Items d; Claims := Claims d;
     ItemStatus := f (ItemStatus d); Employees := Employees d |}.

(** ** Connections and handlers *)

(** The local variable [conn] of a handler. *)
Inductive ConnVar :=
| Unbound                 (* before [conn = get_db()] has returned *)
| Open (work : Db)        (* the connection's view: committed rows and its own writes *)
| Closed.

(** The state a handler runs in: what is committed in the database file, and
    the handler's connection. *)
Record HState := {
  disk : Db;
  conn : ConnVar
}.

Inductive result (A : Type) :=
| Ok (a : A)
| Raise (e : exn).
Arguments Ok {A} a.
Arguments Raise {A} e.

(** Statements that run in a handler: state passing with exceptions. *)
Definition M (A : Type) : Type := HState -> result A * HState.

Definition ret {A} (a : A) : M A := fun s => (Ok a, s).

Definition bind {A B} (m : M A) (f : A -> M B) : M B :=
  fun s => match m s with
           | (Ok a, s') => f a s'
           | (Raise e, s') => (Raise e, s')
           end.

Definition raise {A} (e : exn) : M A := fun s => (Raise e, s).

(** [try: m  except Exception as e: h e] *)
Definition try_except {A} (m : M A) (h : exn -> M A) : M A :=
  fun s => match m s with
           | (Ok a, s') => (Ok a, s')
           | (Raise e, s') => h e s'
           end.

Declare Scope handler_scope.
Delimit Scope handler_scope with handler.
Notation "x <- m ;; k" := (bind m (fun x => k))
  (at level 100, m at next level, right associativity) : handler_scope.
Notation "m ;; k" := (bind m (fun _ => k))
  (at level 100, right associativity) : handler_scope.
Open Scope handler_scope.

(** What a handler leaves for the client: the JSON response of [_send_json],
    or nothing when an exception leaves the handler. *)
Inductive Response :=
| Sent (status : Z) (body : pyval)
| Crashed.

Definition _send_json (data : pyval) (status : Z) : Response := Sent status data.

Section Storage.
Context (env : Env).

(** [conn = get_db()]: storage call [n] opens the database file. *)
Definition get_db (n : nat) : M unit :=
  fun s => if fault env n then (Raise (DatabaseError n), s)
           else (Ok tt, {| disk := disk s; conn := Open (disk s) |}).

(** [conn.execute(...)]: storage call [n] runs one statement on the view of
    the connection.  A statement that raises changes nothing. *)
Definition execute {A} (n : nat) (stmt : instant -> Db -> Db * A) : M A :=
  fun s => match conn s with
           | Open w =>
               if fault env n then (Raise (DatabaseError n), s)
               else let '(w', a) := stmt (now env n) w in
                    (Ok a, {| disk := disk s; conn := Open w' |})
           | _ => (Raise ProgrammingError, s)
           end.

(** [conn.commit()]: storage call [n] makes the view the committed state. *)
Definition commit (n : nat) : M unit :=
  fun s => match conn s with
           | Open w =>
               if fault env n then (Raise (DatabaseError n), s)
               else (Ok tt, {| disk := w; conn := Open w |})
           | _ => (Raise ProgrammingError, s)
           end.
End Storage.

(** [conn.rollback()]: the view goes back to the committed state. *)
Definition rollback : M unit :=
  fun s => match conn s with
           | Open _ => (Ok tt, {| disk := disk s; conn := Open (disk s) |})
           | _ => (Raise ProgrammingError, s)
           end.

(** [if conn: conn.rollback()] in an [except] clause: reading the variable
    raises when it was never bound. *)
Definition rollback_if_conn : M unit :=
  fun s => match conn s with
           | Unbound => (Raise UnboundLocalError, s)
           | _ => rollback s
           end.

(** [conn.close()]: writes that were not committed are dropped. *)
Definition close : M unit :=
  fun s => (Ok tt, {| disk := disk s; conn := Closed |}).

(** A handler runs on the committed store and leaves a committed store and a
    response.  A connection that is still open when the handler ends is
    dropped with its uncommitted writes. *)
Definition run (h : M Response) (db : Db) : Db * Response :=
  match h {| disk := db; conn := Unbound |} with
  | (Ok r, s) => (disk s, r)
  | (Raise _, s) => (disk s, Crashed)
  end.

(** ** Python operations the handlers use *)

(** Truth value of an object, as [or] and [if] test it. *)
Definition truthy (v : pyval) : bool :=
  match v with
  | PNone => false
  | PBool b => b
  | PInt z => negb (z =? 0)
  | PFloat q => negb (Qeq_bool q 0)
  | PStr s | PSurrogate s => negb (String.eqb s EmptyString)
  | PList l => match l with [] => false | _ => true end
  | PDict kv => match kv with [] => false | _ => true end
  end.

(** [a or b] *)
Definition py_or (a b : pyval) : pyval := if truthy a then a else b.

(** [k in s] for two strings: [k] occurs in [s]. *)
Fixpoint is_infix (k s : string) : bool :=
  String.prefix k s ||
  match s with
  | EmptyString => false
  | String _ s' => is_infix k s'
  end.

(** [k in data] for a string [k]. *)
Definition py_in (k : string) (data : pyval) : result bool :=
  match data with
  | PDict kv => Ok (bool_decide (is_Some (dict_get k kv)))
  | PList l =>
      Ok (existsb (fun v => match v with PStr s => String.eqb k s | _ => false end) l)
  | PStr s | PSurrogate s => Ok (is_infix k s)
  | _ => Raise TypeError
  end.

(** [all(k in data for k in keys)]: stops at the first key that is missing. *)
Fixpoint all_in (keys : list string) (data : pyval) : result bool :=
  match keys with
  | [] => Ok true
  | k :: rest =>
      match py_in k data with
      | Ok true => all_in rest data
      | Ok false => Ok false
      | Raise e => Raise e
      end
  end.

(** [data[k]] for a string [k]. *)
Definition py_subscript (data : pyval) (k : string) : result pyval :=
  match data with
  | PDict kv => match dict_get k kv with Some v => Ok v | None => Raise KeyError end
  | _ => Raise TypeError
  end.

(** Rounding to the nearest integer, ties to the even one. *)
Definition round_half_even (q : Q) : Z :=
  let f := Qfloor q in
  match (q - inject_Z f ?= 1 # 2)%Q with
  | Lt => f
  | Gt => f + 1
  | Eq => if Z.even f then f else f + 1
  end.

(** *** Doubles *)

(** The position of the leading bit of a positive rational: the [k] with
    [2 ^ k <= x < 2 ^ (k + 1)]. *)
Definition Qlog2 (x : Q) : Z :=
  let k := Z.log2 (Qnum x) - Z.log2 (Z.pos (Qden x)) in
  if Qle_bool (2 ^ k) x then k else k - 1.

(** The exponent of the last bit of the double nearest to [x]: a double has
    53 bits from its leading bit down, and no bit below [2 ^ -1074]. *)
Definition ulp_exponent (x : Q) : Z := Z.max (Qlog2 (Qabs x) - 52) (-1074).

(** The double nearest to [x], the one with the even last bit when two are
    as near (the rounding of every IEEE 754 operation).  The doubles end
    below [2 ^ 1024]; no number of the program comes near that. *)
Definition binary64 (x : Q) : Q :=
  let e := ulp_exponent x in
  (inject_Z (round_half_even (x / 2 ^ e)) * 2 ^ e)%Q.

(** [round(x, 2)] of a float: the decimal with two places nearest to the
    value of [x] (ties to the even last digit), then the double nearest to
    that decimal; written in lowest terms. *)
Definition round2 (q : Q) : Q :=
  Qred (binary64 (inject_Z (round_half_even (q * 100)) / 100)).

(** [round(v, 2)]: an int stays an int, a float is rounded to two decimals. *)
Definition py_round2 (v : pyval) : result pyval :=
  match v with
  | PInt z => Ok (PInt z)
  | PBool b => Ok (PInt (Z.b2z b))
  | PFloat q => Ok (PFloat (round2 q))
  | _ => Raise TypeError
  end.

(** How [sqlite3] binds the [i]-th parameter of a statement: a str is bound
    as its UTF-8 encoding, which a str with a lone surrogate does not have. *)
Definition bind_param (i : nat) (v : pyval) : result sqlval :=
  match v with
  | PNone => Ok VNull
  | PBool b => Ok (VInt (Z.b2z b))
  | PInt z =>
      if (- 2 ^ 63 <=? z) && (z <? 2 ^ 63) then Ok (VInt z) else Raise OverflowError
  | PFloat q => Ok (VReal q)
  | PStr s => Ok (VText s)
  | PSurrogate _ => Raise UnicodeEncodeError
  | PList _ | PDict _ => Raise (BindError i)
  end.

(** A pure computation that may raise, run inside a handler. *)
Definition lift {A} (r : result A) : M A := fun s => (r, s).

(** ** SQL expressions *)

(** The REAL that [julianday] returns for SQLite's count of milliseconds
    [iJD]: the double [iJD / 86400000.0].  (SQLite keeps [iJD] between 0 and
    464269060799999, the last millisecond of the year 9999, so [iJD] is a
    double itself.) *)
Definition jd_days (ms : Z) : Q := binary64 (inject_Z ms / inject_Z 86400000).

(** [CAST(x AS INTEGER)] of a REAL: the fraction is dropped (towards zero). *)
Definition cast_integer (q : Q) : Z := Z.quot (Qnum q) (Z.pos (Qden q)).

(** The rowid SQLite gives the next row of a table: one more than the largest
    in use, 1 in an empty table.  (A rowid is a signed 64-bit integer; SQLite
    does so as long as the largest rowid in use is below [2 ^ 63 - 1], and
    beyond that draws unused rowids at random.  The statements below that
    say which identifier a new row gets are stated for tables below that
    bound; the others use of the new identifier only that it was not in
    use.) *)
Definition max_rowid {R} (t : gmap Z R) : option Z :=
  foldr (fun k acc => Some (match acc with None => k | Some m => Z.max k m end))
        None (map fst (map_to_list t)).

Definition next_rowid {R} (t : gmap Z R) : Z :=
  match max_rowid t with
  | None => 1
  | Some m => m + 1
  end.

(** [ORDER BY dateFound DESC] and [ORDER BY itemsManaged DESC] on the rows of a
    scan. *)
Definition by_dateFound_desc : relation (Z * Item) :=
  fun a b => Is_true (sql_leb (dateFound (snd b)) (dateFound (snd a))).

Definition by_itemsManaged_desc : relation (Z * Employee) :=
  fun a b => Is_true (itemsManaged (snd b) <=? itemsManaged (snd a)).

#[global] Instance by_dateFound_desc_dec a b : Decision (by_dateFound_desc a b).
Proof. unfold by_dateFound_desc. apply _. Defined.

#[global] Instance by_itemsManaged_desc_dec a b : Decision (by_itemsManaged_desc a b).
Proof. unfold by_itemsManaged_desc. apply _. Defined.

(** [a || ' ' || b]: NULL when an operand is NULL. *)
Definition sql_full_name (a b : option string) : option string :=
  match a, b with
  | Some x, Some y => Some (x ++ " " ++ y)
  | _, _ => None
  end.

Definition py_of_text (t : option string) : pyval :=
  match t with
  | Some s => PStr s
  | None => PNone
  end.

(** Modelled from the spec: the trigger [trg_Item_BeforeUpdate], which the
    comment in [approve_claim] says fires on the UPDATE of Items, is defined
    in schema.sql, which is not among the sources.  The spec gives an Item one
    rule that a trigger on its updates can serve: the last-updated timestamp
    reflects the most recent mutation.  The trigger is that stamp on the row
    being updated; it touches no other row and no other table. *)
Definition trg_Item_BeforeUpdate (t : instant) (i : Item) : Item :=
  {| name := name i; category := category i; description := description i;
     color := color i; dateFound := dateFound i; foundAt := foundAt i;
     isClaimed := isClaimed i; dateUpdated := VText (datetime_now t) |}.

Section Handlers.
Context (E : Engine).

(** *** The statements *)

(** [julianday('now') - julianday(dateFound)], the difference of two doubles;
    [None] is NULL. *)
Definition days_since (t : instant) (found : sqlval) : option Q :=
  match julianday E found with
  | Some ms => Some (binary64 (jd_days (julianday_now t) - jd_days ms))
  | None => None
  end.

(** [CAST((julianday('now') - julianday(dateFound)) as INTEGER)] *)
Definition DaysUnclaimed (t : instant) (found : sqlval) : sqlval :=
  match days_since t found with
  | Some d => VInt (cast_integer d)
  | None => VNull
  end.

(** The rows of [SELECT ... FROM Items WHERE isClaimed = 0 ORDER BY dateFound DESC]. *)
Definition select_unclaimed (d : Db) : list (Z * Item) :=
  merge_sort by_dateFound_desc
    (filter (fun r => isClaimed (snd r) = false) (map_to_list (Items d))).

(** [dict(row)] for a row of [get_items]. *)
Definition item_listing (t : instant) (r : Z * Item) : pyval :=
  let i := snd r in
  PDict [("itemID", PInt (fst r));
         ("itemName", py_of_sql (name i));
         ("itemDescription", py_of_sql (description i));
         ("itemCategory", py_of_sql (category i));
         ("color", py_of_sql (color i));
         ("dateFound", py_of_sql (dateFound i));
         ("FoundAt", py_of_sql (foundAt i));
         ("isClaimed", PInt (Z.b2z (isClaimed i)));
         ("DaysUnclaimed", py_of_sql (DaysUnclaimed t (dateFound i)))].

(** [INSERT INTO Items (...) VALUES (?, ?, ?, ?, ?, ?, 0, datetime('now'))];
    the result is [cursor.lastrowid]. *)
Definition insert_item (p : list sqlval) (t : instant) (d : Db) : Db * Z :=
  let id := next_rowid (Items d) in
  let col n := nth n p VNull in
  let row := {| name := col 0%nat; category := col 1%nat; description := col 2%nat;
                color := col 3%nat; dateFound := col 4%nat; foundAt := col 5%nat;
                isClaimed := false; dateUpdated := VText (datetime_now t) |} in
  (set_Items (insert id row) d, id).

(** [SELECT id as itemID, name as itemName, ... FROM Items WHERE id = ?],
    then [cursor.fetchone()] and [dict(...)] of it. *)
Definition select_item (item_id : Z) (d : Db) : option pyval :=
  match Items d !! item_id with
  | Some i =>
      Some (PDict [("itemID", PInt item_id);
                   ("itemName", py_of_sql (name i));
                   ("itemCategory", py_of_sql (category i));
                   ("itemDescription", py_of_sql (description i));
                   ("color", py_of_sql (color i));
                   ("dateFound", py_of_sql (dateFound i));
                   ("FoundAt", py_of_sql (foundAt i))])
  | None => None
  end.

(** One row of the join of [get_claims], for a claim [c] with key [k]:
    [JOIN Items] drops the claim when its item is missing, [LEFT JOIN
    Employees] keeps it without an employee. *)
Definition claim_listing (d : Db) (r : Z * Claim) : option pyval :=
  let c := snd r in
  match Items d !! itemID c with
  | None => None
  | Some i =>
      let e := match handledBy c with
               | Some h => Employees d !! h
               | None => None
               end in
      let staff := match e with
                   | Some e => sql_full_name (firstName e) (lastName e)
                   | None => None
                   end in
      Some (PDict [("claimID", PInt (fst r));
                   ("claimDate", py_of_sql (claimDate c));
                   ("verificationCode", py_of_sql (verificationCode c));
                   ("OwnerFirstName", py_of_sql (ownerFirstName c));
                   ("OwnerLastName", py_of_sql (ownerLastName c));
                   ("itemName", py_of_sql (name i));
                   ("itemCategory", py_of_sql (category i));
                   ("FoundAtLocation", py_of_sql (foundAt i));
                   ("ManagingStaff",
                    PStr (match staff with Some s => s | None => "Unassigned" end))])
  end.

(** The rows of the SELECT of [get_claims]. *)
Definition select_pending_claims (d : Db) : list pyval :=
  omap (claim_listing d)
    (filter (fun r => verificationStatus (snd r) = "Pending") (map_to_list (Claims d))).

(** [SELECT itemID FROM Claims WHERE id = ? AND verificationStatus = 'Pending'],
    then [cursor.fetchone()]. *)
Definition select_pending_item (claim_id : string) (d : Db) : option Z :=
  match rowid_of_text E claim_id with
  | Some k =>
      match Claims d !! k with
      | Some c => if String.eqb (verificationStatus c) "Pending"
                  then Some (itemID c) else None
      | None => None
      end
  | None => None
  end.

Definition approved (c : Claim) : Claim :=
  {| itemID := itemID c; ownerFirstName := ownerFirstName c;
     ownerLastName := ownerLastName c; verificationCode := verificationCode c;
     claimDate := claimDate c; verificationStatus := "Approved";
     handledBy := handledBy c |}.

(** [UPDATE Claims SET verificationStatus = 'Approved' WHERE id = ?] *)
Definition update_claim_approved (claim_id : string) (d : Db) : Db :=
  match rowid_of_text E claim_id with
  | Some k => set_Claims (alter approved k) d
  | None => d
  end.

Definition mark_claimed (t : instant) (i : Item) : Item :=
  {| name := name i; category := category i; description := description i;
     color := color i; dateFound := dateFound i; foundAt := foundAt i;
     isClaimed := true; dateUpdated := VText (datetime_now t) |}.

(** [UPDATE Items SET isClaimed = 1, dateUpdated = datetime('now') WHERE id = ?];
    the trigger fires on the row before it is updated. *)
Definition update_item_claimed (item_id : Z) (t : instant) (d : Db) : Db :=
  set_Items (alter (fun i => mark_claimed t (trg_Item_BeforeUpdate t i)) item_id) d.

(** [INSERT INTO ItemStatus (itemID, status, statusDate)
     VALUES (?, 'Claimed', datetime('now'))] *)
Definition insert_item_status (item_id : Z) (t : instant) (d : Db) : Db :=
  set_ItemStatus
    (fun l => (l ++ [{| status_itemID := item_id; status := "Claimed";
                        statusDate := datetime_now t |}])%list) d.

(** [SELECT COUNT( * ), AVG(julianday('now') - julianday(dateFound))
     FROM Items WHERE isClaimed = 0]: AVG skips NULL and is NULL when nothing
    is left. *)
Definition select_unclaimed_stats (t : instant) (d : Db) : Z * option Q :=
  let rows := filter (fun r => isClaimed (snd r) = false) (map_to_list (Items d)) in
  let ages := omap (fun r => days_since t (dateFound (snd r))) rows in
  (Z.of_nat (length rows),
   match ages with
   | [] => None
   | _ => Some (real_avg E ages)
   end).

(** [SELECT COUNT( * ) FROM Items WHERE isClaimed = 1] *)
Definition select_claimed_count (d : Db) : Z :=
  Z.of_nat (length (filter (fun r => isClaimed (snd r) = true) (map_to_list (Items d)))).

(** [dict(row)] for a row of [get_employees]. *)
Definition employee_listing (r : Z * Employee) : pyval :=
  let e := snd r in
  PDict [("employeeID", PInt (fst r));
         ("firstName", py_of_text (firstName e));
         ("lastName", py_of_text (lastName e));
         ("position", py_of_sql (position e));
         ("ItemsManaged", PInt (itemsManaged e))].

(** The rows of [SELECT ... FROM Employees ORDER BY itemsManaged DESC]. *)
Definition select_employees (d : Db) : list (Z * Employee) :=
  merge_sort by_itemsManaged_desc (map_to_list (Employees d)).
End Handlers.

(** [[f(x) for x in l]] where [f] may raise. *)
Fixpoint map_result {A B} (f : nat -> A -> result B) (i : nat) (l : list A) : result (list B) :=
  match l with
  | [] => Ok []
  | x :: rest =>
      match f i x with
      | Ok y => match map_result f (S i) rest with
                | Ok ys => Ok (y :: ys)
                | Raise e => Raise e
                end
      | Raise e => Raise e
      end
  end.

(** ** The handlers of [APIHandler] *)

Section API.
Context (E : Engine).

(** The body of every [except Exception as e] clause. *)
Definition send_error_json (e : exn) : Response :=
  _send_json (PDict [("error", PStr (str E e))]) 500.

(** GET /api/items *)
Definition get_items (env : Env) : M Response :=
  try_except
    (get_db env 0 ;;
     items <- execute env 1
                (fun t d => (d, PList (map (item_listing E t) (select_unclaimed d)))) ;;
     close ;;
     ret (_send_json items 200))
    (fun e => ret (send_error_json e)).

Definition required : list string :=
  ["itemName"; "itemCategory"; "color"; "itemDescription"; "dateFound"; "FoundAt"].

(** POST /api/items *)
Definition add_item (env : Env) (data : pyval) : M Response :=
  try_except
    (present <- lift (all_in required data) ;;
     if negb present
     then ret (_send_json (PDict [("error", PStr "Missing required fields")]) 400)
     else
       get_db env 0 ;;
       values <- lift (map_result (fun _ k => py_subscript data k) 0
                         ["itemName"; "itemCategory"; "itemDescription";
                          "color"; "dateFound"; "FoundAt"]) ;;
       params <- lift (map_result bind_param 0 values) ;;
       item_id <- execute env 1 (insert_item params) ;;
       commit env 2 ;;
       row <- execute env 3 (fun _ d => (d, select_item item_id d)) ;;
       item <- match row with
               | Some item => ret item
               | None => raise TypeError
               end ;;
       close ;;
       ret (_send_json item 201))
    (fun e => ret (send_error_json e)).

(** GET /api/claims *)
Definition get_claims (env : Env) : M Response :=
  try_except
    (get_db env 0 ;;
     claims <- execute env 1 (fun _ d => (d, PList (select_pending_claims d))) ;;
     close ;;
     ret (_send_json claims 200))
    (fun e => ret (send_error_json e)).

(** POST /api/claims/:id/approve *)
Definition approve_claim (env : Env) (claim_id : string) : M Response :=
  try_except
    (get_db env 0 ;;
     execute env 1 (fun _ d => (d, tt)) ;;                      (* BEGIN TRANSACTION *)
     row <- execute env 2 (fun _ d => (d, select_pending_item E claim_id d)) ;;
     match row with
     | None =>
         rollback ;;
         ret (_send_json
                (PDict [("error", PStr "Claim not found or already processed")]) 404)
     | Some item_id =>
         execute env 3 (fun _ d => (update_claim_approved E claim_id d, tt)) ;;
         execute env 4 (fun t d => (update_item_claimed item_id t d, tt)) ;;
         execute env 5 (fun t d => (insert_item_status item_id t d, tt)) ;;
         commit env 6 ;;
         close ;;
         ret (_send_json
                (PDict [("success", PBool true); ("claimID", PStr claim_id);
                        ("itemID", PInt item_id)]) 200)
     end)
    (fun e => rollback_if_conn ;; ret (send_error_json e)).

(** GET /api/metrics *)
Definition get_metrics (env : Env) : M Response :=
  try_except
    (get_db env 0 ;;
     unclaimed <- execute env 1 (fun t d => (d, select_unclaimed_stats E t d)) ;;
     claimed <- execute env 2 (fun _ d => (d, select_claimed_count d)) ;;
     close ;;
     let avgDays := match snd unclaimed with
                    | Some q => PFloat q
                    | None => PNone
                    end in
     average <- lift (py_round2 (py_or avgDays (PInt 0))) ;;
     ret (_send_json
            (PList [PDict [("Status", PStr "Unclaimed");
                           ("TotalItems", py_or (PInt (fst unclaimed)) (PInt 0));
                           ("AverageDaysUnclaimed", average)];
                    PDict [("Status", PStr "Claimed");
                           ("TotalItems", py_or (PInt claimed) (PInt 0));
                           ("AverageDaysUnclaimed", PInt 0)]]) 200))
    (fun e => ret (send_error_json e)).

(** GET /api/employees *)
Definition get_employees (env : Env) : M Response :=
  try_except
    (get_db env 0 ;;
     employees <- execute env 1
                    (fun _ d => (d, PList (map employee_listing (select_employees d)))) ;;
     close ;;
     ret (_send_json employees 200))
    (fun e => ret (send_error_json e)).

(** *** The request loop *)

(** The requests [do_GET] and [do_POST] dispatch to a handler. *)
Inductive Request :=
| GetItems
| AddItem (data : pyval)
| GetClaims
| ApproveClaim (claim_id : string)
| GetMetrics
| GetEmployees.

Definition handle (env : Env) (r : Request) : Db -> Db * Response :=
  run (match r with
       | GetItems => get_items env
       | AddItem data => add_item env data
       | GetClaims => get_claims env
       | ApproveClaim claim_id => approve_claim env claim_id
       | GetMetrics => get_metrics env
       | GetEmployees => get_employees env
       end).

(** [HTTPServer.serve_forever]: the server is single-threaded; it handles a
    request to its end before it accepts the next one.  Each request comes
    with its own surroundings. *)
Fixpoint serve (reqs : list (Env * Request)) (db : Db) : Db * list Response :=
  match reqs with
  | [] => (db, [])
  | (env, r) :: rest =>
      let '(db1, resp) := handle env r db in
      let '(db2, resps) := serve rest db1 in
      (db2, resp :: resps)
  end.
End API.

(** ** Notions the statements below use *)

(** No storage call of the request raises. *)
Definition no_fault (env : Env) : Prop := forall n, fault env n = false.

(** The first of the given storage calls that raises. *)
Definition first_fault (env : Env) (calls : list nat) : option nat :=
  List.find (fault env) calls.

(** The requests that only read. *)
Definition is_read (r : Request) : Prop :=
  match r with
  | GetItems | GetClaims | GetMetrics | GetEmployees => True
  | AddItem _ | ApproveClaim _ => False
  end.

(** A string field of a request body: [data[k]] when [data] is an object
    that has a string under [k]. *)
Definition field (data : pyval) (k : string) : option string :=
  match data with
  | PDict kv => match dict_get k kv with
                | Some (PStr s) => Some s
                | _ => None
                end
  | _ => None
  end.

(** The field is present and is a string, of text that UTF-8 can encode,
    that is not empty. *)
Definition filled (data : pyval) (k s : string) : Prop :=
  field data k = Some s /\ s <> EmptyString.

(** The body is an object that has the value [v] under some key. *)
Definition carries (body : pyval) (v : pyval) : Prop :=
  exists kv k, body = PDict kv /\ In (k, v) kv.

(** The full record of an Item (spec, section 3): its identifier and its
    eight attributes. *)
Definition full_record (body : pyval) (id : Z) (i : Item) : Prop :=
  carries body (PInt id) /\
  carries body (py_of_sql (name i)) /\
  carries body (py_of_sql (category i)) /\
  carries body (py_of_sql (description i)) /\
  carries body (py_of_sql (color i)) /\
  carries body (py_of_sql (dateFound i)) /\
  carries body (py_of_sql (foundAt i)) /\
  carries body (PInt (Z.b2z (isClaimed i))) /\
  carries body (py_of_sql (dateUpdated i)).

(** No identifier of the table is the largest rowid. *)
Definition below_largest_rowid {R} (t : gmap Z R) : Prop :=
  forall k, is_Some (t !! k) -> k < 2 ^ 63 - 1.

(** The age in days of something found at [ms], at the time [t]: the exact
    number, of which SQLite computes a double. *)
Definition exact_days (t : instant) (ms : Z) : Q :=
  (inject_Z (julianday_now t - ms) / inject_Z 86400000)%Q.

Section Notions.
Context (E : Engine).

(** The four writes of an approval, on the store. *)
Definition approval (env : Env) (claim_id : string) (item_id : Z) (db : Db) : Db :=
  insert_item_status item_id (now env 5)
    (update_item_claimed item_id (now env 4) (update_claim_approved E claim_id db)).

(** The ages in days, as SQLite computes them, of the unclaimed items whose
    date found is a date, in the order of the scan. *)
Definition unclaimed_ages (t : instant) (db : Db) : list Q :=
  omap (fun r => days_since E t (dateFound (snd r)))
    (filter (fun r => isClaimed (snd r) = false) (map_to_list (Items db))).

(** What each read request answers on a given store. *)
Definition answers (reqs : list (Env * Request)) (db : Db) : list Response :=
  map (fun er => snd (handle E (fst er) (snd er) db)) reqs.
End Notions.

(** The responses of [approve_claim]. *)
Definition approved_json (claim_id : string) (item_id : Z) : Response :=
  Sent 200 (PDict [("success", PBool true); ("claimID", PStr claim_id);
                   ("itemID", PInt item_id)]).

Definition not_pending_json : Response :=
  Sent 404 (PDict [("error", PStr "Claim not found or already processed")]).

(** The claim [c'] is [c] in every column but the status. *)
Definition same_but_status (c c' : Claim) : Prop :=
  itemID c' = itemID c /\ ownerFirstName c' = ownerFirstName c /\
  ownerLastName c' = ownerLastName c /\ verificationCode c' = verificationCode c /\
  claimDate c' = claimDate c /\ handledBy c' = handledBy c.

(** The item [i'] is [i] in every column but the claimed flag and the
    last-updated timestamp. *)
Definition same_but_flag_and_stamp (i i' : Item) : Prop :=
  name i' = name i /\ category i' = category i /\ description i' = description i /\
  color i' = color i /\ dateFound i' = dateFound i /\ foundAt i' = foundAt i.

(** The row an approval appends to the status history. *)
Definition claimed_row (item_id : Z) (t : instant) : ItemStatusRow :=
  {| status_itemID := item_id; status := "Claimed"; statusDate := datetime_now t |}.

(** ** A sample store *)

(** SQLite's [julianday] on the dates of the sample, in milliseconds. *)
Definition sample_julianday (v : sqlval) : option Z :=
  match v with
  | VText "2024-01-03" => Some 212571000000000            (* 2460312.5 *)
  | VText "2024-01-01 04:00:00" => Some 212570841600000   (* 2460310.666... *)
  | VText "2023-12-30 12:00:00" => Some 212570697600000   (* 2460309.0 *)
  | VText "2023-12-28 12:00:00" => Some 212570524800000   (* 2460307.0 *)
  | VText "2023-12-26 12:00:00" => Some 212570352000000   (* 2460305.0 *)
  | VText "0500-01-01 04:00:00" => Some 164478096000000   (* 1903681.666... *)
  | _ => None
  end.

(** [AVG] as SQLite computes it before version 3.44: the doubles are added
    one by one, in the order given, and the sum is divided by their number.
    On the sample stores every sum is exact, so that any other way of adding
    up gives the same double. *)
Definition sample_avg (l : list Q) : Q :=
  Qred (binary64 (foldl (fun s v => binary64 (s + v)) 0%Q l /
                  inject_Z (Z.of_nat (length l)))).

Definition sample_engine : Engine :=
  {| julianday := sample_julianday;
     rowid_of_text := fun s => if String.eqb s "1" then Some 1
                               else if String.eqb s "2" then Some 2
                               else if String.eqb s "3" then Some 3
                               else if String.eqb s "9" then Some 9
                               else None;
     real_avg := sample_avg;
     str := fun e => match e with
                     | DatabaseError _ => "database is locked"
                     | _ => "error"
                     end |}.

(** Noon of 2024-01-01 (Julian day 2460311.0). *)
Definition noon : instant :=
  {| datetime_now := "2024-01-01 12:00:00"; julianday_now := 212570870400000 |}.

(** A request during which nothing fails. *)
Definition calm : Env := {| now := fun _ => noon; fault := fun _ => false |}.

(** A request whose UPDATE of Items (storage call 4 of an approval) fails. *)
Definition stormy : Env := {| now := fun _ => noon; fault := fun n => Nat.eqb n 4 |}.

Definition sample_item (found : string) (flag : bool) : Item :=
  {| name := VText "Umbrella"; category := VText "Accessories";
     description := VText "Black, folding"; color := VText "Black";
     dateFound := VText found; foundAt := VText "Library";
     isClaimed := flag; dateUpdated := VText "2023-12-31 09:00:00" |}.

Definition sample_claim (item : Z) (st : string) : Claim :=
  {| itemID := item; ownerFirstName := VText "Asha"; ownerLastName := VText "Rao";
     verificationCode := VText "V-100"; claimDate := VText "2023-12-31";
     verificationStatus := st; handledBy := None |}.

Definition sample_employee : Employee :=
  {| firstName := Some "Mira"; lastName := Some "Das";
     position := VText "Clerk"; itemsManaged := 5 |}.

(** Item 1 is unclaimed and has two pending claims (1 and 2); item 2 is
    claimed, by the approved claim 3. *)
Definition sample_db : Db :=
  {| Items := {[ 1 := sample_item "2023-12-30 12:00:00" false;
                 2 := sample_item "2023-12-28 12:00:00" true ]};
     Claims := {[ 1 := sample_claim 1 "Pending"; 2 := sample_claim 1 "Pending";
                  3 := sample_claim 2 "Approved" ]};
     ItemStatus := [{| status_itemID := 2; status := "Claimed";
                       statusDate := "2023-12-31 09:00:00" |}];
     Employees := {[ 7 := sample_employee ]} |}.

(** One item, dated a day and a half after [noon]. *)
Definition future_db : Db :=
  {| Items := {[ 1 := sample_item "2024-01-03" false ]};
     Claims := ∅; ItemStatus := []; Employees := ∅ |}.

(** Four in the morning of 2024-01-01 (Julian day 2460310.666...). *)
Definition early : instant :=
  {| datetime_now := "2024-01-01 04:00:00"; julianday_now := 212570841600000 |}.

(** A request at that time during which nothing fails. *)
Definition calm_early : Env := {| now := fun _ => early; fault := fun _ => false |}.

(** One item, found at four in the morning of the first day of the year 500:
    556629 days before [early], to the millisecond. *)
Definition ancient_db : Db :=
  {| Items := {[ 1 := sample_item "0500-01-01 04:00:00" false ]};
     Claims := ∅; ItemStatus := []; Employees := ∅ |}.

(** One item, found eight hours before [noon]. *)
Definition recent_db : Db :=
  {| Items := {[ 1 := sample_item "2024-01-01 04:00:00" false ]};
     Claims := ∅; ItemStatus := []; Employees := ∅ |}.

(** Three unclaimed items found 6, 2 and 4 days before [noon], in the order
    of their identifiers, and a claimed one. *)
Definition listing_db : Db :=
  {| Items := {[ 1 := sample_item "2023-12-26 12:00:00" false;
                 2 := sample_item "2023-12-30 12:00:00" false;
                 3 := sample_item "2023-12-28 12:00:00" false;
                 4 := sample_item "2023-12-30 12:00:00" true ]};
     Claims := ∅; ItemStatus := []; Employees := ∅ |}.


(** A registration with every field filled, and one whose name is empty. *)
Definition registration (n : string) : pyval :=
  PDict [("itemName", PStr n); ("itemCategory", PStr "Accessories");
         ("color", PStr "Black"); ("itemDescription", PStr "Black, folding");
         ("dateFound", PStr "2023-12-30 12:00:00"); ("FoundAt", PStr "Library")].

(** ** The request dispatch of [do_GET] and [do_POST] *)

(** [s.startswith(p)] *)
Definition startswith (s p : string) : bool := String.prefix p s.

(** [s.endswith(p)]: some tail of [s] is [p]. *)
Fixpoint endswith (s p : string) : bool :=
  String.eqb s p ||
  match s with
  | EmptyString => false
  | String _ s' => endswith s' p
  end.

(** [s.split(sep)] for a separator of one character: the pieces between its
    occurrences; a string without the separator is its only piece. *)
Fixpoint split (sep : ascii) (s : string) : list string :=
  match s with
  | EmptyString => [EmptyString]
  | String c s' =>
      if Ascii.eqb c sep then EmptyString :: split sep s'
      else match split sep s' with
           | piece :: pieces => String c piece :: pieces
           | [] => [String c EmptyString]
           end
  end.

(** What [open(path, 'rb')] and [f.read()] come to. *)
Inductive opened :=
| Content (content : string)     (* the bytes of the file *)
| NotFound                       (* [FileNotFoundError] *)
| Unreadable.                    (* any other exception, such as [PermissionError] *)

(** What the machine around the handlers contributes. *)
Record Host := {
  (** [json.loads(body)]; [None] is [JSONDecodeError]. *)
  json_loads : string -> option pyval;
  (** [json.loads(body)] raises something that is no [JSONDecodeError] (a
      [RecursionError], for a body nested too deep). *)
  json_loads_breaks : string -> bool;
  (** The file [open(path, 'rb')] finds. *)
  open_rb : string -> opened;
  (** [urlparse(target).path] of a request target; [None] is the [ValueError]
      that [urlparse] raises on a target it cannot take apart (an unmatched
      bracket where the host would be). *)
  urlparse_path : string -> option string;
  (** [int(v)] of the value of a header; [None] is [ValueError]. *)
  py_int : string -> option Z;
  (** [b.decode()] of the bytes of a body; [None] is [UnicodeDecodeError]. *)
  decode : string -> option string
}.

(** What a request method leaves for the client. *)
Inductive Reply :=
| Handled (r : Response)                            (* the handler's own response *)
| FilePage (content_type : option string) (content : string)   (* 200 and a file *)
| ErrorPage (code : Z) (message : string)           (* [send_error] *)
| Uncaught.                       (* an exception left the method: no response *)

Section Dispatch.
Context (host : Host) (E : Engine).

(** [_send_file(filepath)] *)
Definition _send_file (filepath : string) : Reply :=
  match open_rb host filepath with
  | Content content =>
      FilePage (if endswith filepath ".html" then Some "text/html"
                else if endswith filepath ".css" then Some "text/css"
                else if endswith filepath ".js" then Some "application/javascript"
                else None)
               content
  | NotFound => ErrorPage 404 "File not found"
  | Unreadable => Uncaught
  end.

(** [do_GET], on the path [urlparse(self.path).path]. *)
Definition do_GET (env : Env) (path : string) (db : Db) : Db * Reply :=
  if String.eqb path "/" || String.eqb path "/ui.html" then (db, _send_file "ui.html")
  else if String.eqb path "/api/items" then
    let '(db', r) := run (get_items E env) db in (db', Handled r)
  else if String.eqb path "/api/claims" then
    let '(db', r) := run (get_claims E env) db in (db', Handled r)
  else if String.eqb path "/api/metrics" then
    let '(db', r) := run (get_metrics E env) db in (db', Handled r)
  else if String.eqb path "/api/employees" then
    let '(db', r) := run (get_employees E env) db in (db', Handled r)
  else (db, ErrorPage 404 "Endpoint not found").

(** The body of a POST as [do_POST] reads it: the text sent when the
    Content-Length is positive and '{}' otherwise, parsed by [json.loads]
    unless it is empty, which stands for the empty object.  [None] is a body
    that is not JSON. *)
Definition request_data (content_length : Z) (sent : string) : option pyval :=
  let body := if 0 <? content_length then sent else "{}" in
  if String.eqb body EmptyString then Some (PDict []) else json_loads host body.

(** [do_POST] from its [try] on: on the path [urlparse(self.path).path], the
    Content-Length header as [int(...)] read it, and the text that
    [self.rfile.read(content_length).decode()] gives, for a body on which
    [json.loads] returns or raises [JSONDecodeError]. *)
Definition do_POST (env : Env) (path : string) (content_length : Z) (sent : string)
    (db : Db) : Db * Reply :=
  match request_data content_length sent with
  | None => (db, Handled (_send_json (PDict [("error", PStr "Invalid JSON")]) 400))
  | Some data =>
      if String.eqb path "/api/items" then
        let '(db', r) := run (add_item E env data) db in (db', Handled r)
      else if startswith path "/api/claims/" && endswith path "/approve" then
        match nth_error (split "/" path) 3 with
        | Some claim_id =>
            let '(db', r) := run (approve_claim E env claim_id) db in (db', Handled r)
        | None => (db, Uncaught)
        end
      else (db, ErrorPage 404 "Endpoint not found")
  end.

(** [int(self.headers.get('Content-Length', 0))], on the value of the header
    if the request has one; [None] is the [ValueError] of [int]. *)
Definition content_length_of (header : option string) : option Z :=
  match header with
  | Some v => py_int host v
  | None => Some 0
  end.

(** [self.rfile.read(content_length).decode() if content_length > 0 else '{}'],
    on what [read] comes to: the bytes it gives, or [None] when it raises (on
    a length too large for it, or on a connection that fails).  [None] is
    that exception, or the [UnicodeDecodeError] of [decode]. *)
Definition body_of (content_length : Z) (received : option string) : option string :=
  if 0 <? content_length
  then match received with
       | Some bytes => decode host bytes
       | None => None
       end
  else Some "{}".


(** [do_POST] from its first line: on the target of the request line, the
    value of the Content-Length header, if the request has one, and what
    [self.rfile.read(content_length)] comes to.  Nothing catches what
    [urlparse], [int], [read] and [decode] raise, nor what [json.loads] raises
    that is no [JSONDecodeError]: the request is then left without a
    response. *)
Definition do_POST_request (env : Env) (target : string) (header : option string)
    (received : option string) (db : Db) : Db * Reply :=
  match urlparse_path host target with
  | None => (db, Uncaught)
  | Some path =>
      match content_length_of header with
      | None => (db, Uncaught)
      | Some content_length =>
          match body_of content_length received with
          | None => (db, Uncaught)
          | Some body =>
              if negb (String.eqb body EmptyString) && json_loads_breaks host body
              then (db, Uncaught)
              else do_POST env path content_length body db
          end
      end
  end.
End Dispatch.

(** ** Notions for the request loop *)

Section Steps.
Context (E : Engine).

(** What one request can do to the committed store: nothing, the INSERT of a
    registration, or the three writes of an approval. *)
Inductive step (db : Db) : Db -> Prop :=
| step_none : step db db
| step_register (p : list sqlval) (t : instant) :
    step db (fst (insert_item p t db))
| step_approve (env : Env) (claim_id : string) (item_id : Z) :
    select_pending_item E claim_id db = Some item_id ->
    step db (approval E env claim_id item_id db).
End Steps.

(** The request is an approval and the response is its success. *)
Definition approved_exchange (x : Env * Request * Response) : bool :=
  match snd (fst x), snd x with
  | ApproveClaim _, Sent 200 _ => true
  | _, _ => false
  end.

(** The request is a registration and the response is its success. *)
Definition registered_exchange (x : Env * Request * Response) : bool :=
  match snd (fst x), snd x with
  | AddItem _, Sent 201 _ => true
  | _, _ => false
  end.

(** A host for the sample: [json.loads] on two texts, the one file of the
    server, targets that are a path and nothing else, [int] on two header
    values, and bodies of plain ASCII. *)
Definition sample_host : Host :=
  {| json_loads := fun s => if String.eqb s "{}" then Some (PDict [])
                            else if String.eqb s "[]" then Some (PList [])
                            else None;
     json_loads_breaks := fun _ => false;
     open_rb := fun p => if String.eqb p "ui.html" then Content "<html></html>"
                         else NotFound;
     urlparse_path := fun target => Some target;
     py_int := fun v => if String.eqb v "0" then Some 0
                        else if String.eqb v "2" then Some 2
                        else None;
     decode := fun b => Some b |}.

(** A request whose first storage call, opening the database, fails. *)
Definition offline : Env := {| now := fun _ => noon; fault := fun n => Nat.eqb n 0 |}.

(** A registration whose SELECT of the new row (storage call 3) fails. *)
Definition late_failure : Env := {| now := fun _ => noon; fault := fun n => Nat.eqb n 3 |}.

(** The text of [s] before its first slash (all of [s] when it has none). *)
Fixpoint before_slash (s : string) : string :=
  match s with
  | EmptyString => EmptyString
  | String c s' => if Ascii.eqb c "/" then EmptyString else String c (before_slash s')
  end.

(** Noon of 2024-01-02, a day after [noon]. *)
Definition next_noon : instant :=
  {| datetime_now := "2024-01-02 12:00:00"; julianday_now := 212570956800000 |}.

(** Three employees with 5, 2 and 9 items managed. *)
Definition staff_db : Db :=
  {| Items := ∅; Claims := ∅; ItemStatus := [];
     Employees := {[ 1 := sample_employee;
                     2 := {| firstName := Some "Ravi"; lastName := Some "Nair";
                             position := VText "Clerk"; itemsManaged := 2 |};
                     3 := {| firstName := Some "Lena"; lastName := None;
                             position := VText "Lead"; itemsManaged := 9 |} ]} |}.

(** A body that is a JSON array of the six field names. *)
Definition names_only : pyval :=
  PList [PStr "itemName"; PStr "itemCategory"; PStr "color";
         PStr "itemDescription"; PStr "dateFound"; PStr "FoundAt"].

(** The str that [json.loads] makes of the escape \ud800 alone. *)
Definition lone_surrogate : pyval :=
  PSurrogate (String "237" (String "160" (String "128" EmptyString))).

(** A registration whose name is that str. *)
Definition surrogate_registration : list (string * pyval) :=
  [("itemName", lone_surrogate); ("itemCategory", PStr "Accessories");
   ("color", PStr "Black"); ("itemDescription", PStr "Black, folding");
   ("dateFound", PStr "2023-12-30 12:00:00"); ("FoundAt", PStr "Library")].

(** A registration whose color is a JSON array. *)
Definition nested_registration : list (string * pyval) :=
  [("itemName", PStr "Scarf"); ("itemCategory", PStr "Clothing");
   ("color", PList [PStr "red"; PStr "blue"]); ("itemDescription", PStr "Wool");
   ("dateFound", PStr "2023-12-30 12:00:00"); ("FoundAt", PStr "Library")].

(** * Properties *)

(** ** Tables *)

Lemma alter_present {R} (f : R -> R) (k : Z) (x : R) (t : gmap Z R) :
  t !! k = Some x -> alter f k t = <[k := f x]> t.
Proof.
  intros H. apply map_eq. intros j.
  destruct (decide (k = j)) as [->|Hne].
  - rewrite lookup_alter_eq, lookup_insert_eq, H. reflexivity.
  - rewrite lookup_alter_ne, lookup_insert_ne by done. reflexivity.
Qed.

Lemma alter_absent {R} (f : R -> R) (k : Z) (t : gmap Z R) :
  t !! k = None -> alter f k t = t.
Proof.
  intros H. apply map_eq. intros j.
  destruct (decide (k = j)) as [->|Hne].
  - rewrite lookup_alter_eq, H. reflexivity.
  - rewrite lookup_alter_ne by done. reflexivity.
Qed.

Lemma max_rowid_bound (l : list Z) (k : Z) :
  In k l ->
  exists m, foldr (fun k acc => Some (match acc with None => k | Some m => Z.max k m end))
              None l = Some m /\ k <= m.
Proof.
  induction l as [|x l IH]; simpl; [tauto|].
  intros [->|Hin].
  - destruct (foldr _ None l); eexists; split; try reflexivity; lia.
  - destruct (IH Hin) as (m & -> & Hle). eexists; split; [reflexivity|lia].
Qed.

Lemma next_rowid_fresh {R} (t : gmap Z R) : t !! next_rowid t = None.
Proof.
  destruct (t !! next_rowid t) as [x|] eqn:Hx; [|reflexivity].
  exfalso.
  assert (Hin : In (next_rowid t) (map fst (map_to_list t))).
  { apply in_map_iff. exists (next_rowid t, x). split; [reflexivity|].
    apply list_elem_of_In, elem_of_map_to_list, Hx. }
  destruct (max_rowid_bound _ _ Hin) as (m & Hm & Hle).
  unfold next_rowid, max_rowid in Hle. rewrite Hm in Hle. lia.
Qed.

(** ** The sort orders *)

Lemma sql_leb_total (a b : sqlval) : sql_leb a b = true \/ sql_leb b a = true.
Proof.
  destruct a as [|x|x|s], b as [|y|y|t]; simpl; auto.
  - rewrite !Z.leb_le. lia.
  - rewrite !Qle_bool_iff. destruct (Qlt_le_dec y (inject_Z x)); auto using Qlt_le_weak.
  - rewrite !Qle_bool_iff. destruct (Qlt_le_dec (inject_Z y) x); auto using Qlt_le_weak.
  - rewrite !Qle_bool_iff. destruct (Qlt_le_dec y x); auto using Qlt_le_weak.
  - apply String.leb_total.
Qed.

#[global] Instance by_dateFound_desc_total : Total by_dateFound_desc.
Proof.
  intros a b. unfold by_dateFound_desc.
  destruct (sql_leb_total (dateFound (snd b)) (dateFound (snd a))) as [H|H];
    rewrite H; simpl; auto.
Qed.

Lemma string_leb_iff (s t : string) :
  String.leb s t = true <-> s = t \/ String_as_OT.lt s t.
Proof.
  unfold String.leb.
  pose proof (String_as_OT.cmp_eq s t) as He.
  pose proof (String_as_OT.cmp_lt s t) as Hl.
  unfold String_as_OT.cmp in *.
  destruct (String.compare s t); split; intros H; try tauto; try discriminate.
  destruct H as [H|H]; [apply He in H|apply Hl in H]; discriminate.
Qed.

Lemma string_leb_trans (s t u : string) :
  String.leb s t = true -> String.leb t u = true -> String.leb s u = true.
Proof.
  rewrite !string_leb_iff. intros [->|H1] [->|H2]; auto.
  right. eapply String_as_OT.lt_trans; eassumption.
Qed.

Lemma sql_leb_trans (a b c : sqlval) :
  sql_leb a b = true -> sql_leb b c = true -> sql_leb a c = true.
Proof.
  destruct a as [|x|x|s], b as [|y|y|t], c as [|z|z|u]; simpl;
    try discriminate; try reflexivity;
    rewrite ?Z.leb_le, ?Qle_bool_iff, ?Zle_Qle;
    try (intros; eapply Qle_trans; eassumption).
  apply string_leb_trans.
Qed.

#[global] Instance by_dateFound_desc_trans : Transitive by_dateFound_desc.
Proof.
  intros a b c. unfold by_dateFound_desc. rewrite !Is_true_true.
  intros H1 H2. eapply sql_leb_trans; eassumption.
Qed.

#[global] Instance by_itemsManaged_desc_total : Total by_itemsManaged_desc.
Proof.
  intros a b. unfold by_itemsManaged_desc.
  destruct (Z.leb_spec (itemsManaged (snd b)) (itemsManaged (snd a))); simpl; auto.
  right. apply Is_true_true, Z.leb_le. lia.
Qed.

(** ** Numbers *)

Lemma pow2_pos (k : Z) : (0 < 2 ^ k)%Q.
Proof. apply Qpower_0_lt. reflexivity. Qed.

Lemma pow2_plus (a b : Z) : (2 ^ (a + b) == 2 ^ a * 2 ^ b)%Q.
Proof. apply Qpower_plus. discriminate. Qed.

Lemma pow2_le (a b : Z) : a <= b -> (2 ^ a <= 2 ^ b)%Q.
Proof. intros H. apply Qpower_le_compat_l; [exact H|discriminate]. Qed.

Lemma pow2_lt_inv (a b : Z) : (2 ^ a < 2 ^ b)%Q -> a < b.
Proof. intros H. apply (Qpower_lt_compat_l_inv 2); [exact H|reflexivity]. Qed.

Lemma Qlog2_spec (x : Q) :
  (0 < x)%Q -> (2 ^ Qlog2 x <= x)%Q /\ (x < 2 ^ (Qlog2 x + 1))%Q.
Proof.
  intros Hx. unfold Qlog2.
  assert (Hn : 0 < Qnum x) by (destruct x; unfold Qlt in Hx; simpl in *; lia).
  destruct (Z.log2_spec (Qnum x) Hn) as [Ha1 Ha2].
  destruct (Z.log2_spec (Z.pos (Qden x)) (Pos2Z.is_pos _)) as [Hb1 Hb2].
  pose proof (Z.log2_nonneg (Qnum x)) as Ha0.
  pose proof (Z.log2_nonneg (Z.pos (Qden x))) as Hb0.
  set (a := Z.log2 (Qnum x)) in *. set (b := Z.log2 (Z.pos (Qden x))) in *.
  assert (HxD : (x * inject_Z (Z.pos (Qden x)) == inject_Z (Qnum x))%Q).
  { destruct x as [n d]. unfold Qeq, Qmult, inject_Z. simpl. rewrite Pos.mul_1_r. ring. }
  rewrite Z.pow_succ_r in Ha2, Hb2 by lia.
  rewrite Zle_Qle in Ha1, Hb1. rewrite Zlt_Qlt in Ha2, Hb2.
  rewrite inject_Z_mult in Ha2, Hb2.
  rewrite Zpower_Qpower in Ha1, Ha2, Hb1, Hb2 by lia.
  change (inject_Z 2) with 2%Q in *.
  assert (HP : (2 ^ a == 2 ^ (a - b) * 2 ^ b)%Q).
  { rewrite <- pow2_plus. replace (a - b + b) with a by lia. reflexivity. }
  pose proof (pow2_pos (a - b)) as HPpos. pose proof (pow2_pos b) as HBpos.
  set (N := inject_Z (Qnum x)) in *. set (D := inject_Z (Z.pos (Qden x))) in *.
  set (P := (2 ^ (a - b))%Q) in *. set (B := (2 ^ b)%Q) in *. set (A := (2 ^ a)%Q) in *.
  destruct (Qle_bool P x) eqn:Hc.
  - apply Qle_bool_iff in Hc. fold P. split; [exact Hc|].
    rewrite pow2_plus. fold P. change (2 ^ 1)%Q with 2%Q.
    nra.
  - assert (Hlt : (x < P)%Q).
    { apply Qnot_le_lt. intros H. apply Qle_bool_iff in H. congruence. }
    replace (a - b - 1 + 1) with (a - b) by lia. fold P. split; [|exact Hlt].
    assert (HQ : (P == 2 ^ (a - b - 1) * 2)%Q).
    { unfold P. replace (a - b) with (a - b - 1 + 1) at 1 by lia. rewrite pow2_plus. reflexivity. }
    pose proof (pow2_pos (a - b - 1)) as Hhpos.
    set (h := (2 ^ (a - b - 1))%Q) in *.
    nra.
Qed.

Lemma Qlog2_unique (x : Q) (k : Z) :
  (2 ^ k <= x)%Q -> (x < 2 ^ (k + 1))%Q -> Qlog2 x = k.
Proof.
  intros H1 H2.
  assert (Hx : (0 < x)%Q) by (eapply Qlt_le_trans; [apply pow2_pos|exact H1]).
  destruct (Qlog2_spec x Hx) as [G1 G2].
  assert (Qlog2 x < k + 1).
  { apply pow2_lt_inv. eapply Qle_lt_trans; eassumption. }
  assert (k < Qlog2 x + 1).
  { apply pow2_lt_inv. eapply Qle_lt_trans; eassumption. }
  lia.
Qed.

Lemma Qlog2_mono (x y : Q) : (0 < x)%Q -> (x <= y)%Q -> Qlog2 x <= Qlog2 y.
Proof.
  intros Hx Hxy.
  destruct (Qlog2_spec x Hx) as [G1 _].
  destruct (Qlog2_spec y (Qlt_le_trans _ _ _ Hx Hxy)) as [_ G2].
  assert (Qlog2 x < Qlog2 y + 1); [|lia].
  apply pow2_lt_inv. eapply Qle_lt_trans; [exact G1|]. eapply Qle_lt_trans; eassumption.
Qed.

Lemma round_half_even_mono (p q : Q) :
  (p <= q)%Q -> round_half_even p <= round_half_even q.
Proof.
  intros H. pose proof (Qfloor_resp_le _ _ H) as Hf.
  pose proof (Qfloor_le p) as Hp. pose proof (Qlt_floor q) as Hq.
  unfold round_half_even.
  destruct (Z.eq_dec (Qfloor p) (Qfloor q)) as [Heq|Hne].
  - rewrite Heq. rewrite Heq in Hp.
    destruct (Qcompare_spec (p - inject_Z (Qfloor q)) (1 # 2)),
             (Qcompare_spec (q - inject_Z (Qfloor q)) (1 # 2));
      destruct (Z.even (Qfloor q)); try lia; exfalso; lra.
  - destruct (p - inject_Z (Qfloor p) ?= 1 # 2)%Q, (q - inject_Z (Qfloor q) ?= 1 # 2)%Q;
      destruct (Z.even (Qfloor p)), (Z.even (Qfloor q)); lia.
Qed.

Lemma round_half_even_Z (z : Z) : round_half_even (inject_Z z) = z.
Proof.
  unfold round_half_even. rewrite Qfloor_Z.
  assert (H : (inject_Z z - inject_Z z ?= 1 # 2)%Q = Lt).
  { rewrite <- Qlt_alt. unfold Qminus. rewrite Qplus_opp_r. reflexivity. }
  rewrite H. reflexivity.
Qed.

Lemma binary64_above (x : Q) (c : Z) :
  (inject_Z c * 2 ^ ulp_exponent x <= x)%Q ->
  (inject_Z c * 2 ^ ulp_exponent x <= binary64 x)%Q.
Proof.
  intros H. unfold binary64.
  apply Qmult_le_compat_r; [|apply Qlt_le_weak, pow2_pos].
  rewrite <- Zle_Qle. rewrite <- (round_half_even_Z c) at 1.
  apply round_half_even_mono, Qle_shift_div_l; [apply pow2_pos|exact H].
Qed.

Lemma binary64_below (x : Q) (c : Z) :
  (x <= inject_Z c * 2 ^ ulp_exponent x)%Q ->
  (binary64 x <= inject_Z c * 2 ^ ulp_exponent x)%Q.
Proof.
  intros H. unfold binary64.
  apply Qmult_le_compat_r; [|apply Qlt_le_weak, pow2_pos].
  rewrite <- Zle_Qle. rewrite <- (round_half_even_Z c) at 1.
  apply round_half_even_mono, Qle_shift_div_r; [apply pow2_pos|exact H].
Qed.

Lemma binary64_nonneg (x : Q) : (0 <= x)%Q -> (0 <= binary64 x)%Q.
Proof.
  intros H. pose proof (binary64_above x 0) as G.
  rewrite Qmult_0_l in G. apply G, H.
Qed.

Lemma binary64_nonpos (x : Q) : (x <= 0)%Q -> (binary64 x <= 0)%Q.
Proof.
  intros H. pose proof (binary64_below x 0) as G.
  rewrite Qmult_0_l in G. apply G, H.
Qed.

Lemma Qlog2_comp (x y : Q) : (0 < x)%Q -> (x == y)%Q -> Qlog2 x = Qlog2 y.
Proof.
  intros Hx Hxy. destruct (Qlog2_spec x Hx) as [G1 G2].
  symmetry. apply Qlog2_unique; rewrite <- Hxy; assumption.
Qed.

(** The scaled value of a positive number has at most 53 bits, and exactly
    53 unless the number is subnormal. *)
Lemma ulp_exponent_pos (x : Q) :
  (0 < x)%Q ->
  let e := ulp_exponent x in
  (x <= inject_Z (2 ^ 53) * 2 ^ e)%Q /\
  (-1074 < e -> (inject_Z (2 ^ 52) * 2 ^ e <= x)%Q).
Proof.
  intros Hx e. subst e. unfold ulp_exponent.
  assert (Hl : Qlog2 (Qabs x) = Qlog2 x).
  { apply Qlog2_comp; [rewrite Qabs_pos by lra; exact Hx|apply Qabs_pos; lra]. }
  rewrite Hl.
  destruct (Qlog2_spec x Hx) as [G1 G2].
  set (k := Qlog2 x) in *.
  rewrite !Zpower_Qpower by lia. change (inject_Z 2) with 2%Q.
  rewrite <- !pow2_plus. split.
  - apply Qlt_le_weak. eapply Qlt_le_trans; [exact G2|]. apply pow2_le. lia.
  - intros He. replace (52 + Z.max (k - 52) (-1074)) with k by lia. exact G1.
Qed.

Lemma ulp_exponent_neg (x : Q) :
  (x < 0)%Q ->
  let e := ulp_exponent x in
  (inject_Z (- 2 ^ 53) * 2 ^ e <= x)%Q /\
  (-1074 < e -> (x <= inject_Z (- 2 ^ 52) * 2 ^ e)%Q).
Proof.
  intros Hx e. subst e.
  assert (Hm : (0 < - x)%Q) by lra.
  assert (He : ulp_exponent x = ulp_exponent (- x)).
  { unfold ulp_exponent. f_equal. f_equal. apply Qlog2_comp.
    - rewrite Qabs_neg by lra. exact Hm.
    - rewrite Qabs_opp. reflexivity. }
  rewrite He. destruct (ulp_exponent_pos (- x) Hm) as [G1 G2].
  rewrite !inject_Z_opp. split.
  - lra.
  - intros H. specialize (G2 H). lra.
Qed.

Lemma ulp_exponent_mono (x y : Q) :
  (0 < x)%Q -> (x <= y)%Q -> ulp_exponent x <= ulp_exponent y.
Proof.
  intros Hx Hxy. unfold ulp_exponent.
  assert (Qlog2 (Qabs x) <= Qlog2 (Qabs y)); [|lia].
  apply Qlog2_mono.
  - rewrite Qabs_pos by lra. exact Hx.
  - rewrite !Qabs_pos by lra. exact Hxy.
Qed.

Lemma ulp_exponent_opp (x : Q) : ulp_exponent (- x) = ulp_exponent x.
Proof.
  unfold ulp_exponent. f_equal. f_equal.
  destruct (Qeq_dec x 0) as [H0|H0].
  - destruct x as [n d]. unfold Qeq in H0. simpl in H0.
    assert (n = 0) by lia. subst n. reflexivity.
  - apply Qlog2_comp; [|apply Qabs_opp].
    rewrite Qabs_opp. pose proof (Qabs_nonneg x) as Hn.
    destruct (Qeq_dec (Qabs x) 0) as [Ha|Ha]; [|lra].
    exfalso. apply H0. revert Ha. apply Qabs_case; intros; lra.
Qed.

Lemma ulp_exponent_min (x : Q) : -1074 <= ulp_exponent x.
Proof. unfold ulp_exponent. lia. Qed.

Lemma binary64_mono_exp (x y : Q) :
  (x <= y)%Q -> ulp_exponent x = ulp_exponent y -> (binary64 x <= binary64 y)%Q.
Proof.
  intros H He. unfold binary64. rewrite He.
  apply Qmult_le_compat_r; [|apply Qlt_le_weak, pow2_pos].
  rewrite <- Zle_Qle. apply round_half_even_mono.
  apply Qmult_le_compat_r; [exact H|].
  apply Qlt_le_weak, Qinv_lt_0_compat, pow2_pos.
Qed.

Lemma pow2_step (a b : Z) :
  a < b -> (inject_Z (2 ^ 53) * 2 ^ a <= inject_Z (2 ^ 52) * 2 ^ b)%Q.
Proof.
  intros H. rewrite !Zpower_Qpower by lia. change (inject_Z 2) with 2%Q.
  rewrite <- !pow2_plus. apply pow2_le. lia.
Qed.

(** Rounding to the nearest double keeps the order. *)
Lemma binary64_mono (x y : Q) : (x <= y)%Q -> (binary64 x <= binary64 y)%Q.
Proof.
  intros H.
  destruct (Qlt_le_dec 0 x) as [Hx|Hx].
  - (* both positive *)
    pose proof (ulp_exponent_mono x y Hx H) as He.
    destruct (Z.eq_dec (ulp_exponent x) (ulp_exponent y)) as [Heq|Hne].
    + apply binary64_mono_exp; assumption.
    + destruct (ulp_exponent_pos x Hx) as [G1 _].
      destruct (ulp_exponent_pos y (Qlt_le_trans _ _ _ Hx H)) as [_ G2].
      eapply Qle_trans; [apply binary64_below, G1|].
      eapply Qle_trans; [apply (pow2_step _ (ulp_exponent y)); lia|].
      pose proof (ulp_exponent_min x).
      apply binary64_above, G2. lia.
  - destruct (Qlt_le_dec y 0) as [Hy|Hy].
    + (* both negative *)
      assert (He : ulp_exponent y <= ulp_exponent x).
      { rewrite <- (ulp_exponent_opp x), <- (ulp_exponent_opp y).
        apply ulp_exponent_mono; lra. }
      destruct (Z.eq_dec (ulp_exponent x) (ulp_exponent y)) as [Heq|Hne].
      * apply binary64_mono_exp; assumption.
      * destruct (ulp_exponent_neg y Hy) as [G1 _].
        destruct (ulp_exponent_neg x (Qle_lt_trans _ _ _ H Hy)) as [_ G2].
        pose proof (ulp_exponent_min y).
        eapply Qle_trans; [apply binary64_below, G2; lia|].
        eapply Qle_trans; [|apply binary64_above, G1].
        rewrite !inject_Z_opp.
        pose proof (pow2_step (ulp_exponent y) (ulp_exponent x) ltac:(lia)). lra.
    + eapply Qle_trans; [apply binary64_nonpos, Hx|apply binary64_nonneg, Hy].
Qed.

(** Some doubles: the ones nearest to a third and to 0.33, a half, and two
    ties above [2 ^ 53], where the doubles are the even integers. *)
Lemma binary64_examples :
  (binary64 (1 # 3) == 6004799503160661 # 18014398509481984)%Q /\
  (binary64 (33 # 100) == 5944751508129055 # 18014398509481984)%Q /\
  (binary64 (1 # 2) == 1 # 2)%Q /\
  (binary64 (inject_Z (2 ^ 53 + 1)) == inject_Z (2 ^ 53))%Q /\
  (binary64 (inject_Z (2 ^ 53 + 3)) == inject_Z (2 ^ 53 + 4))%Q.
Proof. repeat split; vm_compute; reflexivity. Qed.

Lemma cast_integer_nonneg (q : Q) :
  (0 <= q)%Q -> cast_integer q = Qfloor q /\ 0 <= cast_integer q.
Proof.
  destruct q as [n d]. unfold Qle, cast_integer, Qfloor; simpl. intros H.
  assert (0 <= n) by lia.
  rewrite Z.quot_div_nonneg by lia. split; [reflexivity|].
  apply Z.div_pos; lia.
Qed.

Lemma cast_integer_nonpos (q : Q) :
  (q <= 0)%Q -> cast_integer q = Qceiling q /\ cast_integer q <= 0.
Proof.
  destruct q as [n d]. unfold Qle, cast_integer, Qceiling, Qfloor; simpl. intros H.
  assert (Hn : n <= 0) by lia.
  assert (Hq : Z.quot n (Z.pos d) = - (- n / Z.pos d)).
  { rewrite <- (Z.opp_involutive n) at 1.
    rewrite Z.quot_opp_l by lia.
    rewrite Z.quot_div_nonneg by lia. reflexivity. }
  rewrite Hq. split; [reflexivity|].
  assert (0 <= - n / Z.pos d) by (apply Z.div_pos; lia). lia.
Qed.

Lemma cast_integer_mono (p q : Q) : (p <= q)%Q -> cast_integer p <= cast_integer q.
Proof.
  intros H.
  destruct (Qlt_le_dec p 0) as [Hp|Hp], (Qlt_le_dec q 0) as [Hq|Hq].
  - rewrite (proj1 (cast_integer_nonpos p (Qlt_le_weak _ _ Hp))),
            (proj1 (cast_integer_nonpos q (Qlt_le_weak _ _ Hq))).
    apply Qceiling_resp_le, H.
  - pose proof (proj2 (cast_integer_nonpos p (Qlt_le_weak _ _ Hp))).
    pose proof (proj2 (cast_integer_nonneg q Hq)). lia.
  - exfalso. lra.
  - rewrite (proj1 (cast_integer_nonneg p Hp)), (proj1 (cast_integer_nonneg q Hq)).
    apply Qfloor_resp_le, H.
Qed.

Lemma round_half_even_near (r : Q) :
  (inject_Z (round_half_even r) - r <= 1 # 2)%Q /\
  (r - inject_Z (round_half_even r) <= 1 # 2)%Q.
Proof.
  pose proof (Qfloor_le r) as Hlo. pose proof (Qlt_floor r) as Hhi.
  rewrite inject_Z_plus in Hhi. change (inject_Z 1) with 1%Q in Hhi.
  unfold round_half_even.
  destruct (Qcompare_spec (r - inject_Z (Qfloor r)) (1 # 2)) as [Heq|Hlt|Hgt].
  - destruct (Z.even (Qfloor r)); rewrite ?inject_Z_plus;
      change (inject_Z 1) with 1%Q; split; lra.
  - split; lra.
  - rewrite inject_Z_plus. change (inject_Z 1) with 1%Q. split; lra.
Qed.

(** A double is within half a unit of its last bit of the number it rounds. *)
Lemma binary64_near (x : Q) :
  (x - (1 # 2) * 2 ^ ulp_exponent x <= binary64 x)%Q /\
  (binary64 x <= x + (1 # 2) * 2 ^ ulp_exponent x)%Q.
Proof.
  unfold binary64. set (e := ulp_exponent x).
  pose proof (pow2_pos e) as He.
  destruct (round_half_even_near (x / 2 ^ e)) as [H1 H2].
  set (r := inject_Z (round_half_even (x / 2 ^ e))) in *.
  assert (Hx : (x == x / 2 ^ e * 2 ^ e)%Q) by (field; lra).
  set (s := (x / 2 ^ e)%Q) in *. set (u := (2 ^ e)%Q) in *.
  split; nra.
Qed.

Lemma Qlog2_zero (y : Q) : (y == 0)%Q -> Qlog2 y <= -1.
Proof.
  intros Hy. unfold Qlog2.
  pose proof (Z.log2_nonneg (Z.pos (Qden y))) as Hd.
  assert (Hn : Qnum y = 0) by (destruct y; unfold Qeq in Hy; simpl in *; lia).
  rewrite Hn. change (Z.log2 0) with 0.
  destruct (Qle_bool _ y) eqn:Hc; [|lia].
  exfalso. apply Qle_bool_iff in Hc.
  pose proof (pow2_pos (0 - Z.log2 (Z.pos (Qden y)))). lra.
Qed.

(** The last bit of a double below [2 ^ m] in size is at [2 ^ (m - 53)] or
    lower. *)
Lemma ulp_exponent_below (x : Q) (m : Z) :
  0 <= m -> (Qabs x < 2 ^ m)%Q -> ulp_exponent x <= m - 53.
Proof.
  intros Hm Hx. unfold ulp_exponent.
  assert (Qlog2 (Qabs x) <= m - 1); [|lia].
  pose proof (Qabs_nonneg x) as Hn.
  destruct (Qeq_dec (Qabs x) 0) as [H0|H0].
  - pose proof (Qlog2_zero _ H0). lia.
  - destruct (Qlog2_spec (Qabs x)) as [G1 _]; [lra|].
    assert (Qlog2 (Qabs x) < m); [|lia].
    apply pow2_lt_inv. eapply Qle_lt_trans; eassumption.
Qed.

Lemma Qfloor_between (d : Q) (k : Z) :
  (inject_Z k <= d)%Q -> (d < inject_Z (k + 1))%Q -> Qfloor d = k.
Proof.
  intros H1 H2.
  pose proof (Qfloor_resp_le _ _ H1) as G1. rewrite Qfloor_Z in G1.
  pose proof (Qfloor_le d) as G2.
  assert (G3 : Qfloor d < k + 1) by (rewrite Zlt_Qlt; lra).
  lia.
Qed.

Lemma cast_integer_opp (d : Q) : cast_integer (- d) = - cast_integer d.
Proof.
  destruct d as [n p]. unfold cast_integer. simpl. apply Z.quot_opp_l. lia.
Qed.

(** The two Julian day numbers and their difference, as doubles, against the
    exact number of days: for the dates SQLite has a Julian day number for,
    the difference is off by less than a millisecond. *)
Lemma days_close (a b : Z) :
  0 <= a <= 464269060799999 -> 0 <= b <= 464269060799999 ->
  let d := binary64 (jd_days a - jd_days b) in
  let x := (inject_Z (a - b) / inject_Z 86400000)%Q in
  (x - (1 # 536870912) <= d)%Q /\ (d <= x + (1 # 536870912))%Q.
Proof.
  intros Ha Hb d x.
  assert (Hday : forall c, 0 <= c <= 464269060799999 ->
            let y := (inject_Z c / inject_Z 86400000)%Q in
            (0 <= y)%Q /\ (y <= 5373485)%Q /\
            (y - (1 # 2147483648) <= jd_days c)%Q /\
            (jd_days c <= y + (1 # 2147483648))%Q).
  { intros c Hc y.
    assert (H0 : (0 <= y)%Q).
    { unfold y. apply Qle_shift_div_l; [reflexivity|]. rewrite Qmult_0_l.
      change 0%Q with (inject_Z 0). rewrite <- Zle_Qle. lia. }
    assert (H1 : (y <= 5373485)%Q).
    { unfold y. apply Qle_shift_div_r; [reflexivity|].
      change (5373485 * inject_Z 86400000)%Q with (inject_Z (5373485 * 86400000)).
      rewrite <- Zle_Qle. lia. }
    split; [exact H0|]. split; [exact H1|].
    assert (He : ulp_exponent y <= 23 - 53).
    { apply ulp_exponent_below; [lia|]. rewrite Qabs_pos by exact H0.
      change (2 ^ 23)%Q with 8388608%Q. lra. }
    pose proof (pow2_le _ _ He) as Hp. change (2 ^ (23 - 53))%Q with (1 # 1073741824)%Q in Hp.
    destruct (binary64_near y) as [G1 G2]. unfold jd_days. fold y.
    pose proof (pow2_pos (ulp_exponent y)).
    split; lra. }
  destruct (Hday a Ha) as (A0 & A1 & A2 & A3).
  destruct (Hday b Hb) as (B0 & B1 & B2 & B3).
  cbv zeta in A0, A1, A2, A3, B0, B1, B2, B3.
  assert (Hx : (x == inject_Z a / inject_Z 86400000 - inject_Z b / inject_Z 86400000)%Q).
  { unfold x. unfold Z.sub. rewrite inject_Z_plus, inject_Z_opp. field; try discriminate. }
  set (ya := (inject_Z a / inject_Z 86400000)%Q) in *.
  set (yb := (inject_Z b / inject_Z 86400000)%Q) in *.
  set (z := (jd_days a - jd_days b)%Q) in *.
  assert (He : ulp_exponent z <= 24 - 53).
  { apply ulp_exponent_below; [lia|]. change (2 ^ 24)%Q with 16777216%Q.
    apply Qabs_case; intros _; unfold z; lra. }
  pose proof (pow2_le _ _ He) as Hp. change (2 ^ (24 - 53))%Q with (1 # 536870912)%Q in Hp.
  destruct (binary64_near z) as [G1 G2]. fold d in G1, G2.
  pose proof (pow2_pos (ulp_exponent z)).
  split; unfold z in *; lra.
Qed.

(** Dropping the fraction of a number that is within a millisecond of a count
    of milliseconds [m], taken in days: the whole days of [m], unless [m] is
    whole days, where it can be a day nearer to zero. *)
Lemma cast_integer_close_nonneg (m : Z) (d : Q) :
  0 <= m ->
  (inject_Z m / inject_Z 86400000 - (1 # 536870912) <= d)%Q ->
  (d <= inject_Z m / inject_Z 86400000 + (1 # 536870912))%Q ->
  (Z.rem m 86400000 <> 0 -> cast_integer d = Z.quot m 86400000) /\
  (Z.rem m 86400000 = 0 ->
   cast_integer d = Z.quot m 86400000 \/
   cast_integer d = Z.quot m 86400000 - Z.sgn (Z.quot m 86400000)).
Proof.
  intros Hm H1 H2.
  pose proof (Z.quot_rem' m 86400000) as Hqr.
  pose proof (Z.rem_bound_pos m 86400000 Hm ltac:(lia)) as Hr.
  assert (Hk : 0 <= Z.quot m 86400000) by (apply Z.quot_pos; lia).
  set (k := Z.quot m 86400000) in *. set (r := Z.rem m 86400000) in *.
  assert (Hx : (inject_Z m / inject_Z 86400000 == inject_Z k + inject_Z r / inject_Z 86400000)%Q).
  { rewrite Hqr, inject_Z_plus, inject_Z_mult. field; try discriminate. }
  rewrite Hx in H1, H2.
  assert (Hr0 : (0 <= inject_Z r / inject_Z 86400000)%Q).
  { apply Qle_shift_div_l; [reflexivity|]. rewrite Qmult_0_l.
    change 0%Q with (inject_Z 0). rewrite <- Zle_Qle. lia. }
  split.
  - intros Hne.
    assert (Hr1 : (1 # 86400000 <= inject_Z r / inject_Z 86400000)%Q).
    { unfold Qle, Qdiv, Qmult, Qinv, inject_Z. simpl. lia. }
    assert (Hr2 : (inject_Z r / inject_Z 86400000 <= 86399999 # 86400000)%Q).
    { unfold Qle, Qdiv, Qmult, Qinv, inject_Z. simpl. lia. }
    assert (Hd0 : (0 <= d)%Q).
    { assert (0 <= inject_Z k)%Q by (change 0%Q with (inject_Z 0); rewrite <- Zle_Qle; lia).
      lra. }
    rewrite (proj1 (cast_integer_nonneg d Hd0)).
    apply Qfloor_between; [lra|].
    rewrite inject_Z_plus. change (inject_Z 1) with 1%Q. lra.
  - intros Hz.
    assert (Hrz : (inject_Z r / inject_Z 86400000 == 0)%Q) by (rewrite Hz; reflexivity).
    destruct (Z.eq_dec k 0) as [Hk0|Hk0].
    + left. rewrite Hk0 in *. change (inject_Z 0) with 0%Q in H1, H2.
      destruct (Qlt_le_dec d 0) as [Hd|Hd].
      * rewrite (proj1 (cast_integer_nonpos d (Qlt_le_weak _ _ Hd))).
        assert (G : Qfloor (- d) = 0).
        { apply Qfloor_between;
            [change (inject_Z 0) with 0%Q|change (inject_Z (0 + 1)) with 1%Q]; lra. }
        unfold Qceiling. rewrite G. reflexivity.
      * rewrite (proj1 (cast_integer_nonneg d Hd)).
        apply Qfloor_between; [exact Hd|]. change (inject_Z (0 + 1)) with 1%Q. lra.
    + assert (Hk1 : (1 <= inject_Z k)%Q).
      { change 1%Q with (inject_Z 1). rewrite <- Zle_Qle. lia. }
      assert (Hd0 : (0 <= d)%Q) by lra.
      rewrite (proj1 (cast_integer_nonneg d Hd0)).
      rewrite Z.sgn_pos by lia.
      destruct (Qlt_le_dec d (inject_Z k)) as [Hd|Hd].
      * right. apply Qfloor_between.
        -- unfold Z.sub. rewrite inject_Z_plus. change (inject_Z (- (1))) with (- 1)%Q. lra.
        -- replace (k - 1 + 1) with k by lia. exact Hd.
      * left. apply Qfloor_between; [exact Hd|].
        rewrite inject_Z_plus. change (inject_Z 1) with 1%Q. lra.
Qed.

Lemma cast_integer_close (m : Z) (d : Q) :
  (inject_Z m / inject_Z 86400000 - (1 # 536870912) <= d)%Q ->
  (d <= inject_Z m / inject_Z 86400000 + (1 # 536870912))%Q ->
  (Z.rem m 86400000 <> 0 -> cast_integer d = Z.quot m 86400000) /\
  (Z.rem m 86400000 = 0 ->
   cast_integer d = Z.quot m 86400000 \/
   cast_integer d = Z.quot m 86400000 - Z.sgn (Z.quot m 86400000)).
Proof.
  intros H1 H2. destruct (Z_le_gt_dec 0 m) as [Hm|Hm].
  - apply cast_integer_close_nonneg; assumption.
  - assert (Hx : (inject_Z (- m) / inject_Z 86400000 == - (inject_Z m / inject_Z 86400000))%Q).
    { rewrite inject_Z_opp. field; try discriminate. }
    destruct (cast_integer_close_nonneg (- m) (- d) ltac:(lia)) as [G1 G2].
    { rewrite Hx. lra. }
    { rewrite Hx. lra. }
    rewrite cast_integer_opp, Z.quot_opp_l, Z.rem_opp_l in G1, G2 by lia.
    rewrite Z.sgn_opp in G2. split.
    + intros Hne. specialize (G1 ltac:(lia)). lia.
    + intros Hz. specialize (G2 ltac:(lia)). lia.
Qed.

Lemma jd_days_mono (a b : Z) : a <= b -> (jd_days a <= jd_days b)%Q.
Proof.
  intros H. unfold jd_days. apply binary64_mono.
  apply Qmult_le_compat_r; [rewrite <- Zle_Qle; exact H|discriminate].
Qed.

Lemma days_nonneg (a b : Z) : b <= a -> (0 <= binary64 (jd_days a - jd_days b))%Q.
Proof.
  intros H. apply binary64_nonneg. pose proof (jd_days_mono b a H). lra.
Qed.

Lemma days_nonpos (a b : Z) : a <= b -> (binary64 (jd_days a - jd_days b) <= 0)%Q.
Proof.
  intros H. apply binary64_nonpos. pose proof (jd_days_mono a b H). lra.
Qed.

(** ** What each handler does, call by call *)

#[local] Arguments map_result : simpl never.
#[local] Arguments all_in : simpl never.

Ltac run_handler :=
  unfold run, try_except, bind, get_db, execute, commit, rollback_if_conn,
    rollback, close, ret, lift, raise, first_fault; simpl.

Section Runs.
Context (E : Engine).

Lemma get_items_run env db :
  run (get_items E env) db =
  (db, match first_fault env [0; 1]%nat with
       | Some n => send_error_json E (DatabaseError n)
       | None => Sent 200 (PList (map (item_listing E (now env 1)) (select_unclaimed db)))
       end).
Proof.
  unfold get_items. run_handler.
  destruct (fault env 0); simpl; [reflexivity|].
  destruct (fault env 1); reflexivity.
Qed.

Lemma get_claims_run env db :
  run (get_claims E env) db =
  (db, match first_fault env [0; 1]%nat with
       | Some n => send_error_json E (DatabaseError n)
       | None => Sent 200 (PList (select_pending_claims db))
       end).
Proof.
  unfold get_claims. run_handler.
  destruct (fault env 0); simpl; [reflexivity|].
  destruct (fault env 1); reflexivity.
Qed.

Lemma get_employees_run env db :
  run (get_employees E env) db =
  (db, match first_fault env [0; 1]%nat with
       | Some n => send_error_json E (DatabaseError n)
       | None => Sent 200 (PList (map employee_listing (select_employees db)))
       end).
Proof.
  unfold get_employees. run_handler.
  destruct (fault env 0); simpl; [reflexivity|].
  destruct (fault env 1); reflexivity.
Qed.

Lemma get_metrics_disk env db : fst (run (get_metrics E env) db) = db.
Proof.
  unfold get_metrics. run_handler.
  destruct (fault env 0); simpl; [reflexivity|].
  destruct (fault env 1); simpl; [reflexivity|].
  destruct (fault env 2); simpl; [reflexivity|].
  destruct (py_round2 _); reflexivity.
Qed.

Lemma approve_claim_run env claim_id db :
  run (approve_claim E env claim_id) db =
  if fault env 0 then (db, Crashed)
  else match first_fault env [1; 2]%nat with
       | Some n => (db, send_error_json E (DatabaseError n))
       | None =>
           match select_pending_item E claim_id db with
           | None => (db, not_pending_json)
           | Some item_id =>
               match first_fault env [3; 4; 5; 6]%nat with
               | Some n => (db, send_error_json E (DatabaseError n))
               | None => (approval E env claim_id item_id db,
                          approved_json claim_id item_id)
               end
           end
       end.
Proof.
  unfold approve_claim, approval. run_handler.
  destruct (fault env 0); simpl; [reflexivity|].
  destruct (fault env 1); simpl; [reflexivity|].
  destruct (fault env 2); simpl; [reflexivity|].
  destruct (select_pending_item E claim_id db) as [item_id|]; simpl; [|reflexivity].
  destruct (fault env 3); simpl; [reflexivity|].
  destruct (fault env 4); simpl; [reflexivity|].
  destruct (fault env 5); simpl; [reflexivity|].
  destruct (fault env 6); reflexivity.
Qed.

(** A registration either leaves the store as it is or adds one row under a
    fresh key, with the claimed flag off. *)
Lemma add_item_disk env data db :
  fst (run (add_item E env data) db) = db \/
  exists p, fst (run (add_item E env data) db) = fst (insert_item p (now env 1) db).
Proof.
  unfold add_item. run_handler.
  destruct (all_in required data) as [[|]|e]; simpl; auto.
  destruct (fault env 0); simpl; auto.
  destruct (map_result _ 0%nat _) as [values|e]; simpl; auto.
  destruct (map_result bind_param 0%nat values) as [params|e]; simpl; auto.
  destruct (fault env 1); simpl; auto.
  destruct (fault env 2); simpl; auto.
  right. exists params.
  destruct (fault env 3); simpl; auto.
  destruct (select_item _ _); reflexivity.
Qed.

Lemma handle_read env r db : is_read r -> fst (handle E env r db) = db.
Proof.
  destruct r; simpl; try tauto; intros _; unfold handle.
  - rewrite get_items_run. reflexivity.
  - rewrite get_claims_run. reflexivity.
  - apply get_metrics_disk.
  - rewrite get_employees_run. reflexivity.
Qed.

Lemma serve_app (l1 l2 : list (Env * Request)) db :
  serve E (l1 ++ l2) db =
  (fst (serve E l2 (fst (serve E l1 db))),
   (snd (serve E l1 db) ++ snd (serve E l2 (fst (serve E l1 db))))%list).
Proof.
  revert db. induction l1 as [|[env r] l1 IH]; intros db; simpl.
  - destruct (serve E l2 db); reflexivity.
  - destruct (handle E env r db) as [db1 resp] eqn:Hh.
    rewrite IH. destruct (serve E l1 db1) as [db2 resps]; simpl.
    destruct (serve E l2 db2); reflexivity.
Qed.

Lemma serve_reads (l : list (Env * Request)) db :
  Forall (fun er => is_read (snd er)) l ->
  serve E l db = (db, answers E l db).
Proof.
  induction 1 as [|[env r] l Hr _ IH]; simpl; [reflexivity|].
  pose proof (handle_read env r db Hr) as Hd.
  destruct (handle E env r db) as [db1 resp]; simpl in *; subst db1.
  rewrite IH. reflexivity.
Qed.
End Runs.

(** ** Approving a claim *)

Section Approval.
Context (E : Engine).

Lemma select_pending_item_pending claim_id k c db :
  rowid_of_text E claim_id = Some k ->
  Claims db !! k = Some c ->
  verificationStatus c = "Pending" ->
  select_pending_item E claim_id db = Some (itemID c).
Proof.
  intros Hk Hc Hs. unfold select_pending_item. rewrite Hk, Hc, Hs. reflexivity.
Qed.

Lemma select_pending_item_none claim_id db :
  (forall k c, rowid_of_text E claim_id = Some k -> Claims db !! k = Some c ->
               verificationStatus c <> "Pending") ->
  select_pending_item E claim_id db = None.
Proof.
  intros H. unfold select_pending_item.
  destruct (rowid_of_text E claim_id) as [k|]; [|reflexivity].
  destruct (Claims db !! k) as [c|] eqn:Hc; [|reflexivity].
  destruct (String.eqb_spec (verificationStatus c) "Pending") as [Heq|]; [|reflexivity].
  exfalso. exact (H k c eq_refl Hc Heq).
Qed.

Lemma approval_Claims env claim_id item_id k c db :
  rowid_of_text E claim_id = Some k ->
  Claims db !! k = Some c ->
  Claims (approval E env claim_id item_id db) = <[k := approved c]> (Claims db).
Proof.
  intros Hk Hc. unfold approval, update_claim_approved. rewrite Hk. simpl.
  apply alter_present, Hc.
Qed.

Lemma approval_Items env claim_id item_id db :
  Items (approval E env claim_id item_id db) =
  alter (mark_claimed (now env 4)) item_id (Items db).
Proof.
  unfold approval, update_claim_approved.
  destruct (rowid_of_text E claim_id); simpl; apply map_eq; intros j;
    rewrite !lookup_alter; case_decide; reflexivity || (destruct (Items db !! j); reflexivity).
Qed.

Lemma approval_ItemStatus env claim_id item_id db :
  ItemStatus (approval E env claim_id item_id db) =
  (ItemStatus db ++ [claimed_row item_id (now env 5)])%list.
Proof.
  unfold approval, update_claim_approved.
  destruct (rowid_of_text E claim_id); reflexivity.
Qed.

Lemma approval_Employees env claim_id item_id db :
  Employees (approval E env claim_id item_id db) = Employees db.
Proof.
  unfold approval, update_claim_approved.
  destruct (rowid_of_text E claim_id); reflexivity.
Qed.

Lemma first_fault_none env calls :
  no_fault env -> first_fault env calls = None.
Proof.
  intros H. unfold first_fault. induction calls as [|n l IH]; simpl; [reflexivity|].
  rewrite H. exact IH.
Qed.

Lemma approve_claim_calm env claim_id item_id db :
  no_fault env ->
  select_pending_item E claim_id db = Some item_id ->
  run (approve_claim E env claim_id) db =
  (approval E env claim_id item_id db, approved_json claim_id item_id).
Proof.
  intros Hf Hs. rewrite approve_claim_run, Hf, !first_fault_none, Hs by exact Hf.
  reflexivity.
Qed.

(** C1.  Approving a Pending claim that references an existing Item sets the
    claim's status to Approved, sets the item's claimed flag and refreshes its
    last-updated timestamp, and appends exactly one ItemStatus row labelled
    "Claimed" for the item.  The four writes persist together or not at all:
    whatever storage call fails, the committed store is either the one before
    the approval or the one with all four writes; and when the first failure
    is in one of the writes or in the commit, the store is the one before the
    approval and the response is the Storage error (500). *)
Theorem approve_claim_pending_atomic
    (env : Env) (claim_id : string) (k : Z) (c : Claim) (i : Item) (db : Db) :
  rowid_of_text E claim_id = Some k ->
  Claims db !! k = Some c ->
  verificationStatus c = "Pending" ->
  Items db !! itemID c = Some i ->
  let after := approval E env claim_id (itemID c) db in
  let out := run (approve_claim E env claim_id) db in
  (Claims after = <[k := approved c]> (Claims db) /\
   verificationStatus (approved c) = "Approved" /\
   Items after =
     <[itemID c := {| name := name i; category := category i;
                      description := description i; color := color i;
                      dateFound := dateFound i; foundAt := foundAt i;
                      isClaimed := true;
                      dateUpdated := VText (datetime_now (now env 4)) |}]> (Items db) /\
   ItemStatus after =
     (ItemStatus db ++ [{| status_itemID := itemID c; status := "Claimed";
                           statusDate := datetime_now (now env 5) |}])%list /\
   Employees after = Employees db) /\
  (no_fault env -> out = (after, approved_json claim_id (itemID c))) /\
  (out = (after, approved_json claim_id (itemID c)) \/ fst out = db) /\
  (forall n, (3 <= n <= 6)%nat -> fault env n = true ->
             (forall m, (m < n)%nat -> fault env m = false) ->
             out = (db, Sent 500 (PDict [("error", PStr (str E (DatabaseError n)))]))).
Proof.
  intros Hk Hc Hs Hi after out.
  pose proof (select_pending_item_pending _ _ _ _ Hk Hc Hs) as Hsel.
  split; [|split; [|split]].
  - subst after. rewrite (approval_Claims _ _ _ _ _ _ Hk Hc), approval_Items,
      approval_ItemStatus, approval_Employees.
    rewrite (alter_present _ _ _ _ Hi). repeat split; reflexivity.
  - intros Hf. apply approve_claim_calm; assumption.
  - subst out. rewrite approve_claim_run, Hsel.
    destruct (fault env 0); [right; reflexivity|].
    destruct (first_fault env [1; 2]%nat); [right; reflexivity|].
    destruct (first_fault env [3; 4; 5; 6]%nat); [right; reflexivity|].
    left. reflexivity.
  - intros n Hn Hfn Hbefore. subst out. rewrite approve_claim_run, Hsel.
    rewrite (Hbefore 0%nat) by lia. unfold first_fault; simpl.
    rewrite (Hbefore 1%nat), (Hbefore 2%nat) by lia.
    assert (Hcases : n = 3%nat \/ n = 4%nat \/ n = 5%nat \/ n = 6%nat) by lia.
    destruct Hcases as [-> | [-> | [-> | ->]]];
      repeat (first [ rewrite Hfn | rewrite (Hbefore 3%nat) by lia
                    | rewrite (Hbefore 4%nat) by lia | rewrite (Hbefore 5%nat) by lia ]);
      reflexivity.
Qed.
End Approval.

Lemma approve_claim_pending_atomic_witness :
  run (approve_claim sample_engine calm "1") sample_db =
    (approval sample_engine calm "1" 1 sample_db, approved_json "1" 1) /\
  run (approve_claim sample_engine stormy "1") sample_db =
    (sample_db, Sent 500 (PDict [("error", PStr "database is locked")])).
Proof.
  pose proof (approve_claim_pending_atomic sample_engine calm "1" 1
                (sample_claim 1 "Pending") (sample_item "2023-12-30 12:00:00" false)
                sample_db eq_refl eq_refl eq_refl eq_refl) as Hcalm.
  pose proof (approve_claim_pending_atomic sample_engine stormy "1" 1
                (sample_claim 1 "Pending") (sample_item "2023-12-30 12:00:00" false)
                sample_db eq_refl eq_refl eq_refl eq_refl) as Hstormy.
  split.
  - apply Hcalm. intros n. reflexivity.
  - apply (proj2 (proj2 (proj2 Hstormy)) 4%nat); [lia | reflexivity |].
    intros m Hm. destruct m as [|[|[|[|m]]]]; try reflexivity. lia.
Defined.

#[local] Arguments first_fault : simpl never.

Section Approval_more.
Context (E : Engine).

(** C2.  When the claim identifier refers to no Claim, or to a Claim whose
    status is not Pending (Approved, Rejected), approving leaves the four
    tables as they are, whatever happens, and the response is the
    NotFound/Conflict error: status 404 with the message of the code,
    "Claim not found or already processed". *)
Theorem approve_claim_not_pending (env : Env) (claim_id : string) (db : Db) :
  (forall k c, rowid_of_text E claim_id = Some k -> Claims db !! k = Some c ->
               verificationStatus c <> "Pending") ->
  fst (run (approve_claim E env claim_id) db) = db /\
  (no_fault env ->
   run (approve_claim E env claim_id) db =
   (db, Sent 404 (PDict [("error", PStr "Claim not found or already processed")]))).
Proof.
  intros H. pose proof (select_pending_item_none E _ _ H) as Hsel.
  rewrite approve_claim_run, Hsel. split.
  - destruct (fault env 0); [reflexivity|].
    destruct (first_fault env [1; 2]%nat); reflexivity.
  - intros Hf. rewrite Hf, first_fault_none by exact Hf. reflexivity.
Qed.

(** C9.  An approval never touches the Employees table, whether it succeeds
    or not.  When it succeeds, every claim is still there and differs from
    what it was at most in its status, and only under the approved key; every
    item is still there and differs at most in its claimed flag and
    last-updated timestamp, and only if it is the referenced item; no claim
    and no item is added; and the status history is the old one with one row
    appended. *)
Theorem approve_claim_frame (env : Env) (claim_id : string) (db : Db) :
  let db' := fst (run (approve_claim E env claim_id) db) in
  Employees db' = Employees db /\
  forall item_id,
    snd (run (approve_claim E env claim_id) db) = approved_json claim_id item_id ->
    (forall k c, Claims db !! k = Some c ->
       exists c', Claims db' !! k = Some c' /\ same_but_status c c' /\
                  (rowid_of_text E claim_id <> Some k -> c' = c)) /\
    (forall k, Claims db !! k = None -> Claims db' !! k = None) /\
    (forall j i, Items db !! j = Some i ->
       exists i', Items db' !! j = Some i' /\ same_but_flag_and_stamp i i' /\
                  (j <> item_id -> i' = i)) /\
    (forall j, Items db !! j = None -> Items db' !! j = None) /\
    ItemStatus db' = (ItemStatus db ++ [claimed_row item_id (now env 5)])%list.
Proof.
  intros db'. subst db'. rewrite approve_claim_run.
  destruct (fault env 0); cbn [fst snd]; [split; [reflexivity|discriminate]|].
  destruct (first_fault env [1; 2]%nat); cbn [fst snd]; [split; [reflexivity|discriminate]|].
  destruct (select_pending_item E claim_id db) as [item|]; cbn [fst snd];
    [|split; [reflexivity|discriminate]].
  destruct (first_fault env [3; 4; 5; 6]%nat); cbn [fst snd]; [split; [reflexivity|discriminate]|].
  split; [apply approval_Employees|].
  intros item_id Hresp. injection Hresp as ->.
  rewrite approval_Items, approval_ItemStatus.
  assert (HC : Claims (approval E env claim_id item_id db) =
               match rowid_of_text E claim_id with
               | Some k => alter approved k (Claims db)
               | None => Claims db
               end).
  { unfold approval, update_claim_approved.
    destruct (rowid_of_text E claim_id); reflexivity. }
  rewrite HC. clear HC.
  split; [|split; [|split; [|split]]].
  - intros k c Hc. destruct (rowid_of_text E claim_id) as [k0|].
    + rewrite lookup_alter. case_decide; [subst k0|]; rewrite Hc; simpl.
      * exists (approved c). repeat split; first [reflexivity | congruence].
      * exists c. repeat split; reflexivity.
    + exists c. repeat split; solve [reflexivity | assumption].
  - intros k Hk. destruct (rowid_of_text E claim_id) as [k0|]; [|assumption].
    rewrite lookup_alter. case_decide; [subst k0|]; rewrite Hk; reflexivity.
  - intros j i Hi. rewrite lookup_alter. case_decide; [subst item_id|]; rewrite Hi; simpl.
    + exists (mark_claimed (now env 4) i). repeat split; first [reflexivity | congruence].
    + exists i. repeat split; reflexivity.
  - intros j Hj. rewrite lookup_alter. case_decide; [subst item_id|]; rewrite Hj; reflexivity.
  - reflexivity.
Qed.
End Approval_more.

Lemma approve_claim_not_pending_witness :
  run (approve_claim sample_engine calm "3") sample_db =
    (sample_db, Sent 404 (PDict [("error", PStr "Claim not found or already processed")])) /\
  run (approve_claim sample_engine calm "9") sample_db =
    (sample_db, Sent 404 (PDict [("error", PStr "Claim not found or already processed")])).
Proof.
  split.
  - apply (approve_claim_not_pending sample_engine calm "3" sample_db).
    + intros k c Hk Hc. vm_compute in Hk. injection Hk as <-.
      vm_compute in Hc. injection Hc as <-. discriminate.
    + intros n. reflexivity.
  - apply (approve_claim_not_pending sample_engine calm "9" sample_db).
    + intros k c Hk Hc. vm_compute in Hk. injection Hk as <-.
      vm_compute in Hc. discriminate.
    + intros n. reflexivity.
Defined.

Lemma approve_claim_frame_witness :
  Employees (fst (run (approve_claim sample_engine calm "1") sample_db)) =
    Employees sample_db /\
  ItemStatus (fst (run (approve_claim sample_engine calm "1") sample_db)) =
    (ItemStatus sample_db ++ [claimed_row 1 noon])%list.
Proof.
  pose proof (approve_claim_frame sample_engine calm "1" sample_db) as [He Hs].
  split; [exact He|].
  apply (Hs 1). reflexivity.
Defined.

Section Two_approvals.
Context (E : Engine).

Lemma approval_other_claim env claim_id item_id k k' db :
  rowid_of_text E claim_id = Some k -> k <> k' ->
  Claims (approval E env claim_id item_id db) !! k' = Claims db !! k'.
Proof.
  intros Hk Hne. unfold approval, update_claim_approved. rewrite Hk. simpl.
  apply lookup_alter_ne. exact Hne.
Qed.

(** C10.  The check of an approval looks at the claim's status only.  When
    two distinct Pending claims reference the same Item, approving one and
    then the other succeeds both times: after the first the item is claimed,
    the second marks it claimed again (with a newer timestamp), and the
    status history ends with two "Claimed" rows for the item. *)
Theorem approve_two_claims_of_one_item
    (env1 env2 : Env) (id1 id2 : string) (k1 k2 : Z) (c1 c2 : Claim) (i : Item) (db : Db) :
  rowid_of_text E id1 = Some k1 ->
  rowid_of_text E id2 = Some k2 ->
  k1 <> k2 ->
  Claims db !! k1 = Some c1 ->
  Claims db !! k2 = Some c2 ->
  verificationStatus c1 = "Pending" ->
  verificationStatus c2 = "Pending" ->
  itemID c2 = itemID c1 ->
  Items db !! itemID c1 = Some i ->
  no_fault env1 ->
  no_fault env2 ->
  let item := itemID c1 in
  let db1 := fst (handle E env1 (ApproveClaim id1) db) in
  let db2 := fst (handle E env2 (ApproveClaim id2) db1) in
  serve E [(env1, ApproveClaim id1); (env2, ApproveClaim id2)] db =
    (db2, [approved_json id1 item; approved_json id2 item]) /\
  (exists i1, Items db1 !! item = Some i1 /\ isClaimed i1 = true) /\
  (exists i2, Items db2 !! item = Some i2 /\ isClaimed i2 = true /\
              dateUpdated i2 = VText (datetime_now (now env2 4))) /\
  ItemStatus db2 =
    (ItemStatus db ++ [{| status_itemID := item; status := "Claimed";
                          statusDate := datetime_now (now env1 5) |};
                       {| status_itemID := item; status := "Claimed";
                          statusDate := datetime_now (now env2 5) |}])%list.
Proof.
  intros Hk1 Hk2 Hne Hc1 Hc2 Hs1 Hs2 Hitem Hi Hf1 Hf2 item db1 db2.
  assert (H1 : handle E env1 (ApproveClaim id1) db =
               (approval E env1 id1 item db, approved_json id1 item)).
  { unfold handle. apply approve_claim_calm; [exact Hf1|].
    eapply select_pending_item_pending; eassumption. }
  assert (Hd1 : db1 = approval E env1 id1 item db) by (subst db1; rewrite H1; reflexivity).
  assert (H2 : handle E env2 (ApproveClaim id2) db1 =
               (approval E env2 id2 item db1, approved_json id2 item)).
  { unfold handle. apply approve_claim_calm; [exact Hf2|].
    unfold item. rewrite <- Hitem.
    eapply select_pending_item_pending; [exact Hk2| |exact Hs2].
    rewrite Hd1, (approval_other_claim _ _ _ _ _ _ Hk1 Hne). exact Hc2. }
  assert (Hd2 : db2 = approval E env2 id2 item db1) by (subst db2; rewrite H2; reflexivity).
  assert (Hi1 : Items db1 !! item = Some (mark_claimed (now env1 4) i)).
  { rewrite Hd1, approval_Items, lookup_alter_eq. unfold item. rewrite Hi. reflexivity. }
  split; [|split; [|split]].
  - simpl. rewrite H1, <- Hd1, H2, <- Hd2. reflexivity.
  - eexists. split; [exact Hi1|reflexivity].
  - exists (mark_claimed (now env2 4) (mark_claimed (now env1 4) i)).
    rewrite Hd2, approval_Items, lookup_alter_eq, Hi1. repeat split.
  - rewrite Hd2, approval_ItemStatus, Hd1, approval_ItemStatus, <- app_assoc. reflexivity.
Qed.
End Two_approvals.

Lemma approve_two_claims_of_one_item_witness :
  snd (serve sample_engine [(calm, ApproveClaim "1"); (calm, ApproveClaim "2")] sample_db) =
    [approved_json "1" 1; approved_json "2" 1].
Proof.
  pose proof (approve_two_claims_of_one_item sample_engine calm calm "1" "2" 1 2
                (sample_claim 1 "Pending") (sample_claim 1 "Pending")
                (sample_item "2023-12-30 12:00:00" false) sample_db
                eq_refl eq_refl ltac:(lia) eq_refl eq_refl eq_refl eq_refl eq_refl eq_refl
                (fun _ => eq_refl) (fun _ => eq_refl)) as [H _].
  rewrite H. reflexivity.
Defined.

(** ** The request loop *)

Section Loop.
Context (E : Engine).

Lemma serve_cons env r (l : list (Env * Request)) db :
  serve E ((env, r) :: l) db =
  (fst (serve E l (fst (handle E env r db))),
   snd (handle E env r db) :: snd (serve E l (fst (handle E env r db)))).
Proof.
  simpl. destruct (handle E env r db) as [db1 resp]; simpl.
  destruct (serve E l db1); reflexivity.
Qed.

Lemma approved_claim_is_processed env claim_id k c db :
  rowid_of_text E claim_id = Some k ->
  Claims db !! k = Some c ->
  select_pending_item E claim_id (approval E env claim_id (itemID c) db) = None.
Proof.
  intros Hk Hc. apply select_pending_item_none. intros k' c' Hk' Hc'.
  rewrite Hk in Hk'. injection Hk' as <-.
  rewrite (approval_Claims E _ _ _ _ _ _ Hk Hc), lookup_insert_eq in Hc'.
  injection Hc' as <-. discriminate.
Qed.

(** C3.  The server handles one request at a time ([HTTPServer] is
    single-threaded), so two approvals of the same identifier that arrive
    together are handled one after the other, with any number of read
    requests before, between and after them.  From a state where the claim is
    Pending, and when no storage call of the two approvals fails: the first is
    answered with success, the second with the NotFound/Conflict error (404);
    the final store is the store after the first approval alone; and every
    read is answered either from the store before the approval or from the
    store after it, never from a store with some of the writes only. *)
Theorem approve_same_claim_twice
    (env1 env2 : Env) (claim_id : string) (k : Z) (c : Claim)
    (before between after : list (Env * Request)) (db : Db) :
  rowid_of_text E claim_id = Some k ->
  Claims db !! k = Some c ->
  verificationStatus c = "Pending" ->
  no_fault env1 ->
  no_fault env2 ->
  Forall (fun er => is_read (snd er)) before ->
  Forall (fun er => is_read (snd er)) between ->
  Forall (fun er => is_read (snd er)) after ->
  let once := fst (handle E env1 (ApproveClaim claim_id) db) in
  once = approval E env1 claim_id (itemID c) db /\
  serve E (before ++ (env1, ApproveClaim claim_id)
             :: between ++ (env2, ApproveClaim claim_id) :: after) db =
  (once,
   (answers E before db
    ++ approved_json claim_id (itemID c)
    :: answers E between once
    ++ not_pending_json
    :: answers E after once)%list).
Proof.
  intros Hk Hc Hs Hf1 Hf2 Hb Hm Ha once.
  assert (H1 : handle E env1 (ApproveClaim claim_id) db =
               (approval E env1 claim_id (itemID c) db, approved_json claim_id (itemID c))).
  { unfold handle. apply approve_claim_calm; [exact Hf1|].
    eapply select_pending_item_pending; eassumption. }
  assert (Ho : once = approval E env1 claim_id (itemID c) db)
    by (subst once; rewrite H1; reflexivity).
  assert (H2 : handle E env2 (ApproveClaim claim_id) once = (once, not_pending_json)).
  { unfold handle. rewrite approve_claim_run, Hf2, first_fault_none by exact Hf2.
    rewrite Ho, (approved_claim_is_processed _ _ _ _ _ Hk Hc). reflexivity. }
  split; [exact Ho|].
  rewrite serve_app, (serve_reads E _ _ Hb). cbn [fst snd].
  rewrite serve_cons, H1, <- Ho. cbn [fst snd].
  rewrite serve_app, (serve_reads E _ _ Hm). cbn [fst snd].
  rewrite serve_cons, H2. cbn [fst snd].
  rewrite (serve_reads E _ _ Ha). reflexivity.
Qed.
End Loop.

Lemma approve_same_claim_twice_witness :
  snd (serve sample_engine
         [(calm, GetItems); (calm, ApproveClaim "1"); (calm, GetMetrics);
          (calm, ApproveClaim "1"); (calm, GetClaims)] sample_db) =
  (answers sample_engine [(calm, GetItems)] sample_db
   ++ approved_json "1" 1
   :: answers sample_engine [(calm, GetMetrics)]
        (fst (handle sample_engine calm (ApproveClaim "1") sample_db))
   ++ not_pending_json
   :: answers sample_engine [(calm, GetClaims)]
        (fst (handle sample_engine calm (ApproveClaim "1") sample_db)))%list.
Proof.
  pose proof (approve_same_claim_twice sample_engine calm calm "1" 1
                (sample_claim 1 "Pending")
                [(calm, GetItems)] [(calm, GetMetrics)] [(calm, GetClaims)] sample_db
                eq_refl eq_refl eq_refl (fun _ => eq_refl) (fun _ => eq_refl)
                ltac:(repeat constructor) ltac:(repeat constructor)
                ltac:(repeat constructor)) as [_ H].
  simpl app in H. rewrite H. reflexivity.
Defined.

(** ** The claimed flag *)

Section Flag.
Context (E : Engine).

Lemma insert_item_Items p t db :
  Items (fst (insert_item p t db)) =
  <[next_rowid (Items db) :=
      {| name := nth 0 p VNull; category := nth 1 p VNull; description := nth 2 p VNull;
         color := nth 3 p VNull; dateFound := nth 4 p VNull; foundAt := nth 5 p VNull;
         isClaimed := false; dateUpdated := VText (datetime_now t) |}]> (Items db).
Proof. reflexivity. Qed.

Lemma handle_keeps_claimed env r db k i :
  Items db !! k = Some i -> isClaimed i = true ->
  exists i', Items (fst (handle E env r db)) !! k = Some i' /\ isClaimed i' = true.
Proof.
  intros Hi Hc.
  destruct r as [|data| |claim_id| |];
    try (rewrite handle_read by exact I; exists i; split; assumption).
  - unfold handle. destruct (add_item_disk E env data db) as [->|[p ->]].
    + exists i. split; assumption.
    + rewrite insert_item_Items, lookup_insert_ne.
      * exists i. split; assumption.
      * intros Heq. rewrite <- Heq, next_rowid_fresh in Hi. discriminate.
  - unfold handle. rewrite approve_claim_run.
    destruct (fault env 0); [exists i; split; assumption|].
    destruct (first_fault env [1; 2]%nat); [exists i; split; assumption|].
    destruct (select_pending_item E claim_id db) as [item_id|];
      [|exists i; split; assumption].
    destruct (first_fault env [3; 4; 5; 6]%nat); [exists i; split; assumption|].
    cbn [fst]. rewrite approval_Items, lookup_alter.
    case_decide; [subst item_id|]; rewrite Hi; simpl; eexists; split;
      solve [reflexivity | assumption].
Qed.

(** C8.  The claimed flag of an Item only ever goes from false to true.  For
    every sequence of requests, whatever fails while they are handled, an
    item that is claimed before the sequence is still there and claimed after
    it.  A registration creates its item with the flag off, and a successful
    approval leaves the referenced item with the flag on. *)
Theorem claimed_flag_never_reset :
  (forall (reqs : list (Env * Request)) (db : Db) (k : Z) (i : Item),
     Items db !! k = Some i -> isClaimed i = true ->
     exists i', Items (fst (serve E reqs db)) !! k = Some i' /\ isClaimed i' = true) /\
  (forall (env : Env) (data : pyval) (db : Db) (k : Z) (i' : Item),
     Items db !! k = None ->
     Items (fst (handle E env (AddItem data) db)) !! k = Some i' ->
     isClaimed i' = false) /\
  (forall (env : Env) (claim_id : string) (item_id : Z) (db : Db) (i : Item),
     snd (handle E env (ApproveClaim claim_id) db) = approved_json claim_id item_id ->
     Items db !! item_id = Some i ->
     exists i', Items (fst (handle E env (ApproveClaim claim_id) db)) !! item_id = Some i' /\
                isClaimed i' = true).
Proof.
  split; [|split].
  - intros reqs. induction reqs as [|[env r] reqs IH]; intros db k i Hi Hc.
    + exists i. split; assumption.
    + rewrite serve_cons. cbn [fst].
      destruct (handle_keeps_claimed env r db k i Hi Hc) as (i1 & Hi1 & Hc1).
      exact (IH _ k i1 Hi1 Hc1).
  - intros env data db k i' Hk. unfold handle.
    destruct (add_item_disk E env data db) as [->|[p ->]].
    + rewrite Hk. discriminate.
    + rewrite insert_item_Items, lookup_insert. case_decide.
      * intros [= <-]. reflexivity.
      * rewrite Hk. discriminate.
  - intros env claim_id item_id db i. unfold handle. rewrite approve_claim_run.
    destruct (fault env 0); [discriminate|].
    destruct (first_fault env [1; 2]%nat); [discriminate|].
    destruct (select_pending_item E claim_id db) as [item|]; [|discriminate].
    destruct (first_fault env [3; 4; 5; 6]%nat); [discriminate|].
    cbn [fst snd]. intros [= ->] Hi.
    rewrite approval_Items, lookup_alter_eq, Hi. eexists. split; reflexivity.
Qed.
End Flag.

Lemma claimed_flag_never_reset_witness :
  exists i', Items (fst (serve sample_engine
                           [(calm, AddItem (registration "Scarf"));
                            (stormy, ApproveClaim "1");
                            (calm, ApproveClaim "1");
                            (calm, GetItems)] sample_db)) !! 2 = Some i' /\
             isClaimed i' = true.
Proof.
  apply (proj1 (claimed_flag_never_reset sample_engine) _ sample_db 2
           (sample_item "2023-12-28 12:00:00" true)); reflexivity.
Defined.

(** ** Registering an item *)

Section Registration.
Context (E : Engine).

Lemma all_in_cons (k : string) (keys : list string) (data : pyval) :
  all_in (k :: keys) data =
  match py_in k data with
  | Ok true => all_in keys data
  | Ok false => Ok false
  | Raise e => Raise e
  end.
Proof. reflexivity. Qed.

Lemma all_in_dict (keys : list string) (kv : list (string * pyval)) :
  all_in keys (PDict kv) =
  Ok (forallb (fun k => bool_decide (is_Some (dict_get k kv))) keys).
Proof.
  induction keys as [|k keys IH]; [reflexivity|].
  rewrite all_in_cons. cbn [py_in forallb].
  destruct (bool_decide (is_Some (dict_get k kv))); [exact IH|reflexivity].
Qed.

Lemma field_inv data k s :
  field data k = Some s -> exists kv, data = PDict kv /\ dict_get k kv = Some (PStr s).
Proof.
  destruct data as [| | | | | | |kv]; try discriminate. simpl.
  destruct (dict_get k kv) as [[| | | |s'| | |]|] eqn:Hg; try discriminate.
  intros [= ->]. exists kv. split; [reflexivity|exact Hg].
Qed.

Lemma add_item_run env data db :
  run (add_item E env data) db =
  match all_in required data with
  | Raise e => (db, send_error_json E e)
  | Ok false => (db, Sent 400 (PDict [("error", PStr "Missing required fields")]))
  | Ok true =>
      if fault env 0 then (db, send_error_json E (DatabaseError 0))
      else
        match map_result (fun _ k => py_subscript data k) 0
                ["itemName"; "itemCategory"; "itemDescription";
                 "color"; "dateFound"; "FoundAt"] with
        | Raise e => (db, send_error_json E e)
        | Ok values =>
            match map_result bind_param 0 values with
            | Raise e => (db, send_error_json E e)
            | Ok params =>
                if fault env 1 then (db, send_error_json E (DatabaseError 1))
                else if fault env 2 then (db, send_error_json E (DatabaseError 2))
                else
                  let w := fst (insert_item params (now env 1) db) in
                  let item_id := snd (insert_item params (now env 1) db) in
                  if fault env 3 then (w, send_error_json E (DatabaseError 3))
                  else match select_item item_id w with
                       | Some item => (w, Sent 201 item)
                       | None => (w, send_error_json E TypeError)
                       end
            end
        end
  end.
Proof.
  unfold add_item. run_handler.
  destruct (all_in required data) as [[|]|e]; simpl; try reflexivity.
  destruct (fault env 0); simpl; [reflexivity|].
  destruct (map_result _ 0%nat _) as [values|e]; simpl; [|reflexivity].
  destruct (map_result bind_param 0%nat values) as [params|e]; simpl; [|reflexivity].
  destruct (fault env 1); simpl; [reflexivity|].
  destruct (fault env 2); simpl; [reflexivity|].
  destruct (fault env 3); simpl; [reflexivity|].
  destruct (select_item _ _); reflexivity.
Qed.

(** C4, as the code has it.  A registration whose JSON object lacks one of
    the six required keys is answered with the Validation error (400), before
    any storage call, and no Item row is persisted. *)
Theorem add_item_missing_key (env : Env) (kv : list (string * pyval)) (k : string) (db : Db) :
  In k required ->
  dict_get k kv = None ->
  run (add_item E env (PDict kv)) db =
  (db, Sent 400 (PDict [("error", PStr "Missing required fields")])).
Proof.
  intros Hin Hk. rewrite add_item_run, all_in_dict.
  assert (Hf : forallb (fun k => bool_decide (is_Some (dict_get k kv))) required = false).
  { apply not_true_is_false. intros Hall. rewrite forallb_forall in Hall.
    specialize (Hall k Hin). apply bool_decide_eq_true in Hall.
    rewrite Hk in Hall. destruct Hall as [? ?]. discriminate. }
  rewrite Hf. reflexivity.
Qed.

(** C5, as the code has it.  A registration whose six fields are present as
    non-empty strings of text that UTF-8 can encode, handled without a storage
    failure, inserts one Item under an identifier that was not in use, with
    the submitted fields, the claimed flag off and the last-updated timestamp
    set to the current time, and is answered with status 201 and a record of
    that identifier and the six submitted fields.  The record does not list
    the claimed flag or the timestamp. *)
Theorem add_item_filled
    (env : Env) (data : pyval) (n ca ds co df fa : string) (db : Db) :
  filled data "itemName" n ->
  filled data "itemCategory" ca ->
  filled data "itemDescription" ds ->
  filled data "color" co ->
  filled data "dateFound" df ->
  filled data "FoundAt" fa ->
  no_fault env ->
  let row := {| name := VText n; category := VText ca; description := VText ds;
                color := VText co; dateFound := VText df; foundAt := VText fa;
                isClaimed := false;
                dateUpdated := VText (datetime_now (now env 1)) |} in
  exists id,
    Items db !! id = None /\
    run (add_item E env data) db =
    ({| Items := <[id := row]> (Items db); Claims := Claims db;
        ItemStatus := ItemStatus db; Employees := Employees db |},
     Sent 201 (PDict [("itemID", PInt id); ("itemName", PStr n);
                      ("itemCategory", PStr ca); ("itemDescription", PStr ds);
                      ("color", PStr co); ("dateFound", PStr df);
                      ("FoundAt", PStr fa)])).
Proof.
  intros [Hn _] [Hca _] [Hds _] [Hco _] [Hdf _] [Hfa _] Hf row.
  exists (next_rowid (Items db)).
  split; [apply next_rowid_fresh|].
  destruct (field_inv _ _ _ Hn) as (kv & -> & Gn).
  destruct (field_inv _ _ _ Hca) as (? & [= <-] & Gca).
  destruct (field_inv _ _ _ Hds) as (? & [= <-] & Gds).
  destruct (field_inv _ _ _ Hco) as (? & [= <-] & Gco).
  destruct (field_inv _ _ _ Hdf) as (? & [= <-] & Gdf).
  destruct (field_inv _ _ _ Hfa) as (? & [= <-] & Gfa).
  rewrite add_item_run, all_in_dict.
  assert (Hall : forallb (fun k => bool_decide (is_Some (dict_get k kv))) required = true).
  { unfold required. cbn [forallb]. rewrite Gn, Gca, Gds, Gco, Gdf, Gfa. reflexivity. }
  rewrite Hall, !Hf.
  assert (Hvals : map_result (fun _ k => py_subscript (PDict kv) k) 0
                    ["itemName"; "itemCategory"; "itemDescription";
                     "color"; "dateFound"; "FoundAt"] =
                  Ok [PStr n; PStr ca; PStr ds; PStr co; PStr df; PStr fa]).
  { unfold map_result, py_subscript. rewrite Gn, Gca, Gds, Gco, Gdf, Gfa. reflexivity. }
  rewrite Hvals.
  change (map_result bind_param 0 [PStr n; PStr ca; PStr ds; PStr co; PStr df; PStr fa])
    with (Ok [VText n; VText ca; VText ds; VText co; VText df; VText fa]).
  cbv beta iota zeta. unfold insert_item, select_item. cbn [fst snd set_Items Items nth].
  rewrite lookup_insert_eq. reflexivity.
Qed.
End Registration.

(** C4 as stated fails: a registration whose name is present but empty is not
    answered with the Validation error; it is answered with 201 and its row
    is persisted. *)
Lemma add_item_empty_name_accepted :
  field (registration EmptyString) "itemName" = Some EmptyString /\
  (forall body,
     snd (run (add_item sample_engine calm (registration EmptyString)) sample_db) <> Sent 400 body) /\
  Items sample_db !! 3 = None /\
  exists i,
    Items (fst (run (add_item sample_engine calm (registration EmptyString)) sample_db)) !! 3 = Some i /\
    name i = VText EmptyString.
Proof.
  split; [reflexivity|]. split; [|split; [reflexivity|]].
  - intros body. vm_compute. discriminate.
  - eexists. split; [vm_compute; reflexivity|reflexivity].
Qed.

Lemma add_item_missing_key_witness :
  run (add_item sample_engine calm
         (PDict [("itemName", PStr "Scarf"); ("itemCategory", PStr "Clothing")])) sample_db =
  (sample_db, Sent 400 (PDict [("error", PStr "Missing required fields")])).
Proof.
  apply (add_item_missing_key sample_engine calm _ "color" sample_db).
  - unfold required. simpl. tauto.
  - reflexivity.
Defined.

(** C5 as stated fails, in two ways.  The record returned for a new item is
    not its full record: the last-updated timestamp of the row is under no
    key of it.  And not every request with the six fields present and
    non-empty inserts an item: one whose color is an array of two strings,
    and one whose name is a string that UTF-8 cannot encode, are answered
    with status 500 and store nothing. *)
Lemma add_item_record_not_full :
  (exists db' body i,
     run (add_item sample_engine calm (registration "Scarf")) sample_db =
       (db', Sent 201 body) /\
     Items sample_db !! 3 = None /\
     Items db' !! 3 = Some i /\
     ~ full_record body 3 i) /\
  (forall k, In k required ->
     exists v, dict_get k nested_registration = Some v /\ truthy v = true) /\
  run (add_item sample_engine calm (PDict nested_registration)) sample_db =
    (sample_db, Sent 500 (PDict [("error", PStr "error")])) /\
  (forall k, In k required ->
     exists v, dict_get k surrogate_registration = Some v /\ truthy v = true) /\
  run (add_item sample_engine calm (PDict surrogate_registration)) sample_db =
    (sample_db, Sent 500 (PDict [("error", PStr "error")])).
Proof.
  split; [|split; [|split; [|split]]].
  - exists (fst (run (add_item sample_engine calm (registration "Scarf")) sample_db)).
    exists (PDict [("itemID", PInt 3); ("itemName", PStr "Scarf");
                   ("itemCategory", PStr "Accessories");
                   ("itemDescription", PStr "Black, folding");
                   ("color", PStr "Black"); ("dateFound", PStr "2023-12-30 12:00:00");
                   ("FoundAt", PStr "Library")]).
    exists {| name := VText "Scarf"; category := VText "Accessories";
              description := VText "Black, folding"; color := VText "Black";
              dateFound := VText "2023-12-30 12:00:00"; foundAt := VText "Library";
              isClaimed := false; dateUpdated := VText "2024-01-01 12:00:00" |}.
    split; [vm_compute; reflexivity|].
    split; [reflexivity|].
    split; [vm_compute; reflexivity|].
    intros (_ & _ & _ & _ & _ & _ & _ & _ & kv & k & Hkv & Hin).
    injection Hkv as <-. simpl in Hin.
    repeat (destruct Hin as [Hin|Hin]; [discriminate Hin|]). exact Hin.
  - intros k Hk. unfold required in Hk. simpl in Hk.
    destruct Hk as [<-|[<-|[<-|[<-|[<-|[<-|[]]]]]]]; eexists; split; reflexivity.
  - vm_compute. reflexivity.
  - intros k Hk. unfold required in Hk. simpl in Hk.
    destruct Hk as [<-|[<-|[<-|[<-|[<-|[<-|[]]]]]]]; eexists; split; reflexivity.
  - vm_compute. reflexivity.
Qed.

Lemma add_item_filled_witness :
  exists id,
    Items sample_db !! id = None /\
    run (add_item sample_engine calm (registration "Scarf")) sample_db =
    ({| Items := <[id := {| name := VText "Scarf"; category := VText "Accessories";
                            description := VText "Black, folding"; color := VText "Black";
                            dateFound := VText "2023-12-30 12:00:00";
                            foundAt := VText "Library"; isClaimed := false;
                            dateUpdated := VText "2024-01-01 12:00:00" |}]> (Items sample_db);
        Claims := Claims sample_db; ItemStatus := ItemStatus sample_db;
        Employees := Employees sample_db |},
     Sent 201 (PDict [("itemID", PInt id); ("itemName", PStr "Scarf");
                      ("itemCategory", PStr "Accessories");
                      ("itemDescription", PStr "Black, folding");
                      ("color", PStr "Black"); ("dateFound", PStr "2023-12-30 12:00:00");
                      ("FoundAt", PStr "Library")])).
Proof.
  apply (add_item_filled sample_engine calm (registration "Scarf")
           "Scarf" "Accessories" "Black, folding" "Black" "2023-12-30 12:00:00" "Library"
           sample_db);
    try (split; [reflexivity|discriminate]).
  intros n. reflexivity.
Defined.

(** ** Listing the unclaimed items *)

Section Listing.
Context (E : Engine).

Lemma select_unclaimed_Permutation db :
  select_unclaimed db ≡ₚ
  filter (fun r => isClaimed (snd r) = false) (map_to_list (Items db)).
Proof. apply merge_sort_Permutation. Qed.

Lemma elem_of_select_unclaimed db k i :
  (k, i) ∈ select_unclaimed db <-> Items db !! k = Some i /\ isClaimed i = false.
Proof.
  rewrite select_unclaimed_Permutation, list_elem_of_filter, elem_of_map_to_list.
  simpl. tauto.
Qed.

Lemma NoDup_select_unclaimed db : NoDup (select_unclaimed db).
Proof.
  rewrite select_unclaimed_Permutation. apply NoDup_filter, NoDup_map_to_list.
Qed.

(** C6, as the code has it.  Listing the unclaimed items changes nothing in
    the store, whatever fails.  When no storage call fails, the response is
    the list of exactly the Items whose claimed flag is off, each once, in
    descending order of the stored date found (every row is dated no
    earlier than the rows after it), each with its identifier and a
    days-unclaimed value.  That value is null when the date found is no
    date.  Otherwise it is what SQLite computes: the Julian day numbers of
    now and of the date found as doubles, their difference as a double, and
    the fraction of that dropped (rounded towards zero).  It is not negative
    for a date found that is not in the future, and not positive for one that
    is not in the past.  For the dates SQLite has a Julian day number for
    (its count of milliseconds lies between 0 and 464269060799999, the end of
    the year 9999) it is the whole number of days from the date found to now
    (their distance in milliseconds over 86400000, rounded towards zero),
    except that when the two are a whole number of days apart it can be one
    day nearer to zero. *)
Theorem get_items_lists_unclaimed (env : Env) (db : Db) :
  let t := now env 1 in
  let rows := select_unclaimed db in
  fst (run (get_items E env) db) = db /\
  (no_fault env ->
   snd (run (get_items E env) db) = Sent 200 (PList (map (item_listing E t) rows))) /\
  NoDup rows /\
  (forall k i, (k, i) ∈ rows <-> Items db !! k = Some i /\ isClaimed i = false) /\
  StronglySorted by_dateFound_desc rows /\
  (forall r, exists kv,
     item_listing E t r = PDict kv /\
     dict_get "itemID" kv = Some (PInt (fst r)) /\
     dict_get "DaysUnclaimed" kv =
       Some (py_of_sql (DaysUnclaimed E t (dateFound (snd r))))) /\
  (forall found, julianday E found = None -> DaysUnclaimed E t found = VNull) /\
  (forall found ms, julianday E found = Some ms ->
     let days := binary64 (jd_days (julianday_now t) - jd_days ms) in
     let apart := julianday_now t - ms in
     DaysUnclaimed E t found = VInt (cast_integer days) /\
     (ms <= julianday_now t -> cast_integer days = Qfloor days /\ 0 <= cast_integer days) /\
     (julianday_now t <= ms -> cast_integer days = Qceiling days /\ cast_integer days <= 0) /\
     (0 <= ms <= 464269060799999 -> 0 <= julianday_now t <= 464269060799999 ->
      (Z.rem apart 86400000 <> 0 -> cast_integer days = Z.quot apart 86400000) /\
      (Z.rem apart 86400000 = 0 ->
       cast_integer days = Z.quot apart 86400000 \/
       cast_integer days = Z.quot apart 86400000 - Z.sgn (Z.quot apart 86400000)))).
Proof.
  intros t rows. rewrite get_items_run.
  split; [reflexivity|]. split; [|split; [|split; [|split; [|split; [|split]]]]].
  - intros Hf. rewrite first_fault_none by exact Hf. reflexivity.
  - apply NoDup_select_unclaimed.
  - apply elem_of_select_unclaimed.
  - apply StronglySorted_merge_sort; apply _.
  - intros r. eexists. split; [reflexivity|]. split; reflexivity.
  - intros found Hj. unfold DaysUnclaimed, days_since. rewrite Hj. reflexivity.
  - intros found ms Hj days apart. unfold DaysUnclaimed, days_since. rewrite Hj.
    split; [reflexivity|]. split; [|split].
    + intros Hle. apply cast_integer_nonneg, days_nonneg, Hle.
    + intros Hle. apply cast_integer_nonpos, days_nonpos, Hle.
    + intros Hms Hnow.
      destruct (days_close (julianday_now t) ms Hnow Hms) as [H1 H2].
      apply cast_integer_close; assumption.
Qed.
End Listing.

(** C6 as stated fails, in two ways.  For an item dated a day and a half
    ahead of now, the days-unclaimed value is -1, while the floor of the
    number of days between now and the date found is -2 (and the floor of
    their distance is 1).  For an item found 556629 days before now, to the
    millisecond, in the year 500, the value is 556628: the two Julian day
    numbers are rounded to doubles of different sizes, and their difference
    falls short of the whole number of days. *)
Lemma get_items_days_not_floor :
  (Items future_db !! 1 = Some (sample_item "2024-01-03" false) /\
   julianday sample_engine (VText "2024-01-03") = Some 212571000000000 /\
   Qfloor (exact_days noon 212571000000000) = -2 /\
   Qfloor (- exact_days noon 212571000000000) = 1 /\
   snd (run (get_items sample_engine calm) future_db) =
   Sent 200 (PList [PDict [("itemID", PInt 1); ("itemName", PStr "Umbrella");
                           ("itemDescription", PStr "Black, folding");
                           ("itemCategory", PStr "Accessories");
                           ("color", PStr "Black"); ("dateFound", PStr "2024-01-03");
                           ("FoundAt", PStr "Library"); ("isClaimed", PInt 0);
                           ("DaysUnclaimed", PInt (-1))]])) /\
  (Items ancient_db !! 1 = Some (sample_item "0500-01-01 04:00:00" false) /\
   julianday sample_engine (VText "0500-01-01 04:00:00") = Some 164478096000000 /\
   (exact_days early 164478096000000 == 556629)%Q /\
   snd (run (get_items sample_engine calm_early) ancient_db) =
   Sent 200 (PList [PDict [("itemID", PInt 1); ("itemName", PStr "Umbrella");
                           ("itemDescription", PStr "Black, folding");
                           ("itemCategory", PStr "Accessories");
                           ("color", PStr "Black");
                           ("dateFound", PStr "0500-01-01 04:00:00");
                           ("FoundAt", PStr "Library"); ("isClaimed", PInt 0);
                           ("DaysUnclaimed", PInt 556628)]])).
Proof.
  split.
  - split; [reflexivity|]. split; [reflexivity|]. split; [reflexivity|].
    split; [reflexivity|]. vm_compute. reflexivity.
  - split; [reflexivity|]. split; [reflexivity|]. split; [reflexivity|].
    vm_compute. reflexivity.
Qed.

(** Three unclaimed items, found 6, 2 and 4 days before now in the order of
    their identifiers, are listed from the latest date found to the earliest;
    the claimed item is not listed. *)
Lemma get_items_lists_unclaimed_witness :
  snd (run (get_items sample_engine calm) listing_db) =
  Sent 200 (PList [PDict [("itemID", PInt 2); ("itemName", PStr "Umbrella");
                          ("itemDescription", PStr "Black, folding");
                          ("itemCategory", PStr "Accessories");
                          ("color", PStr "Black");
                          ("dateFound", PStr "2023-12-30 12:00:00");
                          ("FoundAt", PStr "Library"); ("isClaimed", PInt 0);
                          ("DaysUnclaimed", PInt 2)];
                   PDict [("itemID", PInt 3); ("itemName", PStr "Umbrella");
                          ("itemDescription", PStr "Black, folding");
                          ("itemCategory", PStr "Accessories");
                          ("color", PStr "Black");
                          ("dateFound", PStr "2023-12-28 12:00:00");
                          ("FoundAt", PStr "Library"); ("isClaimed", PInt 0);
                          ("DaysUnclaimed", PInt 4)];
                   PDict [("itemID", PInt 1); ("itemName", PStr "Umbrella");
                          ("itemDescription", PStr "Black, folding");
                          ("itemCategory", PStr "Accessories");
                          ("color", PStr "Black");
                          ("dateFound", PStr "2023-12-26 12:00:00");
                          ("FoundAt", PStr "Library"); ("isClaimed", PInt 0);
                          ("DaysUnclaimed", PInt 6)]]).
Proof.
  pose proof (get_items_lists_unclaimed sample_engine calm listing_db) as (_ & H & _).
  rewrite H by (intros n; reflexivity). vm_compute. reflexivity.
Defined.

(** ** Metrics *)

Lemma py_or_count (n : Z) : py_or (PInt n) (PInt 0) = PInt n.
Proof.
  unfold py_or, truthy. destruct (Z.eqb_spec n 0) as [->|]; reflexivity.
Qed.



Section Metrics.
Context (E : Engine).

Lemma get_metrics_run env db :
  no_fault env ->
  run (get_metrics E env) db =
  (db,
   match py_round2 (py_or (match snd (select_unclaimed_stats E (now env 1) db) with
                           | Some q => PFloat q
                           | None => PNone
                           end) (PInt 0)) with
   | Ok average =>
       Sent 200
         (PList [PDict [("Status", PStr "Unclaimed");
                        ("TotalItems",
                         py_or (PInt (fst (select_unclaimed_stats E (now env 1) db))) (PInt 0));
                        ("AverageDaysUnclaimed", average)];
                 PDict [("Status", PStr "Claimed");
                        ("TotalItems", py_or (PInt (select_claimed_count db)) (PInt 0));
                        ("AverageDaysUnclaimed", PInt 0)]])
   | Raise e => send_error_json E e
   end).
Proof.
  intros Hf. unfold get_metrics. run_handler. rewrite !Hf. cbn -[select_unclaimed_stats].
  destruct (py_round2 _); reflexivity.
Qed.

End Metrics.



(** ** What any sequence of requests keeps *)

Section Invariants.
Context (E : Engine).

Lemma handle_step env r db : step E db (fst (handle E env r db)).
Proof.
  destruct r as [|data| |claim_id| |];
    try (rewrite handle_read by exact I; constructor).
  - unfold handle. destruct (add_item_disk E env data db) as [->|[p ->]]; constructor.
  - unfold handle. rewrite approve_claim_run.
    destruct (fault env 0); [constructor|].
    destruct (first_fault env [1; 2]%nat); [constructor|].
    destruct (select_pending_item E claim_id db) as [item_id|] eqn:Hs; [|constructor].
    destruct (first_fault env [3; 4; 5; 6]%nat); [constructor|].
    cbn [fst]. constructor. exact Hs.
Qed.

Lemma serve_keeps (R : relation Db) :
  (forall d, R d d) ->
  (forall a b c, R a b -> R b c -> R a c) ->
  (forall a b, step E a b -> R a b) ->
  forall reqs db, R db (fst (serve E reqs db)).
Proof.
  intros Hrefl Htrans Hstep reqs.
  induction reqs as [|[env r] reqs IH]; intros db; [apply Hrefl|].
  rewrite serve_cons. cbn [fst].
  eapply Htrans; [apply Hstep, handle_step|apply IH].
Qed.

(** X1.  The status history is append-only under every sequence of requests:
    the history after is the history before followed by rows that all carry
    the label "Claimed". *)
Theorem history_append_only (reqs : list (Env * Request)) (db : Db) :
  exists rows,
    ItemStatus (fst (serve E reqs db)) = (ItemStatus db ++ rows)%list /\
    Forall (fun r => status r = "Claimed") rows.
Proof.
  revert reqs db.
  apply (serve_keeps (fun a b => exists rows,
           ItemStatus b = (ItemStatus a ++ rows)%list /\
           Forall (fun r => status r = "Claimed") rows)).
  - intros d. exists []. split; [symmetry; apply app_nil_r|constructor].
  - intros a b c (r1 & H1 & F1) (r2 & H2 & F2). exists (r1 ++ r2)%list.
    split; [rewrite H2, H1, app_assoc; reflexivity|apply Forall_app; split; assumption].
  - intros a b Hs. destruct Hs as [|p t|env claim_id item_id Hsel].
    + exists []. split; [symmetry; apply app_nil_r|constructor].
    + exists []. split; [symmetry; apply app_nil_r|constructor].
    + exists [claimed_row item_id (now env 5)]. rewrite approval_ItemStatus.
      split; [reflexivity|repeat constructor].
Qed.

(** X2.  No sequence of requests changes the Employees table. *)
Theorem employees_never_written (reqs : list (Env * Request)) (db : Db) :
  Employees (fst (serve E reqs db)) = Employees db.
Proof.
  revert reqs db. apply (serve_keeps (fun a b => Employees b = Employees a)).
  - reflexivity.
  - intros a b c H1 H2. rewrite H2. exact H1.
  - intros a b Hs. destruct Hs as [|p t|env claim_id item_id Hsel];
      [reflexivity|reflexivity|apply approval_Employees].
Qed.

Lemma approval_Claims_gen env claim_id item_id db :
  Claims (approval E env claim_id item_id db) =
  match rowid_of_text E claim_id with
  | Some k => alter approved k (Claims db)
  | None => Claims db
  end.
Proof.
  unfold approval, update_claim_approved.
  destruct (rowid_of_text E claim_id); reflexivity.
Qed.

(** X3.  Under every sequence of requests the set of claims is fixed: no claim
    is created or deleted, a claim changes in nothing but its status, a claim
    that is not Pending never changes again, and the only status a claim can
    move to is "Approved". *)
Theorem claims_only_get_approved (reqs : list (Env * Request)) (db : Db) :
  let db' := fst (serve E reqs db) in
  (forall k, Claims db !! k = None -> Claims db' !! k = None) /\
  (forall k c, Claims db !! k = Some c ->
     exists c', Claims db' !! k = Some c' /\ same_but_status c c' /\
                (verificationStatus c <> "Pending" -> c' = c) /\
                (c' = c \/ verificationStatus c' = "Approved")).
Proof.
  revert reqs db.
  apply (serve_keeps (fun a b =>
           (forall k, Claims a !! k = None -> Claims b !! k = None) /\
           (forall k c, Claims a !! k = Some c ->
              exists c', Claims b !! k = Some c' /\ same_but_status c c' /\
                         (verificationStatus c <> "Pending" -> c' = c) /\
                         (c' = c \/ verificationStatus c' = "Approved")))).
  - intros d. split; [auto|]. intros k c Hc. exists c.
    repeat split; auto.
  - intros a b c [N1 S1] [N2 S2]. split; [auto|].
    intros k x Hx. destruct (S1 k x Hx) as (y & Hy & (E1 & E2 & E3 & E4 & E5 & E6) & Py & Ay).
    destruct (S2 k y Hy) as (z & Hz & (F1 & F2 & F3 & F4 & F5 & F6) & Pz & Az).
    exists z. split; [exact Hz|]. split; [|split].
    + repeat split; congruence.
    + intros Hp. rewrite (Py Hp) in *. exact (Pz Hp).
    + destruct Az as [->|Hz']; [exact Ay|right; exact Hz'].
  - intros a b Hs. destruct Hs as [|p t|env claim_id item_id Hsel].
    + split; [auto|]. intros k c Hc. exists c. repeat split; auto.
    + split; [auto|]. intros k c Hc. exists c. repeat split; auto.
    + rewrite approval_Claims_gen. unfold select_pending_item in Hsel.
      destruct (rowid_of_text E claim_id) as [k0|]; [|discriminate].
      destruct (Claims a !! k0) as [c0|] eqn:Hc0; [|discriminate].
      destruct (String.eqb_spec (verificationStatus c0) "Pending") as [Hp|]; [|discriminate].
      split.
      * intros k Hk. rewrite lookup_alter. case_decide; [subst k0|]; rewrite Hk; reflexivity.
      * intros k c Hc. rewrite lookup_alter. case_decide; [subst k0|]; rewrite Hc; simpl.
        -- exists (approved c). repeat split; auto.
           intros Hnp. congruence.
        -- exists c. repeat split; auto.
Qed.

(** X4.  Under every sequence of requests no item is deleted, and an item
    changes in nothing but its claimed flag and last-updated timestamp: name,
    category, description, color, date found and location stay as
    registered. *)
Theorem items_keep_their_description (reqs : list (Env * Request)) (db : Db) (k : Z) (i : Item) :
  Items db !! k = Some i ->
  exists i', Items (fst (serve E reqs db)) !! k = Some i' /\ same_but_flag_and_stamp i i'.
Proof.
  revert k i. revert reqs db.
  apply (serve_keeps (fun a b => forall k i, Items a !! k = Some i ->
           exists i', Items b !! k = Some i' /\ same_but_flag_and_stamp i i')).
  - intros d k i Hi. exists i. repeat split; auto.
  - intros a b c H1 H2 k i Hi.
    destruct (H1 k i Hi) as (j & Hj & (E1 & E2 & E3 & E4 & E5 & E6)).
    destruct (H2 k j Hj) as (l & Hl & (F1 & F2 & F3 & F4 & F5 & F6)).
    exists l. split; [exact Hl|]. repeat split; congruence.
  - intros a b Hs k i Hi. destruct Hs as [|p t|env claim_id item_id Hsel].
    + exists i. repeat split; auto.
    + rewrite insert_item_Items, lookup_insert_ne.
      * exists i. repeat split; auto.
      * intros Heq. rewrite <- Heq, next_rowid_fresh in Hi. discriminate.
    + rewrite approval_Items, lookup_alter.
      case_decide; [subst item_id|]; rewrite Hi; simpl; eexists; repeat split; reflexivity.
Qed.
End Invariants.

Section Counting.
Context (E : Engine).

Lemma handle_history env r db :
  length (ItemStatus (fst (handle E env r db))) =
  (length (ItemStatus db) +
   if approved_exchange (env, r, snd (handle E env r db)) then 1 else 0)%nat.
Proof.
  destruct r as [|data| |claim_id| |];
    try (rewrite handle_read by exact I; unfold approved_exchange; simpl; lia).
  - unfold handle, approved_exchange. cbn [fst snd].
    destruct (add_item_disk E env data db) as [->|[p ->]]; simpl; lia.
  - unfold handle, approved_exchange. cbn [fst snd]. rewrite approve_claim_run.
    destruct (fault env 0); [simpl; lia|].
    destruct (first_fault env [1; 2]%nat); [simpl; lia|].
    destruct (select_pending_item E claim_id db) as [item_id|]; [|simpl; lia].
    destruct (first_fault env [3; 4; 5; 6]%nat); [simpl; lia|].
    cbn [fst snd approved_json]. rewrite approval_ItemStatus, length_app. simpl. lia.
Qed.

(** X5.  The status history grows by exactly one row for each approval that is
    answered with status 200, and by nothing else: after any sequence of
    requests its length is the length before plus the number of such
    exchanges. *)
Theorem history_counts_approvals (reqs : list (Env * Request)) (db : Db) :
  length (ItemStatus (fst (serve E reqs db))) =
  (length (ItemStatus db) +
   length (List.filter approved_exchange (combine reqs (snd (serve E reqs db)))))%nat.
Proof.
  revert db. induction reqs as [|[env r] reqs IH]; intros db; [simpl; lia|].
  rewrite serve_cons. cbn [fst snd combine List.filter].
  rewrite IH, handle_history.
  destruct (approved_exchange (env, r, snd (handle E env r db))); simpl; lia.
Qed.

Lemma next_rowid_above {R} (t : gmap Z R) (k : Z) :
  is_Some (t !! k) -> k < next_rowid t.
Proof.
  intros [x Hx].
  assert (Hin : In k (map fst (map_to_list t))).
  { apply in_map_iff. exists (k, x). split; [reflexivity|].
    apply list_elem_of_In, elem_of_map_to_list, Hx. }
  destruct (max_rowid_bound _ _ Hin) as (m & Hm & Hle).
  unfold next_rowid, max_rowid. rewrite Hm. lia.
Qed.

Lemma max_rowid_key (l : list Z) (m : Z) :
  foldr (fun k acc => Some (match acc with None => k | Some m => Z.max k m end))
    None l = Some m ->
  In m l.
Proof.
  revert m. induction l as [|x l IH]; simpl; [discriminate|].
  intros m. destruct (foldr _ None l) as [m'|].
  - intros [= <-]. destruct (Z.max_spec x m') as [[_ ->]|[_ ->]]; [right|left]; auto.
  - intros [= <-]. left. reflexivity.
Qed.

Lemma next_rowid_is_rowid {R} (t : gmap Z R) :
  below_largest_rowid t -> next_rowid t <= 2 ^ 63 - 1.
Proof.
  intros Hbelow. unfold next_rowid. destruct (max_rowid t) as [m|] eqn:Hm; [|lia].
  apply max_rowid_key, in_map_iff in Hm as ([k x] & <- & Hin).
  apply list_elem_of_In, elem_of_map_to_list in Hin.
  specialize (Hbelow k (mk_is_Some _ _ Hin)). simpl. lia.
Qed.

(** X6.  As long as no identifier of the table is the largest rowid
    (2^63 - 1), whenever a registration is answered with status 201, the
    record it returns names an identifier that is greater than every
    identifier in the table before the request and is a rowid itself, and the
    table afterwards holds, under that identifier, a row whose claimed flag
    is off. *)
Theorem add_item_identifier_is_new
    (env : Env) (data : pyval) (db : Db) (body : pyval) :
  below_largest_rowid (Items db) ->
  snd (run (add_item E env data) db) = Sent 201 body ->
  exists kv id i,
    body = PDict kv /\ dict_get "itemID" kv = Some (PInt id) /\
    (forall k, is_Some (Items db !! k) -> k < id) /\
    id <= 2 ^ 63 - 1 /\
    Items (fst (run (add_item E env data) db)) !! id = Some i /\
    isClaimed i = false.
Proof.
  intros Hbelow. rewrite add_item_run.
  destruct (all_in required data) as [[|]|e]; try discriminate.
  destruct (fault env 0); [discriminate|].
  destruct (map_result _ 0%nat _) as [values|e]; [|discriminate].
  destruct (map_result bind_param 0%nat values) as [params|e]; [|discriminate].
  destruct (fault env 1); [discriminate|].
  destruct (fault env 2); [discriminate|].
  cbv zeta. destruct (fault env 3); [discriminate|].
  unfold select_item, insert_item. cbn [fst snd set_Items Items].
  rewrite lookup_insert_eq. cbn [fst snd]. intros [= <-].
  eexists. exists (next_rowid (Items db)). eexists.
  split; [reflexivity|]. split; [reflexivity|]. split; [apply next_rowid_above|].
  split; [apply next_rowid_is_rowid, Hbelow|].
  cbn [fst snd set_Items Items]. rewrite lookup_insert_eq. split; reflexivity.
Qed.

(** X7.  The response of an approval tells whether it wrote: either the
    response is the success and the store holds the three writes of the
    approval, or the response is not the success and the store is exactly as
    it was.  So an approval that failed can be sent again. *)
Theorem approve_claim_writes_iff_success (env : Env) (claim_id : string) (db : Db) :
  (exists item_id,
     select_pending_item E claim_id db = Some item_id /\
     run (approve_claim E env claim_id) db =
       (approval E env claim_id item_id db, approved_json claim_id item_id)) \/
  (fst (run (approve_claim E env claim_id) db) = db /\
   forall body, snd (run (approve_claim E env claim_id) db) <> Sent 200 body).
Proof.
  rewrite approve_claim_run.
  destruct (fault env 0); [right; split; [reflexivity|discriminate]|].
  destruct (first_fault env [1; 2]%nat); [right; split; [reflexivity|discriminate]|].
  destruct (select_pending_item E claim_id db) as [item_id|];
    [|right; split; [reflexivity|discriminate]].
  destruct (first_fault env [3; 4; 5; 6]%nat); [right; split; [reflexivity|discriminate]|].
  left. exists item_id. split; reflexivity.
Qed.

(** X8.  When the database cannot be opened (storage call 0 fails),
    [approve_claim] sends no response at all: its [except] clause reads the
    variable [conn], which was never bound, and the exception leaves the
    handler.  The four read handlers answer the same failure with status 500
    and the text of the error.  Nothing is written in either case. *)
Theorem approve_claim_silent_when_offline (env : Env) (claim_id : string) (db : Db) :
  fault env 0 = true ->
  run (approve_claim E env claim_id) db = (db, Crashed) /\
  run (get_items E env) db =
    (db, Sent 500 (PDict [("error", PStr (str E (DatabaseError 0)))])) /\
  run (get_claims E env) db =
    (db, Sent 500 (PDict [("error", PStr (str E (DatabaseError 0)))])) /\
  run (get_metrics E env) db =
    (db, Sent 500 (PDict [("error", PStr (str E (DatabaseError 0)))])) /\
  run (get_employees E env) db =
    (db, Sent 500 (PDict [("error", PStr (str E (DatabaseError 0)))])).
Proof.
  intros H0. rewrite approve_claim_run, get_items_run, get_claims_run, get_employees_run.
  unfold first_fault. simpl. rewrite H0. repeat split.
  unfold get_metrics. run_handler. rewrite H0. reflexivity.
Qed.
End Counting.

(** ** Failures of a registration *)

Section Registration_failures.
Context (E : Engine).

Lemma map_result_cons {A B} (f : nat -> A -> result B) (i : nat) (x : A) (l : list A) :
  map_result f i (x :: l) =
  match f i x with
  | Ok y => match map_result f (S i) l with
            | Ok ys => Ok (y :: ys)
            | Raise e => Raise e
            end
  | Raise e => Raise e
  end.
Proof. reflexivity. Qed.

Lemma subscripts_of_dict (kv : list (string * pyval)) (keys : list string) (i : nat) :
  (forall k, In k keys -> is_Some (dict_get k kv)) ->
  exists values,
    map_result (fun _ k => py_subscript (PDict kv) k) i keys = Ok values /\
    forall k v, In k keys -> dict_get k kv = Some v -> In v values.
Proof.
  revert i. induction keys as [|k keys IH]; intros i Hall.
  - exists []. split; [reflexivity|]. intros k v [].
  - destruct (Hall k (or_introl eq_refl)) as [v Hv].
    destruct (IH (S i) (fun k' Hk' => Hall k' (or_intror Hk'))) as (values & Hvs & Hin).
    exists (v :: values). rewrite map_result_cons, Hvs. cbn [py_subscript].
    rewrite Hv. split; [reflexivity|].
    intros k' v' [<-|Hk'] Hv'.
    + left. congruence.
    + right. eapply Hin; eassumption.
Qed.

Lemma subscripts_of_other (data : pyval) (k : string) (keys : list string) (i : nat) :
  (forall kv, data <> PDict kv) ->
  map_result (fun _ k => py_subscript data k) i (k :: keys) = Raise TypeError.
Proof.
  intros Hd. rewrite map_result_cons.
  destruct data; try reflexivity. exfalso. eapply Hd. reflexivity.
Qed.

Lemma bind_params_raise (values : list pyval) (v : pyval) (i : nat) :
  In v values ->
  (forall j, exists e, bind_param j v = Raise e) ->
  exists e, map_result bind_param i values = Raise e.
Proof.
  revert i. induction values as [|x values IH]; intros i [].
  - subst x. intros Hv. destruct (Hv i) as [e He]. exists e.
    rewrite map_result_cons, He. reflexivity.
  - intros Hv. rewrite map_result_cons. destruct (bind_param i x) as [y|e]; [|eauto].
    destruct (IH (S i) H Hv) as [e He]. rewrite He. eauto.
Qed.

Lemma add_item_fields_run env data n ca ds co df fa db :
  field data "itemName" = Some n ->
  field data "itemCategory" = Some ca ->
  field data "itemDescription" = Some ds ->
  field data "color" = Some co ->
  field data "dateFound" = Some df ->
  field data "FoundAt" = Some fa ->
  run (add_item E env data) db =
  match first_fault env [0; 1; 2]%nat with
  | Some k => (db, send_error_json E (DatabaseError k))
  | None =>
      let id := next_rowid (Items db) in
      let stored :=
        {| Items := <[id := {| name := VText n; category := VText ca;
                               description := VText ds; color := VText co;
                               dateFound := VText df; foundAt := VText fa;
                               isClaimed := false;
                               dateUpdated := VText (datetime_now (now env 1)) |}]>
                      (Items db);
           Claims := Claims db; ItemStatus := ItemStatus db;
           Employees := Employees db |} in
      if fault env 3 then (stored, send_error_json E (DatabaseError 3))
      else (stored,
            Sent 201 (PDict [("itemID", PInt id); ("itemName", PStr n);
                             ("itemCategory", PStr ca); ("itemDescription", PStr ds);
                             ("color", PStr co); ("dateFound", PStr df);
                             ("FoundAt", PStr fa)]))
  end.
Proof.
  intros Hn Hca Hds Hco Hdf Hfa.
  destruct (field_inv _ _ _ Hn) as (kv & -> & Gn).
  destruct (field_inv _ _ _ Hca) as (? & [= <-] & Gca).
  destruct (field_inv _ _ _ Hds) as (? & [= <-] & Gds).
  destruct (field_inv _ _ _ Hco) as (? & [= <-] & Gco).
  destruct (field_inv _ _ _ Hdf) as (? & [= <-] & Gdf).
  destruct (field_inv _ _ _ Hfa) as (? & [= <-] & Gfa).
  rewrite add_item_run, all_in_dict.
  assert (Hall : forallb (fun k => bool_decide (is_Some (dict_get k kv))) required = true).
  { unfold required. cbn [forallb]. rewrite Gn, Gca, Gds, Gco, Gdf, Gfa. reflexivity. }
  rewrite Hall. unfold first_fault. cbn [List.find].
  destruct (fault env 0); [reflexivity|].
  assert (Hvals : map_result (fun _ k => py_subscript (PDict kv) k) 0
                    ["itemName"; "itemCategory"; "itemDescription";
                     "color"; "dateFound"; "FoundAt"] =
                  Ok [PStr n; PStr ca; PStr ds; PStr co; PStr df; PStr fa]).
  { unfold map_result, py_subscript. rewrite Gn, Gca, Gds, Gco, Gdf, Gfa. reflexivity. }
  rewrite Hvals.
  change (map_result bind_param 0 [PStr n; PStr ca; PStr ds; PStr co; PStr df; PStr fa])
    with (Ok [VText n; VText ca; VText ds; VText co; VText df; VText fa]).
  cbv beta iota.
  destruct (fault env 1); [reflexivity|].
  destruct (fault env 2); [reflexivity|].
  cbv zeta. unfold insert_item, select_item. cbn [fst snd set_Items Items nth].
  rewrite lookup_insert_eq.
  destruct (fault env 3); reflexivity.
Qed.

(** X9.  Where a registration fails decides what is left behind.  For a body
    with the six fields, a failure in opening the database, in the INSERT or
    in the commit is answered with status 500 and stores nothing; a failure in
    the SELECT that follows the commit is answered with status 500 as well,
    but the new row is already stored. *)
Theorem add_item_failure_points
    (env : Env) (data : pyval) (n ca ds co df fa : string) (db : Db) :
  field data "itemName" = Some n ->
  field data "itemCategory" = Some ca ->
  field data "itemDescription" = Some ds ->
  field data "color" = Some co ->
  field data "dateFound" = Some df ->
  field data "FoundAt" = Some fa ->
  (forall k, (k <= 2)%nat -> fault env k = true ->
     (forall m, (m < k)%nat -> fault env m = false) ->
     run (add_item E env data) db =
     (db, Sent 500 (PDict [("error", PStr (str E (DatabaseError k)))]))) /\
  (fault env 0 = false -> fault env 1 = false -> fault env 2 = false ->
   fault env 3 = true ->
   run (add_item E env data) db =
   ({| Items := <[next_rowid (Items db) :=
                    {| name := VText n; category := VText ca; description := VText ds;
                       color := VText co; dateFound := VText df; foundAt := VText fa;
                       isClaimed := false;
                       dateUpdated := VText (datetime_now (now env 1)) |}]> (Items db);
       Claims := Claims db; ItemStatus := ItemStatus db; Employees := Employees db |},
    Sent 500 (PDict [("error", PStr (str E (DatabaseError 3)))]))).
Proof.
  intros Hn Hca Hds Hco Hdf Hfa.
  rewrite (add_item_fields_run env data n ca ds co df fa db Hn Hca Hds Hco Hdf Hfa).
  unfold first_fault. cbn [List.find]. split.
  - intros k Hk Hf Hbefore.
    assert (Hcases : k = 0%nat \/ k = 1%nat \/ k = 2%nat) by lia.
    destruct Hcases as [-> | [-> | ->]].
    + rewrite Hf. reflexivity.
    + rewrite (Hbefore 0%nat), Hf by lia. reflexivity.
    + rewrite (Hbefore 0%nat), (Hbefore 1%nat), Hf by lia. reflexivity.
  - intros H0 H1 H2 H3. rewrite H0, H1, H2. cbv zeta. rewrite H3. reflexivity.
Qed.

(** X10.  A body that is not a JSON object never registers anything: whatever
    it is (an array, a string, a number, null) and whatever fails, the store
    is left as it was and the response is an error, with status 400 or 500. *)
Theorem add_item_needs_an_object (env : Env) (data : pyval) (db : Db) :
  (forall kv, data <> PDict kv) ->
  fst (run (add_item E env data) db) = db /\
  exists body, snd (run (add_item E env data) db) = Sent 400 body \/
               snd (run (add_item E env data) db) = Sent 500 body.
Proof.
  intros Hd. rewrite add_item_run.
  destruct (all_in required data) as [[|]|e]; cbn [fst snd].
  - destruct (fault env 0); cbn [fst snd]; [split; [reflexivity|eexists; right; reflexivity]|].
    rewrite (subscripts_of_other _ _ _ _ Hd). cbn [fst snd].
    split; [reflexivity|eexists; right; reflexivity].
  - split; [reflexivity|eexists; left; reflexivity].
  - split; [reflexivity|eexists; right; reflexivity].
Qed.

(** X11.  A registration that has all six keys but holds, under one of them, a
    value that cannot be bound as an SQL parameter (a JSON array or object,
    or an integer outside 64 bits) stores nothing and is answered with
    status 500. *)
Theorem add_item_unbindable_value
    (env : Env) (kv : list (string * pyval)) (k : string) (v : pyval) (db : Db) :
  (forall k', In k' required -> is_Some (dict_get k' kv)) ->
  In k required ->
  dict_get k kv = Some v ->
  (forall j, exists e, bind_param j v = Raise e) ->
  fst (run (add_item E env (PDict kv)) db) = db /\
  exists e, snd (run (add_item E env (PDict kv)) db) =
            Sent 500 (PDict [("error", PStr (str E e))]).
Proof.
  intros Hall Hk Hv Hbad. rewrite add_item_run, all_in_dict.
  assert (Hpresent : forallb (fun k => bool_decide (is_Some (dict_get k kv))) required = true).
  { apply forallb_forall. intros k' Hk'. apply bool_decide_eq_true, Hall, Hk'. }
  rewrite Hpresent.
  destruct (fault env 0); cbn [fst snd]; [split; [reflexivity|eexists; reflexivity]|].
  assert (Hsame : forall k', In k' ["itemName"; "itemCategory"; "itemDescription";
                                     "color"; "dateFound"; "FoundAt"] <-> In k' required).
  { intros k'. unfold required. simpl. tauto. }
  destruct (subscripts_of_dict kv
              ["itemName"; "itemCategory"; "itemDescription";
               "color"; "dateFound"; "FoundAt"] 0)
    as (values & Hvals & Hin).
  { intros k' Hk'. apply Hall, Hsame, Hk'. }
  rewrite Hvals.
  destruct (bind_params_raise values v 0 (Hin k v (proj2 (Hsame k) Hk) Hv) Hbad) as [e He].
  rewrite He. cbn [fst snd]. split; [reflexivity|eexists; reflexivity].
Qed.
End Registration_failures.

(** ** How the operations compose *)

Section Composition.
Context (E : Engine).

Lemma handle_approved_inv env claim_id item_id db :
  snd (handle E env (ApproveClaim claim_id) db) = approved_json claim_id item_id ->
  select_pending_item E claim_id db = Some item_id /\
  fst (handle E env (ApproveClaim claim_id) db) = approval E env claim_id item_id db.
Proof.
  unfold handle. rewrite approve_claim_run.
  destruct (fault env 0); [discriminate|].
  destruct (first_fault env [1; 2]%nat); [discriminate|].
  destruct (select_pending_item E claim_id db) as [item|]; [|discriminate].
  destruct (first_fault env [3; 4; 5; 6]%nat); [discriminate|].
  cbn [fst snd]. intros [= ->]. split; reflexivity.
Qed.

Lemma select_pending_item_inv claim_id item_id db :
  select_pending_item E claim_id db = Some item_id ->
  exists k c, rowid_of_text E claim_id = Some k /\ Claims db !! k = Some c /\
              verificationStatus c = "Pending" /\ itemID c = item_id.
Proof.
  unfold select_pending_item.
  destruct (rowid_of_text E claim_id) as [k|]; [|discriminate].
  destruct (Claims db !! k) as [c|] eqn:Hc; [|discriminate].
  destruct (String.eqb_spec (verificationStatus c) "Pending") as [Hp|]; [|discriminate].
  intros [= <-]. exists k, c. repeat split; assumption.
Qed.

Lemma claim_listing_approval env claim_id item_id db r :
  claim_listing (approval E env claim_id item_id db) r = claim_listing db r.
Proof.
  unfold claim_listing. rewrite approval_Items, approval_Employees, lookup_alter.
  case_decide; [subst item_id|reflexivity].
  destruct (Items db !! itemID (snd r)); reflexivity.
Qed.

Lemma elem_of_select_pending_claims db body :
  body ∈ select_pending_claims db <->
  exists k c, Claims db !! k = Some c /\ verificationStatus c = "Pending" /\
              claim_listing db (k, c) = Some body.
Proof.
  unfold select_pending_claims. rewrite list_elem_of_omap. split.
  - intros ([k c] & Hin & Hb). apply list_elem_of_filter in Hin as [Hp Hin].
    apply elem_of_map_to_list in Hin. exists k, c. repeat split; assumption.
  - intros (k & c & Hc & Hp & Hb). exists (k, c). split; [|exact Hb].
    apply list_elem_of_filter. split; [exact Hp|]. apply elem_of_map_to_list, Hc.
Qed.

(** X12.  After an approval that succeeded, the list of pending claims is the
    list before without the approved claim: a listing without storage failure
    returns exactly the entries of the claims that were Pending before, apart
    from the one under the approved key, each entry as it was. *)
Theorem approved_claim_leaves_the_list
    (env1 env2 : Env) (claim_id : string) (k item_id : Z) (db : Db) :
  rowid_of_text E claim_id = Some k ->
  snd (handle E env1 (ApproveClaim claim_id) db) = approved_json claim_id item_id ->
  no_fault env2 ->
  exists listing,
    snd (handle E env2 GetClaims (fst (handle E env1 (ApproveClaim claim_id) db))) =
      Sent 200 (PList listing) /\
    forall body,
      body ∈ listing <->
      exists k' c, k' <> k /\ Claims db !! k' = Some c /\
                   verificationStatus c = "Pending" /\
                   claim_listing db (k', c) = Some body.
Proof.
  intros Hk Hok Hf. destruct (handle_approved_inv _ _ _ _ Hok) as [Hsel ->].
  destruct (select_pending_item_inv _ _ _ Hsel) as (k0 & c0 & Hk0 & Hc0 & Hp0 & _).
  rewrite Hk in Hk0. injection Hk0 as <-.
  eexists. split.
  { unfold handle. rewrite get_claims_run, first_fault_none by exact Hf. reflexivity. }
  intros body. rewrite elem_of_select_pending_claims. split.
  - intros (k' & c & Hc & Hp & Hb).
    rewrite (approval_Claims E _ _ _ _ _ _ Hk Hc0), lookup_insert in Hc.
    rewrite claim_listing_approval in Hb.
    case_decide.
    + injection Hc as <-. discriminate Hp.
    + exists k', c. repeat split; auto.
  - intros (k' & c & Hne & Hc & Hp & Hb). exists k', c.
    rewrite (approval_Claims E _ _ _ _ _ _ Hk Hc0), lookup_insert_ne by auto.
    rewrite claim_listing_approval. repeat split; assumption.
Qed.

(** X13.  After an approval that succeeded, the referenced item is gone from the
    list of unclaimed items and nothing else about the list changes: a listing
    without storage failure returns the rows of exactly the items that were
    unclaimed before, apart from the referenced one. *)
Theorem approved_item_leaves_the_list
    (env1 env2 : Env) (claim_id : string) (item_id : Z) (db : Db) :
  snd (handle E env1 (ApproveClaim claim_id) db) = approved_json claim_id item_id ->
  no_fault env2 ->
  exists rows,
    snd (handle E env2 GetItems (fst (handle E env1 (ApproveClaim claim_id) db))) =
      Sent 200 (PList (map (item_listing E (now env2 1)) rows)) /\
    forall j i,
      (j, i) ∈ rows <->
      j <> item_id /\ Items db !! j = Some i /\ isClaimed i = false.
Proof.
  intros Hok Hf. destruct (handle_approved_inv _ _ _ _ Hok) as [_ ->].
  eexists. split.
  { unfold handle. rewrite get_items_run, first_fault_none by exact Hf. reflexivity. }
  intros j i. rewrite elem_of_select_unclaimed, approval_Items, lookup_alter.
  case_decide.
  - subst j. destruct (Items db !! item_id) as [x|]; simpl; split.
    + intros [[= <-] Hc]. discriminate Hc.
    + intros [Hne _]. congruence.
    + intros [? _]. discriminate.
    + intros [Hne _]. congruence.
  - split; [intros [? ?]; repeat split; auto|intros (_ & ? & ?); split; assumption].
Qed.

(** X14.  After a registration that was answered with status 201, the new item
    is on the list of unclaimed items, under the identifier the response
    named and with its claimed flag off, and every item listed before is
    still listed: a listing without storage failure returns the rows of the
    items that were unclaimed before and the row of the new one. *)
Theorem registered_item_joins_the_list
    (env1 env2 : Env) (data : pyval) (db : Db) (body : pyval) :
  snd (handle E env1 (AddItem data) db) = Sent 201 body ->
  no_fault env2 ->
  exists kv id i rows,
    body = PDict kv /\ dict_get "itemID" kv = Some (PInt id) /\
    Items db !! id = None /\ isClaimed i = false /\
    snd (handle E env2 GetItems (fst (handle E env1 (AddItem data) db))) =
      Sent 200 (PList (map (item_listing E (now env2 1)) rows)) /\
    forall j x,
      (j, x) ∈ rows <->
      (j = id /\ x = i) \/ (Items db !! j = Some x /\ isClaimed x = false).
Proof.
  unfold handle. rewrite add_item_run.
  destruct (all_in required data) as [[|]|e]; try discriminate.
  destruct (fault env1 0); [discriminate|].
  destruct (map_result _ 0%nat _) as [values|e]; [|discriminate].
  destruct (map_result bind_param 0%nat values) as [params|e]; [|discriminate].
  destruct (fault env1 1); [discriminate|].
  destruct (fault env1 2); [discriminate|].
  cbv zeta. destruct (fault env1 3); [discriminate|].
  unfold select_item, insert_item. cbn [fst snd set_Items Items].
  rewrite lookup_insert_eq. cbn [fst snd]. intros [= <-] Hf.
  eexists. exists (next_rowid (Items db)).
  exists {| name := nth 0 params VNull; category := nth 1 params VNull;
            description := nth 2 params VNull; color := nth 3 params VNull;
            dateFound := nth 4 params VNull; foundAt := nth 5 params VNull;
            isClaimed := false; dateUpdated := VText (datetime_now (now env1 1)) |}.
  eexists.
  split; [reflexivity|]. split; [reflexivity|]. split; [apply next_rowid_fresh|].
  split; [reflexivity|]. split.
  { rewrite get_items_run, first_fault_none by exact Hf. reflexivity. }
  intros j x. rewrite elem_of_select_unclaimed. unfold set_Items. cbn [Items].
  rewrite lookup_insert.
  case_decide.
  - subst j. rewrite next_rowid_fresh. split.
    + intros [[= <-] _]. left. split; reflexivity.
    + intros [[_ ->]|[? _]]; [split; reflexivity|discriminate].
  - split.
    + intros [? ?]. right. split; assumption.
    + intros [[? _]|[? ?]]; [congruence|split; assumption].
Qed.
End Composition.

(** ** The counts behind the metrics *)

Lemma count_after_insert {R} (P : Z * R -> Prop) `{forall x, Decision (P x)}
    (t : gmap Z R) (k : Z) (y : R) :
  t !! k = None ->
  length (filter P (map_to_list (<[k := y]> t))) =
  ((if decide (P (k, y)) then 1 else 0) + length (filter P (map_to_list t)))%nat.
Proof.
  intros Hk. rewrite (map_to_list_insert t k y Hk), filter_cons.
  destruct (decide (P (k, y))); reflexivity.
Qed.

Lemma count_after_update {R} (P : Z * R -> Prop) `{forall x, Decision (P x)}
    (t : gmap Z R) (k : Z) (x y : R) :
  t !! k = Some x ->
  (length (filter P (map_to_list (<[k := y]> t))) + (if decide (P (k, x)) then 1 else 0) =
   length (filter P (map_to_list t)) + (if decide (P (k, y)) then 1 else 0))%nat.
Proof.
  intros Hk.
  rewrite <- (map_to_list_delete t k x Hk).
  rewrite <- (map_to_list_delete (<[k := y]> t) k y (lookup_insert_eq t k y)).
  rewrite delete_insert_eq, !filter_cons.
  destruct (decide (P (k, x))), (decide (P (k, y))); simpl; lia.
Qed.

Section Metrics_moves.
Context (E : Engine).

(** X15.  The two counts of the metrics follow the operations.  A registration
    answered with status 201 adds one to the count of unclaimed items and
    leaves the count of claimed items.  An approval that succeeded moves one
    item from the unclaimed count to the claimed count when the referenced
    item was unclaimed, and changes neither count when the item was already
    claimed or does not exist. *)
Theorem counts_follow_the_operations (env : Env) (t : instant) (db : Db) :
  (forall data body,
     snd (handle E env (AddItem data) db) = Sent 201 body ->
     let db' := fst (handle E env (AddItem data) db) in
     fst (select_unclaimed_stats E t db') = fst (select_unclaimed_stats E t db) + 1 /\
     select_claimed_count db' = select_claimed_count db) /\
  (forall claim_id item_id,
     snd (handle E env (ApproveClaim claim_id) db) = approved_json claim_id item_id ->
     let db' := fst (handle E env (ApproveClaim claim_id) db) in
     let moved := match Items db !! item_id with
                  | Some i => if isClaimed i then 0 else 1
                  | None => 0
                  end in
     fst (select_unclaimed_stats E t db') = fst (select_unclaimed_stats E t db) - moved /\
     select_claimed_count db' = select_claimed_count db + moved).
Proof.
  split.
  - intros data body. unfold handle. rewrite add_item_run.
    destruct (all_in required data) as [[|]|e]; try discriminate.
    destruct (fault env 0); [discriminate|].
    destruct (map_result _ 0%nat _) as [values|e]; [|discriminate].
    destruct (map_result bind_param 0%nat values) as [params|e]; [|discriminate].
    destruct (fault env 1); [discriminate|].
    destruct (fault env 2); [discriminate|].
    cbv zeta. destruct (fault env 3); [discriminate|].
    destruct (select_item _ _); [|discriminate]. intros _. cbn [fst snd].
    unfold select_unclaimed_stats, select_claimed_count. cbn [fst snd].
    rewrite insert_item_Items.
    rewrite !(count_after_insert _ _ _ _ (next_rowid_fresh (Items db))).
    cbn [snd isClaimed]. rewrite !decide_True by reflexivity || discriminate.
    split; [|rewrite decide_False by discriminate]; lia.
  - intros claim_id item_id Hok db' moved.
    destruct (handle_approved_inv _ _ _ _ _ Hok) as [_ Hdb]. subst db'. rewrite Hdb.
    unfold select_unclaimed_stats, select_claimed_count. cbn [fst snd].
    rewrite approval_Items. subst moved.
    destruct (Items db !! item_id) as [i|] eqn:Hi.
    + rewrite (alter_present _ _ _ _ Hi).
      pose proof (count_after_update (fun r : Z * Item => isClaimed (snd r) = false)
                    (Items db) item_id i (mark_claimed (now env 4) i) Hi) as Hu.
      pose proof (count_after_update (fun r : Z * Item => isClaimed (snd r) = true)
                    (Items db) item_id i (mark_claimed (now env 4) i) Hi) as Hc.
      cbn [snd mark_claimed isClaimed] in Hu, Hc.
      destruct (isClaimed i);
        repeat match type of Hu with
               | context [decide ?P] => destruct (decide P); try discriminate; try congruence
               end;
        repeat match type of Hc with
               | context [decide ?P] => destruct (decide P); try discriminate; try congruence
               end;
        lia.
    + rewrite (alter_absent _ _ _ Hi). lia.
Qed.
End Metrics_moves.

(** ** The numbers the listings report *)

Lemma round2_near (q : Q) :
  (Qabs q <= 8388607)%Q ->
  (q - ((1 # 200) + (1 # 2147483648)) <= round2 q)%Q /\
  (round2 q <= q + ((1 # 200) + (1 # 2147483648)))%Q.
Proof.
  intros Hq. apply Qabs_Qle_condition in Hq as [Hq1 Hq2].
  unfold round2. rewrite Qred_correct.
  destruct (round_half_even_near (q * 100)) as [H1 H2].
  set (z := inject_Z (round_half_even (q * 100))) in *.
  assert (Hz : (z / 100 == z * (1 # 100))%Q) by (unfold Qdiv; reflexivity).
  set (dec := (z / 100)%Q) in *.
  assert (He : ulp_exponent dec <= 23 - 53).
  { apply ulp_exponent_below; [lia|]. change (2 ^ 23)%Q with 8388608%Q.
    apply Qabs_case; intros _; lra. }
  pose proof (pow2_le _ _ He) as Hp. change (2 ^ (23 - 53))%Q with (1 # 1073741824)%Q in Hp.
  destruct (binary64_near dec) as [G1 G2].
  pose proof (pow2_pos (ulp_exponent dec)).
  split; lra.
Qed.

Section Reported_numbers.
Context (E : Engine).

(** X16.  The average the metrics report is within five thousandths of a day
    (and the rounding of one double) of the average SQLite computed.  When no
    storage call fails and that average is at most 8388607 days in size, the
    response has the two entries of the metrics, and the average of the
    Unclaimed entry is either the integer 0, when no unclaimed item has a
    date or SQLite's average is zero, or a number no further than
    1/200 + 1/2^31 from SQLite's average of the ages of the unclaimed items
    that have a date. *)
Theorem reported_average_is_close (env : Env) (db : Db) :
  no_fault env ->
  let ages := unclaimed_ages E (now env 1) db in
  (Qabs (real_avg E ages) <= 8388607)%Q ->
  exists n m average,
    run (get_metrics E env) db =
    (db, Sent 200
           (PList [PDict [("Status", PStr "Unclaimed"); ("TotalItems", PInt n);
                          ("AverageDaysUnclaimed", average)];
                   PDict [("Status", PStr "Claimed"); ("TotalItems", PInt m);
                          ("AverageDaysUnclaimed", PInt 0)]])) /\
    ((average = PInt 0 /\ (ages = [] \/ (real_avg E ages == 0)%Q)) \/
     (exists a, average = PFloat a /\ ages <> [] /\
                (real_avg E ages - ((1 # 200) + (1 # 2147483648)) <= a)%Q /\
                (a <= real_avg E ages + ((1 # 200) + (1 # 2147483648)))%Q)).
Proof.
  intros Hf ages Hsize. rewrite (get_metrics_run E env db Hf), !py_or_count.
  unfold select_unclaimed_stats. cbn [fst snd].
  change (omap (fun r => days_since E (now env 1) (dateFound (snd r)))
            (filter (fun r => isClaimed (snd r) = false) (map_to_list (Items db))))
    with ages.
  destruct ages as [|a0 ages'] eqn:Ha.
  - do 3 eexists. split; [reflexivity|]. left. split; [reflexivity|left; reflexivity].
  - unfold py_or, truthy.
    destruct (Qeq_bool (real_avg E (a0 :: ages')) 0) eqn:Hz; cbn [negb py_round2].
    + do 3 eexists. split; [reflexivity|]. left. split; [reflexivity|].
      right. apply Qeq_bool_iff, Hz.
    + do 3 eexists. split; [reflexivity|]. right. eexists. split; [reflexivity|].
      split; [discriminate|]. apply round2_near, Hsize.
Qed.

(** X17.  The days-unclaimed value moves with the clock and with the date: for
    one item it never goes down as time passes, and at one moment an item
    found earlier never shows fewer days than an item found later. *)
Theorem days_unclaimed_is_monotone
    (t1 t2 : instant) (found1 found2 : sqlval) (ms1 ms2 : Z) :
  julianday E found1 = Some ms1 ->
  julianday E found2 = Some ms2 ->
  exists d11 d12 d21,
    DaysUnclaimed E t1 found1 = VInt d11 /\
    DaysUnclaimed E t2 found1 = VInt d12 /\
    DaysUnclaimed E t1 found2 = VInt d21 /\
    (julianday_now t1 <= julianday_now t2 -> d11 <= d12) /\
    (ms1 <= ms2 -> d21 <= d11).
Proof.
  intros H1 H2. unfold DaysUnclaimed, days_since. rewrite H1, H2.
  do 3 eexists. split; [reflexivity|]. split; [reflexivity|]. split; [reflexivity|].
  split; intros Hle; apply cast_integer_mono, binary64_mono;
    pose proof (jd_days_mono _ _ Hle); lra.
Qed.
End Reported_numbers.

(** ** The other listings *)

#[global] Instance by_itemsManaged_desc_trans : Transitive by_itemsManaged_desc.
Proof.
  intros a b c. unfold by_itemsManaged_desc. rewrite !Is_true_true, !Z.leb_le. lia.
Qed.

Section Listings.
Context (E : Engine).

(** X18.  Listing the employees changes nothing in the store, whatever fails.
    When no storage call fails, the response lists every employee exactly
    once, with the identifier and the recorded items-managed count, in
    descending order of that count (no row has a smaller count than a row
    after it). *)
Theorem get_employees_sorted (env : Env) (db : Db) :
  let rows := select_employees db in
  fst (run (get_employees E env) db) = db /\
  (no_fault env ->
   snd (run (get_employees E env) db) = Sent 200 (PList (map employee_listing rows))) /\
  NoDup rows /\
  (forall k e, (k, e) ∈ rows <-> Employees db !! k = Some e) /\
  StronglySorted by_itemsManaged_desc rows /\
  (forall r, exists kv,
     employee_listing r = PDict kv /\
     dict_get "employeeID" kv = Some (PInt (fst r)) /\
     dict_get "ItemsManaged" kv = Some (PInt (itemsManaged (snd r)))).
Proof.
  intros rows. rewrite get_employees_run.
  assert (Hp : rows ≡ₚ map_to_list (Employees db)) by apply merge_sort_Permutation.
  split; [reflexivity|]. split; [|split; [|split; [|split]]].
  - intros Hf. rewrite first_fault_none by exact Hf. reflexivity.
  - rewrite Hp. apply NoDup_map_to_list.
  - intros k e. rewrite Hp. apply elem_of_map_to_list.
  - apply StronglySorted_merge_sort; apply _.
  - intros r. eexists. split; [reflexivity|]. split; reflexivity.
Qed.

(** X19.  Listing the pending claims changes nothing in the store, whatever
    fails.  When no storage call fails, every entry of the response is the
    entry of a claim that is Pending and whose item exists, and every such
    claim has an entry; the entry shows the claim's identifier and the item's
    name, and shows the word "Unassigned" as managing staff when the claim
    has no handling employee or names an employee that does not exist. *)
Theorem get_claims_lists_pending (env : Env) (db : Db) :
  fst (run (get_claims E env) db) = db /\
  (no_fault env ->
   exists listing,
     snd (run (get_claims E env) db) = Sent 200 (PList listing) /\
     (forall body, body ∈ listing ->
        exists k c i kv,
          Claims db !! k = Some c /\ verificationStatus c = "Pending" /\
          Items db !! itemID c = Some i /\
          body = PDict kv /\ dict_get "claimID" kv = Some (PInt k)) /\
     (forall k c i,
        Claims db !! k = Some c -> verificationStatus c = "Pending" ->
        Items db !! itemID c = Some i ->
        exists kv staff,
          PDict kv ∈ listing /\
          dict_get "claimID" kv = Some (PInt k) /\
          dict_get "itemName" kv = Some (py_of_sql (name i)) /\
          dict_get "ManagingStaff" kv = Some (PStr staff) /\
          (handledBy c = None -> staff = "Unassigned") /\
          (forall h, handledBy c = Some h -> Employees db !! h = None ->
                     staff = "Unassigned"))).
Proof.
  rewrite get_claims_run. split; [reflexivity|].
  intros Hf. rewrite first_fault_none by exact Hf. eexists. split; [reflexivity|]. split.
  - intros body Hb. apply elem_of_select_pending_claims in Hb as (k & c & Hc & Hp & Hl).
    unfold claim_listing in Hl. cbn [fst snd] in Hl.
    destruct (Items db !! itemID c) as [i|] eqn:Hi; [|discriminate].
    injection Hl as <-. exists k, c, i. eexists. repeat split; try assumption; reflexivity.
  - intros k c i Hc Hp Hi. eexists. eexists. split.
    + apply elem_of_select_pending_claims. exists k, c. split; [exact Hc|]. split; [exact Hp|].
      unfold claim_listing. cbn [fst snd]. rewrite Hi. reflexivity.
    + split; [reflexivity|]. split; [reflexivity|]. split; [reflexivity|]. split.
      * intros ->. reflexivity.
      * intros h -> ->. reflexivity.
Qed.
End Listings.

(** ** The dispatch of requests *)

Lemma split_not_nil (sep : ascii) (s : string) : split sep s <> [].
Proof.
  destruct s as [|c s]; simpl; [discriminate|].
  destruct (Ascii.eqb c sep); [discriminate|].
  destruct (split sep s); discriminate.
Qed.

Lemma split_head (s : string) :
  exists pieces, split "/" s = before_slash s :: pieces.
Proof.
  induction s as [|c s [pieces IH]]; simpl; [eexists; reflexivity|].
  destruct (Ascii.eqb c "/"); [eexists; reflexivity|].
  rewrite IH. eexists; reflexivity.
Qed.

Lemma split_piece (p rest : string) :
  before_slash p = p ->
  split "/" (p ++ String "/" rest) = p :: split "/" rest.
Proof.
  induction p as [|c p IH]; simpl.
  - intros _. reflexivity.
  - destruct (Ascii.eqb c "/") eqn:Hc; simpl; [discriminate|].
    intros [= Hp]. rewrite (IH Hp). reflexivity.
Qed.

Lemma startswith_inv (s p : string) :
  startswith s p = true -> exists rest, s = (p ++ rest)%string.
Proof.
  unfold startswith. revert s. induction p as [|c p IH]; intros s.
  - intros _. exists s. reflexivity.
  - destruct s as [|d s]; simpl; [discriminate|].
    destruct (ascii_dec c d) as [->|]; [|discriminate].
    intros Hp. destruct (IH s Hp) as [rest ->]. exists rest. reflexivity.
Qed.


Lemma claims_path_segment (rest : string) :
  nth_error (split "/" ("/api/claims/" ++ rest)) 3 = Some (before_slash rest).
Proof.
  change ("/api/claims/" ++ rest)%string
    with (EmptyString ++ String "/" ("api" ++ String "/" ("claims" ++ String "/" rest)))%string.
  rewrite !split_piece by reflexivity.
  destruct (split_head rest) as [pieces ->]. reflexivity.
Qed.



Lemma claims_path_not_items (rest : string) :
  String.eqb ("/api/claims/" ++ rest) "/api/items" = false.
Proof. reflexivity. Qed.



Section Dispatching.
Context (host : Host) (E : Engine).


(** X21.  Reading the claim identifier out of the path never fails.  Every path
    that passes the test of [do_POST] (it starts with /api/claims/ and ends
    with /approve) has a fourth piece, so [split('/')[3]] raises no
    IndexError: the identifier is the text between the third slash and the
    next one, or the end of the path.  So once the header and the body are
    read, no POST leaves [do_POST] with that exception. *)
Theorem claim_id_is_always_found
    (env : Env) (path : string) (content_length : Z) (sent : string) (db : Db) :
  snd (do_POST host E env path content_length sent db) <> Uncaught /\
  (forall data,
     request_data host content_length sent = Some data ->
     startswith path "/api/claims/" = true ->
     endswith path "/approve" = true ->
     exists rest,
       path = ("/api/claims/" ++ rest)%string /\
       do_POST host E env path content_length sent db =
       (fst (run (approve_claim E env (before_slash rest)) db),
        Handled (snd (run (approve_claim E env (before_slash rest)) db)))).
Proof.
  split.
  - unfold do_POST. destruct (request_data host content_length sent); [|discriminate].
    destruct (String.eqb path "/api/items"); [destruct (run _ db); discriminate|].
    destruct (startswith path "/api/claims/") eqn:Hs; cbn [andb]; [|discriminate].
    destruct (endswith path "/approve"); [|discriminate].
    destruct (startswith_inv _ _ Hs) as [rest ->]. rewrite claims_path_segment.
    destruct (run _ db). discriminate.
  - intros data Hdata Hs He. destruct (startswith_inv _ _ Hs) as [rest ->].
    exists rest. split; [reflexivity|].
    unfold do_POST. rewrite Hdata, Hs, He, claims_path_segment, claims_path_not_items.
    cbn [andb].
    destruct (run (approve_claim E env (before_slash rest)) db). reflexivity.
Qed.

(** X22.  No GET request writes: for every path, and whatever fails, [do_GET]
    leaves the store exactly as it was. *)
Theorem do_GET_never_writes (env : Env) (path : string) (db : Db) :
  fst (do_GET host E env path db) = db.
Proof.
  unfold do_GET.
  destruct (String.eqb path "/" || String.eqb path "/ui.html"); [reflexivity|].
  destruct (String.eqb path "/api/items").
  { rewrite get_items_run. reflexivity. }
  destruct (String.eqb path "/api/claims").
  { rewrite get_claims_run. reflexivity. }
  destruct (String.eqb path "/api/metrics").
  { pose proof (get_metrics_disk E env db) as Hd.
    destruct (run (get_metrics E env) db). exact Hd. }
  destruct (String.eqb path "/api/employees").
  { rewrite get_employees_run. reflexivity. }
  reflexivity.
Qed.


(** X24.  A registration without a body is a registration of the empty object.
    When the request announces a body and none arrives, or announces none and
    [json.loads] reads the text of two braces as the empty object, the POST to
    /api/items is answered with status 400 and "Missing required fields", not
    with "Invalid JSON", and stores nothing. *)
Theorem post_items_without_a_body
    (env : Env) (content_length : Z) (sent : string) (db : Db) :
  (0 < content_length /\ sent = EmptyString) \/
  (content_length <= 0 /\ json_loads host "{}" = Some (PDict [])) ->
  do_POST host E env "/api/items" content_length sent db =
  (db, Handled (Sent 400 (PDict [("error", PStr "Missing required fields")]))).
Proof.
  intros Hbody.
  assert (Hdata : request_data host content_length sent = Some (PDict [])).
  { unfold request_data. destruct Hbody as [[Hpos ->]|[Hneg Hjson]].
    - rewrite (proj2 (Z.ltb_lt 0 content_length) Hpos). reflexivity.
    - rewrite (proj2 (Z.ltb_ge 0 content_length) Hneg). exact Hjson. }
  unfold do_POST. rewrite Hdata.
  change (String.eqb "/api/items" "/api/items") with true. cbv iota.
  rewrite add_item_run. reflexivity.
Qed.
End Dispatching.

(** ** Checks on the sample store *)

Lemma claims_only_get_approved_witness :
  exists c',
    Claims (fst (serve sample_engine
                   [(calm, ApproveClaim "3"); (calm, ApproveClaim "1")] sample_db)) !! 3
      = Some c' /\
    c' = sample_claim 2 "Approved".
Proof.
  destruct (proj2 (claims_only_get_approved sample_engine
                     [(calm, ApproveClaim "3"); (calm, ApproveClaim "1")] sample_db)
              3 (sample_claim 2 "Approved") eq_refl) as (c' & Hc & _ & Hsame & _).
  exists c'. split; [exact Hc|]. apply Hsame. discriminate.
Defined.

Lemma items_keep_their_description_witness :
  exists i',
    Items (fst (serve sample_engine
                  [(calm, ApproveClaim "1"); (calm, AddItem (registration "Scarf"))]
                  sample_db)) !! 1 = Some i' /\
    same_but_flag_and_stamp (sample_item "2023-12-30 12:00:00" false) i'.
Proof.
  apply (items_keep_their_description sample_engine _ sample_db 1). reflexivity.
Defined.

Lemma add_item_identifier_is_new_witness :
  exists kv id i,
    PDict [("itemID", PInt 3); ("itemName", PStr "Scarf");
           ("itemCategory", PStr "Accessories"); ("itemDescription", PStr "Black, folding");
           ("color", PStr "Black"); ("dateFound", PStr "2023-12-30 12:00:00");
           ("FoundAt", PStr "Library")] = PDict kv /\
    dict_get "itemID" kv = Some (PInt id) /\
    (forall k, is_Some (Items sample_db !! k) -> k < id) /\
    id <= 2 ^ 63 - 1 /\
    Items (fst (run (add_item sample_engine calm (registration "Scarf")) sample_db)) !! id
      = Some i /\
    isClaimed i = false.
Proof.
  apply (add_item_identifier_is_new sample_engine calm (registration "Scarf") sample_db).
  - intros k [x Hx]. unfold sample_db in Hx. cbn [Items] in Hx.
    apply lookup_insert_Some in Hx as [[<- _]|[_ Hx]]; [lia|].
    apply lookup_singleton_Some in Hx as [<- _]. lia.
  - vm_compute. reflexivity.
Defined.

Lemma approve_claim_silent_when_offline_witness :
  run (approve_claim sample_engine offline "1") sample_db = (sample_db, Crashed) /\
  run (get_items sample_engine offline) sample_db =
    (sample_db, Sent 500 (PDict [("error", PStr "database is locked")])).
Proof.
  destruct (approve_claim_silent_when_offline sample_engine offline "1" sample_db eq_refl)
    as (Ha & Hi & _).
  split; [exact Ha|exact Hi].
Defined.

Lemma add_item_failure_points_witness :
  snd (run (add_item sample_engine late_failure (registration "Scarf")) sample_db) =
    Sent 500 (PDict [("error", PStr "database is locked")]) /\
  is_Some (Items (fst (run (add_item sample_engine late_failure (registration "Scarf"))
                         sample_db)) !! 3).
Proof.
  pose proof (proj2 (add_item_failure_points sample_engine late_failure
                       (registration "Scarf") "Scarf" "Accessories" "Black, folding"
                       "Black" "2023-12-30 12:00:00" "Library" sample_db
                       eq_refl eq_refl eq_refl eq_refl eq_refl eq_refl)
                eq_refl eq_refl eq_refl eq_refl) as H.
  rewrite H. split; [reflexivity|]. eexists. vm_compute. reflexivity.
Defined.

Lemma add_item_needs_an_object_witness :
  fst (run (add_item sample_engine calm names_only) sample_db) = sample_db /\
  exists body,
    snd (run (add_item sample_engine calm names_only) sample_db) = Sent 400 body \/
    snd (run (add_item sample_engine calm names_only) sample_db) = Sent 500 body.
Proof.
  apply (add_item_needs_an_object sample_engine calm names_only sample_db).
  intros kv. discriminate.
Defined.

Lemma add_item_unbindable_value_witness :
  fst (run (add_item sample_engine calm (PDict nested_registration)) sample_db) = sample_db /\
  exists e,
    snd (run (add_item sample_engine calm (PDict nested_registration)) sample_db) =
    Sent 500 (PDict [("error", PStr (str sample_engine e))]).
Proof.
  apply (add_item_unbindable_value sample_engine calm nested_registration "color"
           (PList [PStr "red"; PStr "blue"]) sample_db).
  - intros k Hk. unfold required in Hk. simpl in Hk.
    destruct Hk as [<-|[<-|[<-|[<-|[<-|[<-|[]]]]]]]; eexists; reflexivity.
  - unfold required. simpl. tauto.
  - reflexivity.
  - intros j. eexists. reflexivity.
Defined.

Lemma approved_claim_leaves_the_list_witness :
  exists listing,
    snd (handle sample_engine calm GetClaims
           (fst (handle sample_engine calm (ApproveClaim "1") sample_db))) =
      Sent 200 (PList listing) /\
    forall body,
      body ∈ listing <->
      exists k' c, k' <> 1 /\ Claims sample_db !! k' = Some c /\
                   verificationStatus c = "Pending" /\
                   claim_listing sample_db (k', c) = Some body.
Proof.
  apply (approved_claim_leaves_the_list sample_engine calm calm "1" 1 1 sample_db).
  - reflexivity.
  - vm_compute. reflexivity.
  - intros n. reflexivity.
Defined.

Lemma approved_item_leaves_the_list_witness :
  exists rows,
    snd (handle sample_engine calm GetItems
           (fst (handle sample_engine calm (ApproveClaim "1") sample_db))) =
      Sent 200 (PList (map (item_listing sample_engine noon) rows)) /\
    forall j i,
      (j, i) ∈ rows <->
      j <> 1 /\ Items sample_db !! j = Some i /\ isClaimed i = false.
Proof.
  apply (approved_item_leaves_the_list sample_engine calm calm "1" 1 sample_db).
  - vm_compute. reflexivity.
  - intros n. reflexivity.
Defined.

Lemma registered_item_joins_the_list_witness :
  exists kv id i rows,
    PDict [("itemID", PInt 3); ("itemName", PStr "Scarf");
           ("itemCategory", PStr "Accessories"); ("itemDescription", PStr "Black, folding");
           ("color", PStr "Black"); ("dateFound", PStr "2023-12-30 12:00:00");
           ("FoundAt", PStr "Library")] = PDict kv /\
    dict_get "itemID" kv = Some (PInt id) /\
    Items sample_db !! id = None /\ isClaimed i = false /\
    snd (handle sample_engine calm GetItems
           (fst (handle sample_engine calm (AddItem (registration "Scarf")) sample_db))) =
      Sent 200 (PList (map (item_listing sample_engine noon) rows)) /\
    forall j x,
      (j, x) ∈ rows <->
      (j = id /\ x = i) \/ (Items sample_db !! j = Some x /\ isClaimed x = false).
Proof.
  apply (registered_item_joins_the_list sample_engine calm calm (registration "Scarf")
           sample_db).
  - vm_compute. reflexivity.
  - intros n. reflexivity.
Defined.

Lemma counts_follow_the_operations_witness :
  fst (select_unclaimed_stats sample_engine noon
         (fst (handle sample_engine calm (ApproveClaim "1") sample_db))) =
    fst (select_unclaimed_stats sample_engine noon sample_db) - 1 /\
  select_claimed_count (fst (handle sample_engine calm (ApproveClaim "1") sample_db)) =
    select_claimed_count sample_db + 1.
Proof.
  apply (proj2 (counts_follow_the_operations sample_engine calm noon sample_db) "1" 1).
  vm_compute. reflexivity.
Defined.

Lemma reported_average_is_close_witness :
  exists n m average,
    run (get_metrics sample_engine calm) recent_db =
    (recent_db,
     Sent 200
       (PList [PDict [("Status", PStr "Unclaimed"); ("TotalItems", PInt n);
                      ("AverageDaysUnclaimed", average)];
               PDict [("Status", PStr "Claimed"); ("TotalItems", PInt m);
                      ("AverageDaysUnclaimed", PInt 0)]])) /\
    ((average = PInt 0 /\
      (unclaimed_ages sample_engine noon recent_db = [] \/
       (real_avg sample_engine (unclaimed_ages sample_engine noon recent_db) == 0)%Q)) \/
     (exists a, average = PFloat a /\ unclaimed_ages sample_engine noon recent_db <> [] /\
                (real_avg sample_engine (unclaimed_ages sample_engine noon recent_db) -
                 ((1 # 200) + (1 # 2147483648)) <= a)%Q /\
                (a <= real_avg sample_engine (unclaimed_ages sample_engine noon recent_db) +
                      ((1 # 200) + (1 # 2147483648)))%Q)).
Proof.
  apply (reported_average_is_close sample_engine calm recent_db).
  - intros n. reflexivity.
  - vm_compute. discriminate.
Defined.

Lemma days_unclaimed_is_monotone_witness :
  exists d11 d12 d21,
    DaysUnclaimed sample_engine noon (VText "2023-12-28 12:00:00") = VInt d11 /\
    DaysUnclaimed sample_engine next_noon (VText "2023-12-28 12:00:00") = VInt d12 /\
    DaysUnclaimed sample_engine noon (VText "2023-12-30 12:00:00") = VInt d21 /\
    (julianday_now noon <= julianday_now next_noon -> d11 <= d12) /\
    (212570524800000 <= 212570697600000 -> d21 <= d11).
Proof.
  apply (days_unclaimed_is_monotone sample_engine noon next_noon
           (VText "2023-12-28 12:00:00") (VText "2023-12-30 12:00:00")
           212570524800000 212570697600000); reflexivity.
Defined.

Lemma get_employees_sorted_witness :
  snd (run (get_employees sample_engine calm) staff_db) =
  Sent 200
    (PList [PDict [("employeeID", PInt 3); ("firstName", PStr "Lena"); ("lastName", PNone);
                   ("position", PStr "Lead"); ("ItemsManaged", PInt 9)];
            PDict [("employeeID", PInt 1); ("firstName", PStr "Mira");
                   ("lastName", PStr "Das"); ("position", PStr "Clerk");
                   ("ItemsManaged", PInt 5)];
            PDict [("employeeID", PInt 2); ("firstName", PStr "Ravi");
                   ("lastName", PStr "Nair"); ("position", PStr "Clerk");
                   ("ItemsManaged", PInt 2)]]).
Proof.
  destruct (get_employees_sorted sample_engine calm staff_db) as (_ & H & _).
  rewrite H by (intros n; reflexivity). vm_compute. reflexivity.
Defined.

Lemma get_claims_lists_pending_witness :
  exists listing,
    snd (run (get_claims sample_engine calm) sample_db) = Sent 200 (PList listing) /\
    length listing = 2%nat.
Proof.
  destruct (proj2 (get_claims_lists_pending sample_engine calm sample_db)
              (fun _ => eq_refl)) as (listing & Hl & _).
  exists listing. split; [exact Hl|].
  assert (Hc : snd (run (get_claims sample_engine calm) sample_db) =
               Sent 200 (PList (select_pending_claims sample_db)))
    by (vm_compute; reflexivity).
  rewrite Hc in Hl. injection Hl as <-. vm_compute. reflexivity.
Defined.


Lemma claim_id_is_always_found_witness :
  snd (do_POST sample_host sample_engine calm "/api/claims/approve" 0 EmptyString sample_db) =
  Handled not_pending_json.
Proof.
  destruct (proj2 (claim_id_is_always_found sample_host sample_engine calm
                     "/api/claims/approve" 0 EmptyString sample_db)
              (PDict []) eq_refl eq_refl eq_refl) as (rest & Hpath & Hrun).
  rewrite Hrun. compute in Hpath. injection Hpath as <-. vm_compute. reflexivity.
Defined.

Lemma post_items_without_a_body_witness :
  do_POST sample_host sample_engine calm "/api/items" 0 EmptyString sample_db =
  (sample_db, Handled (Sent 400 (PDict [("error", PStr "Missing required fields")]))).
Proof.
  apply (post_items_without_a_body sample_host sample_engine calm 0 EmptyString sample_db).
  right. split; [lia|reflexivity].
Defined.

(** A POST whose Content-Length is no number, or whose body cannot be read,
    is left without a response; the same request with a length and a body is
    answered. *)
Lemma post_without_a_response :
  do_POST_request sample_host sample_engine calm "/api/items" (Some "ten") (Some "{}")
    sample_db = (sample_db, Uncaught) /\
  do_POST_request sample_host sample_engine calm "/api/items" (Some "2") None
    sample_db = (sample_db, Uncaught) /\
  do_POST_request sample_host sample_engine calm "/api/items" (Some "2") (Some "{}")
    sample_db =
    (sample_db, Handled (Sent 400 (PDict [("error", PStr "Missing required fields")]))).
Proof. repeat split; vm_compute; reflexivity. Qed.
